(** * castai-k8s-version-upgrader: node rotation helpers

    A shallow embedding of [src/node_utils.py] and [src/cast_api_utils.py].

    Conventions of the embedding:
    - a Python [dict] with string keys is a [gmap string _]; an attribute or
      key that may be [None] / missing is an [option];
    - Python [int] is [Z]; instants and durations are integers too (the unit
      is stated where they appear);
    - a raised exception is the [Raise] case of [result];
    - calls to the cluster control plane, to the provisioning service, to the
      clock and to the drain executor go through a [World], which records
      every call in a chronological [trace];
    - [logging] calls have no effect on results or on the cluster and are
      left out. *)

From Stdlib Require Import ZArith String Ascii List Bool Lia.
From Stdlib Require OrderedTypeEx.
From stdpp Require Import base gmap strings list.
Import ListNotations.

Local Open Scope string_scope.
Local Open Scope Z_scope.
Local Open Scope list_scope.

(** ** Exceptions and results *)

Inductive exn : Type :=
| ApiException          (* kubernetes.client.ApiException *)
| RequestException      (* requests.RequestException *)
| TimeoutExpired        (* subprocess.TimeoutExpired *)
| CalledProcessError    (* subprocess.CalledProcessError, check=True *)
| ValueError
| AttributeError
| TypeError
| OutOfFuel.            (* not a Python exception: a loop of the model ran out
                           of its iteration bound; shown unreachable below *)

Inductive result (A : Type) : Type :=
| Ok (a : A)
| Raise (e : exn).
Arguments Ok {A} a.
Arguments Raise {A} e.

(** ** Kubernetes objects, as far as the code reads them *)

Record V1NodeCondition : Type := {
  condition_type : string;
  condition_status : string
}.

Record V1Node : Type := {
  metadata_name : string;
  metadata_labels : option (gmap string string);
  (* microseconds since the epoch, the resolution of [datetime] *)
  metadata_creation_timestamp : Z;
  spec_unschedulable : bool;
  (* [None] as long as the node has reported no condition: the client
     leaves the attribute unset *)
  status_conditions : option (list V1NodeCondition)
}.

Record V1Pod : Type := {
  pod_metadata_name : string;
  pod_metadata_labels : option (gmap string string);
  pod_spec_node_name : option string
}.

(** ** Python string helpers *)

(** [s.split(sep)] for a one-character separator: every occurrence splits. *)
Fixpoint split_on (sep : ascii) (s : string) : list string :=
  match s with
  | EmptyString => [EmptyString]
  | String c rest =>
      if Ascii.eqb c sep then EmptyString :: split_on sep rest
      else match split_on sep rest with
           | [] => [String c EmptyString]
           | hd :: tl => String c hd :: tl
           end
  end.

(** [s.count(sep)] *)
Fixpoint count_char (sep : ascii) (s : string) : nat :=
  match s with
  | EmptyString => O
  | String c rest =>
      if Ascii.eqb c sep then S (count_char sep rest) else count_char sep rest
  end.

(** [a, b = parts]: unpacking into exactly two names. *)
Definition unpack2 (parts : list string) : result (string * string) :=
  match parts with
  | [a; b] => Ok (a, b)
  | _ => Raise ValueError
  end.

(** [d.get(k) == v] for a dict [d] of strings. *)
Definition dict_get_eqb (d : gmap string string) (k v : string) : bool :=
  match d !! k with
  | Some x => String.eqb x v
  | None => false
  end.

(** [if s:] for an optional string: [None] and the empty string are falsy. *)
Definition str_truthy (s : option string) : bool :=
  match s with
  | Some v => negb (String.eqb v "")
  | None => false
  end.

(** ** The provisioning service's JSON, as far as the code reads it *)

Record Taint : Type := {
  taint_key : string;
  taint_value : string;
  taint_effect : string
}.

(** One [template] object. The code reads every key with [.get] and a
    default, so a key may be missing: that is [None]. Bodies are taken to
    have the shape the service documents; a JSON [null] in place of an
    object or a list is not modelled. *)
Record Template : Type := {
  name : option string;
  configurationId : option string;
  customTaints : option (list Taint);
  customLabels : option (gmap string string)
}.

Record TemplateItem : Type := { template : option Template }.

Record NodeTemplates : Type := { items : option (list TemplateItem) }.

(** The empty dict [{}]. *)
Definition empty_template : Template :=
  {| name := None; configurationId := None;
     customTaints := None; customLabels := None |}.

(** [if d:] for a template dict: true when it has at least one key. *)
Definition template_truthy (t : Template) : bool :=
  match name t, configurationId t, customTaints t, customLabels t with
  | None, None, None, None => false
  | _, _, _, _ => true
  end.

(** Body of [POST .../nodes]. *)
Record AddNodePayload : Type := {
  instanceType : string;
  payload_configurationId : string;
  kubernetesLabels : option (gmap string string);
  kubernetesTaints : option (list Taint)
}.

(** ** The world outside the program *)

Inductive patch_body : Type :=
| PatchUnschedulable (b : bool)        (* {"spec": {"unschedulable": b}} *)
| PatchLabel (key value : string).     (* {"metadata": {"labels": {key: value}}} *)

(** A reply of the provisioning service: [None] is a [RequestException];
    otherwise the field the code reads from the JSON body, which may be
    missing. *)
Definition reply : Type := option (option string).

(** Every call that leaves the process, with what came back for the HTTP
    calls. *)
Inductive event : Type :=
| ReadNode (node_name : string)
| PatchNode (node_name : string) (body : patch_body)
| ListPods (node_name : string)
| KubectlDrain (node_name : string) (timeout : Z)
| GetNodeTemplates (cluster_id : string)
| PostNode (cluster_id : string) (payload : AddNodePayload) (r : reply)
| GetNodeStatus (cluster_id node_id : string) (r : reply)
| Sleep (seconds : Z).

Record Cluster : Type := {
  nodes : gmap string V1Node;
  pods : list V1Pod
}.

(** [clock] is in seconds. [api_faults] scripts the control plane: the head
    says whether its next request ([read_node], [patch_node],
    [list_pod_for_all_namespaces]) raises [ApiException].
    [drain_executor] is [kubectl drain]: what it did to the cluster and how
    the subprocess ended ([None]: exit status 0). [post_node_replies] and
    [get_node_replies] script the provisioning service, the latter with the
    time each status request takes; an exhausted script answers with a
    [RequestException]. *)
Record World : Type := {
  cluster : Cluster;
  clock : Z;
  trace : list (Z * event);
  api_faults : list bool;
  drain_executor : string -> Z -> Cluster -> option exn * Cluster;
  node_templates_reply : option NodeTemplates;
  post_node_replies : list reply;
  get_node_replies : list (Z * reply)
}.

Definition with_cluster (c : Cluster) (w : World) : World :=
  {| cluster := c; clock := clock w; trace := trace w;
     api_faults := api_faults w; drain_executor := drain_executor w;
     node_templates_reply := node_templates_reply w;
     post_node_replies := post_node_replies w;
     get_node_replies := get_node_replies w |}.

Definition with_clock (t : Z) (w : World) : World :=
  {| cluster := cluster w; clock := t; trace := trace w;
     api_faults := api_faults w; drain_executor := drain_executor w;
     node_templates_reply := node_templates_reply w;
     post_node_replies := post_node_replies w;
     get_node_replies := get_node_replies w |}.

Definition with_trace (tr : list (Z * event)) (w : World) : World :=
  {| cluster := cluster w; clock := clock w; trace := tr;
     api_faults := api_faults w; drain_executor := drain_executor w;
     node_templates_reply := node_templates_reply w;
     post_node_replies := post_node_replies w;
     get_node_replies := get_node_replies w |}.

Definition with_api_faults (fs : list bool) (w : World) : World :=
  {| cluster := cluster w; clock := clock w; trace := trace w;
     api_faults := fs; drain_executor := drain_executor w;
     node_templates_reply := node_templates_reply w;
     post_node_replies := post_node_replies w;
     get_node_replies := get_node_replies w |}.

Definition with_post_node_replies (rs : list reply) (w : World) : World :=
  {| cluster := cluster w; clock := clock w; trace := trace w;
     api_faults := api_faults w; drain_executor := drain_executor w;
     node_templates_reply := node_templates_reply w;
     post_node_replies := rs;
     get_node_replies := get_node_replies w |}.

Definition with_get_node_replies (rs : list (Z * reply)) (w : World) : World :=
  {| cluster := cluster w; clock := clock w; trace := trace w;
     api_faults := api_faults w; drain_executor := drain_executor w;
     node_templates_reply := node_templates_reply w;
     post_node_replies := post_node_replies w;
     get_node_replies := rs |}.

(** ** A state-and-exception monad over the world *)

Definition M (A : Type) : Type := World -> result A * World.

Definition ret {A : Type} (a : A) : M A := fun w => (Ok a, w).

Definition raise {A : Type} (e : exn) : M A := fun w => (Raise e, w).

Definition bind {A B : Type} (m : M A) (k : A -> M B) : M B :=
  fun w =>
    match m w with
    | (Ok a, w') => k a w'
    | (Raise e, w') => (Raise e, w')
    end.

(** [try: m  except ...:] where [handler e] is the body of the clause that
    catches [e], if one does. What the handler raises is not caught again. *)
Definition try_except {A : Type} (m : M A) (handler : exn -> option (M A))
  : M A :=
  fun w =>
    match m w with
    | (Ok a, w') => (Ok a, w')
    | (Raise e, w') =>
        match handler e with
        | Some h => h w'
        | None => (Raise e, w')
        end
    end.

Declare Scope py_scope.
Delimit Scope py_scope with py.
Notation "'let!' x ':=' m 'in' k" := (bind m (fun x => k))
  (at level 10, x name, m at level 100, k at level 200) : py_scope.
Notation "m '>>' k" := (bind m (fun _ => k))
  (at level 100, k at level 200, right associativity) : py_scope.
Local Open Scope py_scope.

(** *** Primitive calls *)

Definition emit (e : event) : M unit :=
  fun w => (Ok tt, with_trace (trace w ++ [(clock w, e)]) w).

(** Consumes the control plane's next scripted outcome. *)
Definition control_plane_call : M unit :=
  fun w =>
    match api_faults w with
    | true :: fs => (Raise ApiException, with_api_faults fs w)
    | false :: fs => (Ok tt, with_api_faults fs w)
    | [] => (Ok tt, w)
    end.

(** [v1.read_node(node_name)]; an unknown node is a 404 [ApiException]. *)
Definition read_node (node_name : string) : M V1Node :=
  emit (ReadNode node_name) >>
  control_plane_call >>
  fun w =>
    match nodes (cluster w) !! node_name with
    | Some node => (Ok node, w)
    | None => (Raise ApiException, w)
    end.

Definition apply_patch (body : patch_body) (node : V1Node) : V1Node :=
  match body with
  | PatchUnschedulable b =>
      {| metadata_name := metadata_name node;
         metadata_labels := metadata_labels node;
         metadata_creation_timestamp := metadata_creation_timestamp node;
         spec_unschedulable := b;
         status_conditions := status_conditions node |}
  | PatchLabel key value =>
      {| metadata_name := metadata_name node;
         metadata_labels :=
           Some (<[key := value]> (default ∅ (metadata_labels node)));
         metadata_creation_timestamp := metadata_creation_timestamp node;
         spec_unschedulable := spec_unschedulable node;
         status_conditions := status_conditions node |}
  end.

(** [v1.patch_node(node_name, body)] *)
Definition patch_node (node_name : string) (body : patch_body) : M unit :=
  emit (PatchNode node_name body) >>
  control_plane_call >>
  fun w =>
    match nodes (cluster w) !! node_name with
    | Some node =>
        (Ok tt,
         with_cluster
           {| nodes := <[node_name := apply_patch body node]> (nodes (cluster w));
              pods := pods (cluster w) |} w)
    | None => (Raise ApiException, w)
    end.

(** [subprocess.run(["kubectl", "drain", node_name, ...], check=True,
    timeout=timeout)] *)
Definition subprocess_run_kubectl_drain (node_name : string) (timeout : Z)
  : M unit :=
  emit (KubectlDrain node_name timeout) >>
  fun w =>
    match drain_executor w node_name timeout (cluster w) with
    | (None, c) => (Ok tt, with_cluster c w)
    | (Some e, c) => (Raise e, with_cluster c w)
    end.

(** [time.time()] *)
Definition time_time : M Z := fun w => (Ok (clock w), w).

(** [time.sleep(seconds)]; a negative length is a [ValueError]. *)
Definition time_sleep (seconds : Z) : M unit :=
  if seconds <? 0 then raise ValueError
  else
    emit (Sleep seconds) >>
    fun w => (Ok tt, with_clock (clock w + seconds) w).

(** [requests.get(.../node-templates?includeDefault=true)] followed by
    [raise_for_status()] and [json()]. *)
Definition requests_get_node_templates (cluster_id : string) : M NodeTemplates :=
  emit (GetNodeTemplates cluster_id) >>
  fun w =>
    match node_templates_reply w with
    | Some body => (Ok body, w)
    | None => (Raise RequestException, w)
    end.

(** [requests.post(.../nodes, json=payload)], [raise_for_status()],
    [json().get('nodeId')]. *)
Definition requests_post_node (cluster_id : string) (payload : AddNodePayload)
  : M (option string) :=
  fun w =>
    let '(r, rest) :=
      match post_node_replies w with
      | r :: rest => (r, rest)
      | [] => (None, [])
      end in
    let w' :=
      with_post_node_replies rest
        (with_trace (trace w ++ [(clock w, PostNode cluster_id payload r)]) w) in
    match r with
    | Some node_id => (Ok node_id, w')
    | None => (Raise RequestException, w')
    end.

(** [requests.get(.../nodes/{node_id})], [raise_for_status()],
    [json().get("state", {}).get("phase")]. *)
Definition requests_get_node_phase (cluster_id node_id : string)
  : M (option string) :=
  fun w =>
    let '(latency, r, rest) :=
      match get_node_replies w with
      | (latency, r) :: rest => (latency, r, rest)
      | [] => (0, None, [])
      end in
    let w' :=
      with_clock (clock w + latency)
        (with_get_node_replies rest
           (with_trace
              (trace w ++ [(clock w, GetNodeStatus cluster_id node_id r)]) w)) in
    match r with
    | Some phase => (Ok phase, w')
    | None => (Raise RequestException, w')
    end.

(** ** node_utils.is_node_running_critical_pods *)

Module NodeUtils.

(** The [field_selector="spec.nodeName=..."] of the pod listing. *)
Definition on_node (node_name : string) (pod : V1Pod) : bool :=
  match pod_spec_node_name pod with
  | Some n => String.eqb n node_name
  | None => false
  end.

Definition list_pod_on_node (cluster_pods : list V1Pod) (node_name : string)
  : list V1Pod :=
  List.filter (on_node node_name) cluster_pods.

(** The inner [for label in CRITICAL_WORKLOADS] loop for one pod:
    [Ok true] is the [return True], [Ok false] is the loop running out. *)
Fixpoint scan_workloads (labels : option (gmap string string))
    (workloads : list string) : result bool :=
  match workloads with
  | [] => Ok false
  | label :: rest =>
      match unpack2 (split_on "=" label) with
      | Raise e => Raise e
      | Ok (label_key, label_value) =>
          match labels with
          | None => Raise AttributeError
          | Some d =>
              if dict_get_eqb d label_key label_value then Ok true
              else scan_workloads labels rest
          end
      end
  end.

(** The outer [for pod in pods] loop. *)
Fixpoint scan_pods (pods : list V1Pod) (workloads : list string) : result bool :=
  match pods with
  | [] => Ok false
  | pod :: rest =>
      match scan_workloads (pod_metadata_labels pod) workloads with
      | Ok true => Ok true
      | Ok false => scan_pods rest workloads
      | Raise e => Raise e
      end
  end.

(** [CRITICAL_WORKLOADS] comes from the [config] module, which is a
    parameter here; [cluster_pods] is what the control plane holds. This is
    the function on an accepted pod listing. *)
Definition is_node_running_critical_pods (CRITICAL_WORKLOADS : list string)
    (cluster_pods : list V1Pod) (node_name : string) : result bool :=
  scan_pods (list_pod_on_node cluster_pods node_name) CRITICAL_WORKLOADS.

(** [v1.list_pod_for_all_namespaces(field_selector=f"spec.nodeName={node_name}").items];
    a refused request is an [ApiException]. *)
Definition list_pod_for_all_namespaces (node_name : string) : M (list V1Pod) :=
  emit (ListPods node_name) >>
  control_plane_call >>
  fun w => (Ok (list_pod_on_node (pods (cluster w)) node_name), w).

(** The function as a call on the world, with the request it starts with.
    The pod listing stands outside any [try], so its [ApiException] leaves
    the function; the loops then run on the pods listed. *)
Definition is_node_running_critical_pods_call
    (CRITICAL_WORKLOADS : list string) (node_name : string) : M bool :=
  let! pods := list_pod_for_all_namespaces node_name in
  fun w => (scan_pods pods CRITICAL_WORKLOADS, w).

(** ** node_utils.is_node_older_than *)

Definition microseconds_per_day : Z := 86400 * 1000000.

(** [timedelta(days=d)] in microseconds. *)
Definition timedelta_days (d : Z) : Z := d * microseconds_per_day.

(** [now] is the reading of [datetime.now(timezone.utc)]. *)
Definition is_node_older_than (now : Z) (node : V1Node) (days : Z) : bool :=
  if days =? 0 then true
  else
    let creation_timestamp := metadata_creation_timestamp node in
    let age := now - creation_timestamp in
    age >? timedelta_days (days + 1).

(** ** node_utils.wait_for_new_nodes *)

Definition name_in (names : list string) (n : string) : bool :=
  existsb (String.eqb n) names.

Definition new_nodes (nodes : list V1Node) (original_nodes : list string)
  : list string :=
  map metadata_name
    (List.filter (fun node => negb (name_in original_nodes (metadata_name node)))
       nodes).

(** [all(c.status == "True" for c in node.status.conditions if c.type == "Ready")];
    iterating conditions that are [None] is a [TypeError]. *)
Definition ready_conditions_all_true (node : V1Node) : result bool :=
  match status_conditions node with
  | None => Raise TypeError
  | Some conditions =>
      Ok (forallb (fun c => String.eqb (condition_status c) "True")
            (List.filter (fun c => String.eqb (condition_type c) "Ready")
               conditions))
  end.

(** The comprehension [[node for node in nodes if node.metadata.name in
    new_nodes and all(...)]]: the nodes are tested in listing order, [and]
    evaluates the readiness test only for a node whose name is in
    [new_nodes], and an exception of the test ends the comprehension. *)
Fixpoint select_ready (new_nodes : list string) (nodes : list V1Node)
  : result (list V1Node) :=
  match nodes with
  | [] => Ok []
  | node :: rest =>
      if name_in new_nodes (metadata_name node) then
        match ready_conditions_all_true node with
        | Raise e => Raise e
        | Ok ready =>
            match select_ready new_nodes rest with
            | Raise e => Raise e
            | Ok selected => Ok (if ready then node :: selected else selected)
            end
        end
      else select_ready new_nodes rest
  end.

Definition ready_new_nodes (nodes : list V1Node) (original_nodes : list string)
  : result (list V1Node) :=
  select_ready (new_nodes nodes original_nodes) nodes.

(** The [while total_wait_cycles > 0] loop; [remaining] is the counter, which
    only ever decreases by one, and [cycle] numbers the node listings.
    [list_node cycle] is the reply of the control plane at that cycle.
    Falling off the loop returns Python's [None], here [Ok None]; a returned
    list is [Ok (Some _)]. The [time.sleep(10)] that ends each cycle has no
    bearing on the result and is left out. *)
Fixpoint wait_cycles (list_node : nat -> list V1Node)
    (original_nodes : list string) (MIN_READY_NODES : Z)
    (remaining : nat) (cycle : nat) : result (option (list string)) :=
  match remaining with
  | O => Ok None
  | S remaining' =>
      let nodes := list_node cycle in
      match ready_new_nodes nodes original_nodes with
      | Raise e => Raise e
      | Ok ready =>
          if MIN_READY_NODES <=? Z.of_nat (length ready)
          then Ok (Some (map metadata_name ready))
          else wait_cycles list_node original_nodes MIN_READY_NODES
                 remaining' (S cycle)
      end
  end.

(** [total_wait_cycles] is [int(os.getenv("TOTAL_WAIT_CYCLES", 5))] and
    [MIN_READY_NODES] comes from [config]; both are parameters. *)
Definition wait_for_new_nodes (list_node : nat -> list V1Node)
    (MIN_READY_NODES : Z) (total_wait_cycles : Z)
    (original_nodes : list string) : result (option (list string)) :=
  wait_cycles list_node original_nodes MIN_READY_NODES
    (Z.to_nat total_wait_cycles) O.

(** ** node_utils.label_node, cordon_node, uncordon_node *)

Definition label_node (node_name label_key label_value : string) : M unit :=
  try_except (patch_node node_name (PatchLabel label_key label_value))
    (fun e => match e with
              | ApiException => Some (ret tt)
              | _ => None
              end).

Definition cordon_node (node_name : string) : M unit :=
  try_except (patch_node node_name (PatchUnschedulable true))
    (fun e => match e with
              | ApiException => Some (ret tt)
              | _ => None
              end).

Definition uncordon_node (node_name : string) : M unit :=
  try_except (patch_node node_name (PatchUnschedulable false))
    (fun e => match e with
              | ApiException => Some (ret tt)
              | _ => None
              end).

(** Modelled from the spec: [pod_utils.dump_pods_on_node], whose module is
    not part of the sources. The spec has it capture "the list of pods still
    scheduled on the node": one pod listing filtered on the node's name. *)
Definition dump_pods_on_node (node_name : string) : M (list V1Pod) :=
  emit (ListPods node_name) >>
  fun w => (Ok (list_pod_on_node (pods (cluster w)) node_name), w).

(** ** node_utils.drain_node_with_timeout

    [Ok None] is [return None]; [Ok (Some pods)] is [return pods]. *)
Definition drain_node_with_timeout (node_name : string) (timeout : Z)
  : M (option (list V1Pod)) :=
  try_except
    (subprocess_run_kubectl_drain node_name timeout >>
     ret None)
    (fun e =>
       match e with
       | TimeoutExpired =>
           Some (let! pods := dump_pods_on_node node_name in
                 label_node node_name "drain-status" "failed" >>
                 uncordon_node node_name >>
                 ret (Some pods))
       | _ => Some (raise e)
       end).

(** ** node_utils.get_node_label_value *)

Definition get_node_label_value (node_name label_key : string)
  : M (option string) :=
  try_except
    (let! node := read_node node_name in
     match metadata_labels node with
     | Some labels =>
         match labels !! label_key with
         | Some label_value => ret (Some label_value)
         | None => ret None
         end
     | None => ret None
     end)
    (fun e => match e with
              | ApiException => Some (ret None)
              | _ => None
              end).

(** ** node_utils.remove_cron_job_node *)

(** [l.remove(x)] on a list that contains [x]: the first occurrence goes. *)
Fixpoint list_remove (x : string) (l : list string) : list string :=
  match l with
  | [] => []
  | y :: rest => if String.eqb y x then rest else y :: list_remove x rest
  end.

(** The two lists are changed in place and returned; here the returned pair
    is the new content of the caller's lists. *)
Definition remove_cron_job_node (cron_job_node_name : option string)
    (critical_nodes non_critical_nodes : list string)
  : list string * list string :=
  match cron_job_node_name with
  | Some n =>
      if str_truthy cron_job_node_name then
        let critical_nodes :=
          if name_in critical_nodes n then list_remove n critical_nodes
          else critical_nodes in
        let non_critical_nodes :=
          if name_in non_critical_nodes n then list_remove n non_critical_nodes
          else non_critical_nodes in
        (critical_nodes, non_critical_nodes)
      else (critical_nodes, non_critical_nodes)
  | None => (critical_nodes, non_critical_nodes)
  end.

(** ** node_utils.get_cast_ai_nodes, get_old_version_cast_ai_nodes *)

(** A node as [get_cast_ai_nodes] lists it, with the one field of
    [status.node_info] that is read. *)
Record ListedNode : Type := {
  listed_node : V1Node;
  status_node_info_kubelet_version : string
}.

(** [list_node] is the outcome of the one request of the function,
    [v1.list_node(label_selector="provisioner.cast.ai/managed-by=cast.ai")]:
    the items listed, or the exception of a failed request, which nothing
    catches here. *)
Definition get_cast_ai_nodes (list_node : result (list ListedNode))
  : result (list ListedNode) :=
  list_node.

(** [max(values)] on strings: the first value is kept until a strictly
    greater one is met. An empty sequence is a [ValueError]. *)
Definition python_max (values : list string) : result string :=
  match values with
  | [] => Raise ValueError
  | v :: rest =>
      Ok (fold_left (fun acc x => if String.ltb acc x then x else acc) rest v)
  end.

(** The dict [{node.metadata.name: kubelet_version for node in nodes}]: a
    later node replaces an earlier one of the same name. *)
Definition node_versions (nodes : list ListedNode) : gmap string string :=
  fold_left
    (fun d node =>
       <[metadata_name (listed_node node)
         := status_node_info_kubelet_version node]> d)
    nodes ∅.

(** [list_node] is handed on to [get_cast_ai_nodes], the first statement of
    the function, which stands outside any [try]. Versions are compared as
    strings. *)
Definition get_old_version_cast_ai_nodes
    (list_node : result (list ListedNode))
  : result (option (list ListedNode)) :=
  match get_cast_ai_nodes list_node with
  | Raise e => Raise e
  | Ok nodes =>
      match nodes with
      | [] => Ok None
      | _ :: _ =>
          match python_max (map snd (map_to_list (node_versions nodes))) with
          | Raise e => Raise e
          | Ok latest_version =>
              let old_version_nodes :=
                List.filter
                  (fun node =>
                     String.ltb (status_node_info_kubelet_version node)
                       latest_version)
                  nodes in
              match old_version_nodes with
              | [] => Ok None
              | _ :: _ => Ok (Some old_version_nodes)
              end
          end
      end
  end.

(** ** node_utils.get_node_for_running_pod *)

(** A pod as [list_pod_for_all_namespaces] lists it, with [status.phase]. *)
Record ListedPod : Type := {
  listed_pod : V1Pod;
  status_phase : option string
}.

(** [sub in s] on strings. *)
Fixpoint str_contains (sub s : string) : bool :=
  String.prefix sub s
  || match s with
     | EmptyString => false
     | String _ rest => str_contains sub rest
     end.

(** [pods] is the listing of all pods. *)
Fixpoint get_node_for_running_pod (pods : list ListedPod)
    (pod_name_substring : string) : option string :=
  match pods with
  | [] => None
  | pod :: rest =>
      if str_contains pod_name_substring (pod_metadata_name (listed_pod pod))
         && match status_phase pod with
            | Some phase => String.eqb phase "Running"
            | None => false
            end
      then pod_spec_node_name (listed_pod pod)
      else get_node_for_running_pod rest pod_name_substring
  end.

End NodeUtils.

(** ** cast_api_utils *)

Module CastApiUtils.

Definition get_node_label_value (node_name label_key : string)
  : M (option string) :=
  try_except
    (let! node := read_node node_name in
     match metadata_labels node with
     | Some labels =>
         match labels !! label_key with
         | Some label_value => ret (Some label_value)
         | None => ret None
         end
     | None => ret None
     end)
    (fun e => match e with
              | ApiException => Some (ret None)
              | _ => None
              end).

(** Returns [{}], that is a body without [items], on a request error. *)
Definition fetch_node_templates (cluster_id api_key : string) : M NodeTemplates :=
  try_except (requests_get_node_templates cluster_id)
    (fun e => match e with
              | RequestException => Some (ret {| items := None |})
              | _ => None
              end).

(** [item.get('template', {}).get('name') == template_name] *)
Definition item_has_name (template_name : string) (item : TemplateItem) : bool :=
  match name (default empty_template (template item)) with
  | Some n => String.eqb n template_name
  | None => false
  end.

Fixpoint find_in_items (l : list TemplateItem) (template_name : string)
  : Template :=
  match l with
  | [] => empty_template
  | item :: rest =>
      if item_has_name template_name item
      then default empty_template (template item)
      else find_in_items rest template_name
  end.

Definition find_node_template_details (node_templates : NodeTemplates)
    (template_name : string) : Template :=
  find_in_items (default [] (items node_templates)) template_name.

Definition add_node (cluster_id api_key instance_type configuration_id : string)
    (labels : option (gmap string string)) (taints : option (list Taint))
  : M (option string) :=
  let payload :=
    {| instanceType := instance_type;
       payload_configurationId := configuration_id;
       kubernetesLabels := labels;
       kubernetesTaints := taints |} in
  try_except (requests_post_node cluster_id payload)
    (fun e => match e with
              | RequestException => Some (ret None)
              | _ => None
              end).

(** [node_phase == "ready"] *)
Definition phase_is_ready (node_phase : option string) : bool :=
  match node_phase with
  | Some p => String.eqb p "ready"
  | None => false
  end.

(** The [while time.time() < end_time] loop of [wait_for_node_ready]. *)
Fixpoint wait_loop (fuel : nat) (cluster_id node_id : string)
    (end_time retry_interval_seconds max_retries retries : Z) : M bool :=
  match fuel with
  | O => raise OutOfFuel
  | S fuel' =>
      let! now := time_time in
      if now <? end_time then
        if retries >=? max_retries then ret false
        else
          let! ready :=
            try_except
              (let! node_phase := requests_get_node_phase cluster_id node_id in
               ret (phase_is_ready node_phase))
              (fun e => match e with
                        | RequestException => Some (ret false)
                        | _ => None
                        end) in
          if ready then ret true
          else
            let retries := retries + 1 in
            time_sleep retry_interval_seconds >>
            wait_loop fuel' cluster_id node_id end_time
              retry_interval_seconds max_retries retries
      else ret false
  end.

(** [retries] grows by one per iteration and stops the loop at
    [max_retries], so [max_retries + 1] iterations are enough. *)
Definition wait_for_node_ready (cluster_id api_key node_id : string)
    (timeout_minutes retry_interval_seconds max_retries : Z) : M bool :=
  let! start_time := time_time in
  let end_time := start_time + timeout_minutes * 60 in
  wait_loop (S (Z.to_nat max_retries)) cluster_id node_id end_time
    retry_interval_seconds max_retries 0.

(** One pass through the body of the [while retry_count < max_retries] loop
    of [rotate_node], up to [retry_count += 1]: [Some id] is the
    [return new_node_id], [None] is falling through to the increment. *)
Definition rotate_attempt (cluster_id api_key : string)
    (instance_type node_configuration_id : option string)
    (node_template_labels : option (gmap string string))
    (node_template_tolerations : option (list Taint)) : M (option string) :=
  match instance_type, node_configuration_id with
  | Some it, Some cfg =>
      if str_truthy instance_type then
        let! new_node_id :=
          add_node cluster_id api_key it cfg
            node_template_labels node_template_tolerations in
        match new_node_id with
        | Some id =>
            if str_truthy new_node_id then
              let! is_node_ready :=
                wait_for_node_ready cluster_id api_key id 7 30 20 in
              if is_node_ready then ret (Some id) else ret None
            else ret None
        | None => ret None
        end
      else ret None
  | _, _ => ret None
  end.

(** The [while retry_count < max_retries] loop of [rotate_node]. *)
Fixpoint rotate_loop (fuel : nat) (cluster_id api_key : string)
    (instance_type node_configuration_id : option string)
    (node_template_labels : option (gmap string string))
    (node_template_tolerations : option (list Taint))
    (max_retries retry_count : Z) : M (option string) :=
  match fuel with
  | O => raise OutOfFuel
  | S fuel' =>
      if retry_count <? max_retries then
        let! returned :=
          rotate_attempt cluster_id api_key instance_type
            node_configuration_id node_template_labels
            node_template_tolerations in
        match returned with
        | Some id => ret (Some id)
        | None =>
            rotate_loop fuel' cluster_id api_key instance_type
              node_configuration_id node_template_labels
              node_template_tolerations max_retries (retry_count + 1)
        end
      else ret None
  end.

(** Lines 193-203 of [rotate_node]: the three variables start as [None] and
    are set from the template when the node names one and the catalog has it.
    The result is [(node_configuration_id, node_template_tolerations,
    node_template_labels)]. *)
Definition resolve_template (scheduling_node_template : option string)
    (node_templates : NodeTemplates)
  : option string * option (list Taint) * option (gmap string string) :=
  match scheduling_node_template with
  | Some tname =>
      if str_truthy scheduling_node_template then
        let template_details :=
          find_node_template_details node_templates tname in
        if template_truthy template_details then
          (configurationId template_details,
           Some (default [] (customTaints template_details)),
           Some (<["scheduling.cast.ai/node-template" := tname]>
                   (default ∅ (customLabels template_details))))
        else (None, None, None)
      else (None, None, None)
  | None => (None, None, None)
  end.

(** [config.load_config()] only reads the process configuration; it is
    outside the sources and issues none of the calls traced here. *)
Definition rotate_node (node_name cluster_id api_key : string)
  : M (option string) :=
  let! provisioner_node_id :=
    get_node_label_value node_name "provisioner.cast.ai/node-id" in
  let! scheduling_node_template :=
    get_node_label_value node_name "scheduling.cast.ai/node-template" in
  let! instance_type :=
    get_node_label_value node_name "node.kubernetes.io/instance-type" in
  let! node_templates := fetch_node_templates cluster_id api_key in
  let '(node_configuration_id, node_template_tolerations, node_template_labels) :=
    resolve_template scheduling_node_template node_templates in
  let max_retries := 3 in
  let retry_count := 0 in
  rotate_loop (S (Z.to_nat max_retries)) cluster_id api_key instance_type
    node_configuration_id node_template_labels node_template_tolerations
    max_retries retry_count.

End CastApiUtils.

(** ** Definitions used to state the properties *)

(** Following the spec's words ("each entry is a [key=value] string, split
    on the first [=]"): the text before the first separator and the text
    after it; [None] when the separator does not occur. *)
Fixpoint split_first (sep : ascii) (s : string) : option (string * string) :=
  match s with
  | EmptyString => None
  | String c rest =>
      if Ascii.eqb c sep then Some (EmptyString, rest)
      else match split_first sep rest with
           | Some (k, v) => Some (String c k, v)
           | None => None
           end
  end.

(** The pod carries the label pair of the entry. *)
Definition pod_carries (pod : V1Pod) (entry : string) : bool :=
  match split_first "=" entry, pod_metadata_labels pod with
  | Some (k, v), Some d => dict_get_eqb d k v
  | _, _ => false
  end.

(** Following the spec's words: [isRunningCriticalWorkload] is true if any
    pod scheduled on the node carries a label pair of the configured list. *)
Definition spec_is_running_critical_workload (critical_workloads : list string)
    (cluster_pods : list V1Pod) (node_name : string) : bool :=
  existsb (fun pod => existsb (pod_carries pod) critical_workloads)
    (NodeUtils.list_pod_on_node cluster_pods node_name).

Definition entry_well_formed (entry : string) : Prop :=
  count_char "=" entry = 1%nat.

(** What one iteration of the inner loop of
    [is_node_running_critical_pods] does with one pod and one entry. *)
Definition scan_step (pe : V1Pod * string) : result bool :=
  match unpack2 (split_on "=" (snd pe)) with
  | Raise e => Raise e
  | Ok (label_key, label_value) =>
      match pod_metadata_labels (fst pe) with
      | None => Raise AttributeError
      | Some d => Ok (dict_get_eqb d label_key label_value)
      end
  end.

(** The two nested loops as one scan over the (pod, entry) pairs in
    iteration order. *)
Fixpoint scan_pairs (l : list (V1Pod * string)) : result bool :=
  match l with
  | [] => Ok false
  | pe :: rest =>
      match scan_step pe with
      | Ok true => Ok true
      | Ok false => scan_pairs rest
      | Raise e => Raise e
      end
  end.

(** A pair the scan passes over: nothing raises and nothing matches. *)
Definition pair_passed (pe : V1Pod * string) : Prop :=
  entry_well_formed (snd pe)
  /\ pod_metadata_labels (fst pe) <> None
  /\ pod_carries (fst pe) (snd pe) = false.

(** Calls of each kind in a stretch of the trace. *)
Definition is_post_node (te : Z * event) : bool :=
  match snd te with PostNode _ _ _ => true | _ => false end.

Definition is_status_fetch (te : Z * event) : bool :=
  match snd te with GetNodeStatus _ _ _ => true | _ => false end.

Definition create_node_calls (evs : list (Z * event)) : nat :=
  length (List.filter is_post_node evs).

Definition status_fetches (evs : list (Z * event)) : nat :=
  length (List.filter is_status_fetch evs).

(** Calls that change the cluster or a node: patches (cordon, uncordon,
    label) and drains. *)
Definition is_mutation (te : Z * event) : bool :=
  match snd te with
  | PatchNode _ _ | KubectlDrain _ _ => true
  | _ => false
  end.

(** What [rotate_node] may send to the control plane about [node_name]:
    reads of that node, and nothing else. *)
Definition rotation_event_ok (node_name : string) (te : Z * event) : Prop :=
  match snd te with
  | ReadNode n => n = node_name
  | PatchNode _ _ | KubectlDrain _ _ | ListPods _ => False
  | GetNodeTemplates _ | PostNode _ _ _ | GetNodeStatus _ _ _ | Sleep _ => True
  end.

(** The guard of the provisioning call in [rotate_node]:
    [instance_type and node_configuration_id is not None]. *)
Definition provisioning_guard (instance_type node_configuration_id : option string)
  : bool :=
  str_truthy instance_type
  && match node_configuration_id with Some _ => true | None => false end.

(** The control plane accepts its next [n] calls. *)
Definition accepts_next (n : nat) (w : World) : Prop :=
  Forall (fun b => b = false) (firstn n (api_faults w)).

(** The catalog [fetch_node_templates] gets in this world. *)
Definition world_templates (w : World) : NodeTemplates :=
  default {| items := None |} (node_templates_reply w).

(** The label the control plane holds for a node, if any. *)
Definition node_label (w : World) (node_name key : string) : option string :=
  match nodes (cluster w) !! node_name with
  | Some node =>
      match metadata_labels node with
      | Some labels => labels !! key
      | None => None
      end
  | None => None
  end.

(** The configuration id [rotate_node] resolves when its reads succeed. *)
Definition resolved_configuration_id (w : World) (node_name : string)
  : option string :=
  fst (fst (CastApiUtils.resolve_template
              (node_label w node_name "scheduling.cast.ai/node-template")
              (world_templates w))).

Definition ready_reply : reply := Some (Some "ready").

(** The trace of one loop iteration of [wait_for_node_ready] that does not
    end the wait: a status request issued at [t] that failed or showed
    another phase, then the sleep, started at [t']. *)
Definition failed_poll (cluster_id node_id : string)
    (retry_interval_seconds : Z) (p : Z * reply * Z) : list (Z * event) :=
  let '(t, r, t') := p in
  [(t, GetNodeStatus cluster_id node_id r); (t', Sleep retry_interval_seconds)].

(** The last request of a wait that returns true. *)
Definition final_poll (cluster_id node_id : string) (b : bool) (t : Z)
  : list (Z * event) :=
  if b then [(t, GetNodeStatus cluster_id node_id ready_reply)] else [].

(** The trace of a whole wait. *)
Definition wait_trace (cluster_id node_id : string)
    (retry_interval_seconds : Z) (polls : list (Z * reply * Z)) (b : bool)
    (t : Z) : list (Z * event) :=
  flat_map (failed_poll cluster_id node_id retry_interval_seconds) polls
  ++ final_poll cluster_id node_id b t.

(** Everything but the cluster state, the trace and the fault script is
    as before. *)
Definition same_service (w w' : World) : Prop :=
  clock w' = clock w
  /\ drain_executor w' = drain_executor w
  /\ node_templates_reply w' = node_templates_reply w
  /\ post_node_replies w' = post_node_replies w
  /\ get_node_replies w' = get_node_replies w.

(** What a run of the polling loop of [wait_for_node_ready] leaves behind,
    from [retries] on: the trace, the cluster (unchanged), the failed rounds,
    the number of requests against the poll budget, and why it stopped. *)
Definition wait_loop_post (cluster_id node_id : string)
    (end_time retry_interval_seconds max_retries retries : Z)
    (w : World) (b : bool) (w' : World)
    (polls : list (Z * reply * Z)) (t : Z) : Prop :=
  trace w' =
    trace w ++ wait_trace cluster_id node_id retry_interval_seconds polls b t
  /\ cluster w' = cluster w
  /\ Forall (fun p => fst (fst p) < end_time /\ snd (fst p) <> ready_reply)
       polls
  /\ (length polls + (if b then 1 else 0)
      <= Z.to_nat (max_retries - retries))%nat
  /\ (b = true -> t < end_time)
  /\ (b = false ->
      end_time <= clock w' \/ max_retries <= retries + Z.of_nat (length polls))
  /\ post_node_replies w' = post_node_replies w.

(** The trace of a provisioning attempt that ends the rotation: the
    create-node call that returned [id], then the wait that saw it ready. *)
Definition successful_attempt (cluster_id id : string)
    (evs : list (Z * event)) : Prop :=
  exists t payload polls t',
    evs = (t, PostNode cluster_id payload (Some (Some id)))
          :: wait_trace cluster_id id 30 polls true t'.

(** One pass through the body of the retry loop: a pass that returns the
    node id made one create-node call and then saw the node ready; a pass
    that falls through made one create-node call when the guard holds; when
    the guard fails the pass calls nothing and falls through. *)
Definition rotate_attempt_post (cluster_id : string)
    (instance_type node_configuration_id : option string)
    (w : World) (o : option string) (w1 : World)
    (evs : list (Z * event)) : Prop :=
  trace w1 = trace w ++ evs
  /\ cluster w1 = cluster w
  /\ (forall node_name, Forall (rotation_event_ok node_name) evs)
  /\ create_node_calls evs
     = (if provisioning_guard instance_type node_configuration_id
        then 1 else 0)%nat
  /\ (provisioning_guard instance_type node_configuration_id = false ->
      o = None /\ evs = [])
  /\ (forall id, o = Some id -> successful_attempt cluster_id id evs).

(** What a run of the retry loop leaves behind, from [retry_count] on. *)
Definition rotate_loop_post (cluster_id : string)
    (instance_type node_configuration_id : option string)
    (max_retries retry_count : Z) (w : World) (o : option string)
    (w' : World) (evs : list (Z * event)) : Prop :=
  trace w' = trace w ++ evs
  /\ cluster w' = cluster w
  /\ (forall node_name, Forall (rotation_event_ok node_name) evs)
  /\ (create_node_calls evs <= Z.to_nat (max_retries - retry_count))%nat
  /\ (o = None ->
      create_node_calls evs
      = if provisioning_guard instance_type node_configuration_id
        then Z.to_nat (max_retries - retry_count) else O)
  /\ (provisioning_guard instance_type node_configuration_id = false ->
      o = None /\ evs = [])
  /\ (forall id, o = Some id ->
      exists before last,
        evs = before ++ last /\ successful_attempt cluster_id id last).

(** The reads at the start of [rotate_node]: three labels of the node and
    the catalog. *)
Definition rotation_reads (w : World) (node_name cluster_id : string)
  : list (Z * event) :=
  [(clock w, ReadNode node_name); (clock w, ReadNode node_name);
   (clock w, ReadNode node_name); (clock w, GetNodeTemplates cluster_id)].

(** Every create-node call of a stretch of the trace goes to [cluster_id]
    with this request body. *)
Definition posts_carry (cluster_id : string) (payload : AddNodePayload)
    (evs : list (Z * event)) : Prop :=
  Forall (fun te =>
            match snd te with
            | PostNode c p _ => c = cluster_id /\ p = payload
            | _ => True
            end) evs.

(** The time a run of status requests takes, each followed by the sleep. *)
Definition polls_duration (retry_interval_seconds : Z)
    (replies : list (Z * reply)) : Z :=
  fold_right (fun p acc => fst p + retry_interval_seconds + acc) 0 replies.

(** The trace of these status requests, the first issued at [t]. *)
Fixpoint failed_polls_trace (cluster_id node_id : string)
    (retry_interval_seconds : Z) (t : Z) (replies : list (Z * reply))
  : list (Z * event) :=
  match replies with
  | [] => []
  | (latency, r) :: rest =>
      (t, GetNodeStatus cluster_id node_id r)
      :: (t + latency, Sleep retry_interval_seconds)
      :: failed_polls_trace cluster_id node_id retry_interval_seconds
           (t + latency + retry_interval_seconds) rest
  end.

(** What [remove_cron_job_node] does to one of its two lists [l], giving
    [r]: nothing when the name is not in it, else the first occurrence is
    cut out. *)
Definition cron_job_node_removed (n : string) (l r : list string) : Prop :=
  (~ In n l /\ r = l)
  \/ exists before after,
       l = before ++ n :: after /\ ~ In n before /\ r = before ++ after.

(** [node.metadata.name] and the kubelet version of a listed node. *)
Definition listed_name (node : NodeUtils.ListedNode) : string :=
  metadata_name (NodeUtils.listed_node node).

Definition listed_version (node : NodeUtils.ListedNode) : string :=
  NodeUtils.status_node_info_kubelet_version node.

(** The request body [add_node] builds. *)
Definition rotation_payload (instance_type configuration_id : string)
    (labels : option (gmap string string)) (taints : option (list Taint))
  : AddNodePayload :=
  {| instanceType := instance_type;
     payload_configurationId := configuration_id;
     kubernetesLabels := labels;
     kubernetesTaints := taints |}.

(** The labels and taints a rotation sends for a template: the template's
    custom labels with the template name forced in, and its custom taints. *)
Definition template_labels (tname : string) (td : Template)
  : gmap string string :=
  <["scheduling.cast.ai/node-template" := tname]> (default ∅ (customLabels td)).

Definition template_taints (td : Template) : list Taint :=
  default [] (customTaints td).

(** A pod [get_node_for_running_pod] stops at: its name contains the
    substring and its phase is ["Running"]. *)
Definition running_match (pod_name_substring : string)
    (pod : NodeUtils.ListedPod) : bool :=
  NodeUtils.str_contains pod_name_substring
    (pod_metadata_name (NodeUtils.listed_pod pod))
  && match NodeUtils.status_phase pod with
     | Some phase => String.eqb phase "Running"
     | None => false
     end.

(** [sub] occurs in [s]: Python's [sub in s]. *)
Definition occurs_in (sub s : string) : Prop :=
  exists before after, s = (before ++ sub ++ after)%string.

(** ** Example inputs *)

Module Examples.

Definition mk_pod (n : string) (labels : option (gmap string string))
    (node : string) : V1Pod :=
  {| pod_metadata_name := n; pod_metadata_labels := labels;
     pod_spec_node_name := Some node |}.

Definition mk_node (n : string) (labels : option (gmap string string))
    (unschedulable : bool) (conditions : list V1NodeCondition) : V1Node :=
  {| metadata_name := n; metadata_labels := labels;
     metadata_creation_timestamp := 0;
     spec_unschedulable := unschedulable;
     status_conditions := Some conditions |}.

Definition db_pod : V1Pod :=
  mk_pod "db-0" (Some {[ "tier" := "db" ]}) "n1".

Definition web_pod : V1Pod :=
  mk_pod "web-0" (Some {[ "app" := "web" ]}) "n1".

Definition bare_pod : V1Pod := mk_pod "bare" None "n1".

Definition ready_true : V1NodeCondition :=
  {| condition_type := "Ready"; condition_status := "True" |}.

Definition ready_false : V1NodeCondition :=
  {| condition_type := "Ready"; condition_status := "False" |}.

Definition disk_pressure : V1NodeCondition :=
  {| condition_type := "DiskPressure"; condition_status := "False" |}.

Definition old_node : V1Node := mk_node "old-1" None false [ready_true].

(** A node that joined but reports no [Ready] condition yet. *)
Definition fresh_node : V1Node := mk_node "new-1" None false [disk_pressure].

Definition unready_node : V1Node := mk_node "new-2" None false [ready_false].

(** A node that joined and has reported no condition at all. *)
Definition registering_node : V1Node :=
  {| metadata_name := "new-3"; metadata_labels := None;
     metadata_creation_timestamp := 0;
     spec_unschedulable := false;
     status_conditions := None |}.

Definition gpu_labels : gmap string string :=
  {[ "scheduling.cast.ai/node-template" := "gpu";
     "node.kubernetes.io/instance-type" := "m5.large";
     "provisioner.cast.ai/node-id" := "id-1" ]}.

Definition default_template : Template :=
  {| name := Some "default"; configurationId := Some "c0";
     customTaints := Some []; customLabels := Some ∅ |}.

Definition gpu_template : Template :=
  {| name := Some "gpu"; configurationId := Some "c1";
     customTaints := Some []; customLabels := Some ∅ |}.

Definition catalog (ts : list Template) : NodeTemplates :=
  {| items := Some (map (fun t => {| template := Some t |}) ts) |}.

Definition no_drain : string -> Z -> Cluster -> option exn * Cluster :=
  fun _ _ c => (None, c).

Definition base_world (ns : list V1Node) (ps : list V1Pod) : World :=
  {| cluster :=
       {| nodes := list_to_map (map (fun n => (metadata_name n, n)) ns);
          pods := ps |};
     clock := 1000;
     trace := [];
     api_faults := [];
     drain_executor := no_drain;
     node_templates_reply := Some (catalog [default_template]);
     post_node_replies := [];
     get_node_replies := [] |}.

(** The node asks for template [gpu]; the catalog only has [default]. *)
Definition unknown_template_world : World :=
  base_world [mk_node "n1" (Some gpu_labels) false [ready_true]] [].

(** The node has a template the catalog knows but no instance-type label;
    the service would accept every request. *)
Definition no_instance_type_world : World :=
  {| cluster :=
       {| nodes :=
            {[ "n1" := mk_node "n1"
                         (Some {[ "scheduling.cast.ai/node-template" := "gpu" ]})
                         false [ready_true] ]};
          pods := [] |};
     clock := 1000;
     trace := [];
     api_faults := [];
     drain_executor := no_drain;
     node_templates_reply := Some (catalog [default_template; gpu_template]);
     post_node_replies := [Some (Some "new-1")];
     get_node_replies := [(1, Some (Some "ready"))] |}.

(** Template and instance type resolve; the service refuses every request. *)
Definition failing_service_world : World :=
  {| cluster :=
       {| nodes :=
            {[ "n1" := mk_node "n1" (Some gpu_labels) false [ready_true] ]};
          pods := [] |};
     clock := 1000;
     trace := [];
     api_faults := [];
     drain_executor := no_drain;
     node_templates_reply := Some (catalog [default_template; gpu_template]);
     post_node_replies := [None; Some None; Some (Some "")];
     get_node_replies := [] |}.

(** [kubectl drain] cordons the node and then hits its timeout. *)
Definition cordon_then_time_out : string -> Z -> Cluster -> option exn * Cluster :=
  fun node_name _ c =>
    (Some TimeoutExpired,
     {| nodes := alter (apply_patch (PatchUnschedulable true)) node_name (nodes c);
        pods := pods c |}).

Definition stuck_drain_world (faults : list bool) : World :=
  {| cluster :=
       {| nodes := {[ "n1" := mk_node "n1" None false [ready_true] ]};
          pods := [db_pod; mk_pod "other" None "n2"] |};
     clock := 1000;
     trace := [];
     api_faults := faults;
     drain_executor := cordon_then_time_out;
     node_templates_reply := None;
     post_node_replies := [];
     get_node_replies := [] |}.

(** A status script: a request error, a pending phase, then ready. *)
Definition polling_world : World :=
  {| cluster := {| nodes := ∅; pods := [] |};
     clock := 1000;
     trace := [];
     api_faults := [];
     drain_executor := no_drain;
     node_templates_reply := None;
     post_node_replies := [];
     get_node_replies :=
       [(2, None); (1, Some (Some "pending")); (1, Some (Some "ready"))] |}.

(** Template and instance type resolve; the first request is refused, the
    second returns a node that is pending and then ready. *)
Definition recovering_service_world : World :=
  {| cluster :=
       {| nodes :=
            {[ "n1" := mk_node "n1" (Some gpu_labels) false [ready_true] ]};
          pods := [] |};
     clock := 1000;
     trace := [];
     api_faults := [];
     drain_executor := no_drain;
     node_templates_reply := Some (catalog [default_template; gpu_template]);
     post_node_replies := [None; Some (Some "new-9"); Some (Some "new-10")];
     get_node_replies := [(1, Some (Some "pending")); (1, Some (Some "ready"))] |}.

(** Two nodes on an older release, one on the latest. *)
Definition listed (n version : string) : NodeUtils.ListedNode :=
  {| NodeUtils.listed_node := mk_node n None false [ready_true];
     NodeUtils.status_node_info_kubelet_version := version |}.

Definition mixed_versions : list NodeUtils.ListedNode :=
  [listed "a" "v1.27.3"; listed "b" "v1.28.1"; listed "c" "v1.27.9"].

Definition running (n node : string) (phase : string) : NodeUtils.ListedPod :=
  {| NodeUtils.listed_pod := mk_pod n None node;
     NodeUtils.status_phase := Some phase |}.

(** A world whose control plane knows one schedulable, labelled node. *)
Definition one_node_world (faults : list bool) : World :=
  {| cluster :=
       {| nodes := {[ "n1" := mk_node "n1" (Some gpu_labels) false [ready_true] ]};
          pods := [db_pod] |};
     clock := 1000;
     trace := [];
     api_faults := faults;
     drain_executor := no_drain;
     node_templates_reply := Some (catalog [default_template; gpu_template]);
     post_node_replies := [Some (Some "new-1")];
     get_node_replies := [(2, Some (Some "ready"))] |}.

End Examples.

(** * Properties *)

(** ** Splitting strings *)

Lemma split_on_no_sep (sep : ascii) (s : string) :
  count_char sep s = O -> split_on sep s = [s].
Proof.
  induction s as [|c rest IH]; simpl; [reflexivity|].
  destruct (Ascii.eqb c sep); [discriminate|].
  intros H. rewrite (IH H). reflexivity.
Qed.

Lemma split_on_length (sep : ascii) (s : string) :
  length (split_on sep s) = S (count_char sep s).
Proof.
  induction s as [|c rest IH]; simpl; [reflexivity|].
  destruct (Ascii.eqb c sep); simpl.
  - now rewrite IH.
  - destruct (split_on sep rest) as [|hd tl]; simpl in *; [discriminate|].
    exact IH.
Qed.

(** With exactly one separator, splitting everywhere and splitting on the
    first occurrence are the same thing. *)
Lemma split_on_one_sep (sep : ascii) (s : string) :
  count_char sep s = 1%nat ->
  exists k v, split_on sep s = [k; v] /\ split_first sep s = Some (k, v).
Proof.
  induction s as [|c rest IH]; simpl; [discriminate|].
  destruct (Ascii.eqb c sep).
  - intros H. injection H as H.
    exists EmptyString, rest. now rewrite (split_on_no_sep _ _ H).
  - intros H. destruct (IH H) as (k & v & Hs & Hf).
    exists (String c k), v. now rewrite Hs, Hf.
Qed.

Lemma unpack2_ok (sep : ascii) (s : string) :
  (exists kv, unpack2 (split_on sep s) = Ok kv) <-> count_char sep s = 1%nat.
Proof.
  pose proof (split_on_length sep s) as Hlen. split.
  - intros [kv H].
    destruct (split_on sep s) as [|a [|b [|c l]]]; simpl in *;
      try discriminate.
    congruence.
  - intros H. destruct (split_on_one_sep _ _ H) as (k & v & Hs & _).
    exists (k, v). now rewrite Hs.
Qed.

Lemma unpack2_raise (sep : ascii) (s : string) (e : exn) :
  unpack2 (split_on sep s) = Raise e ->
  count_char sep s <> 1%nat /\ e = ValueError.
Proof.
  intros H. split.
  - intros H1. destruct (split_on_one_sep _ _ H1) as (k & v & Hs & _).
    rewrite Hs in H. discriminate.
  - destruct (split_on sep s) as [|a [|b [|c l]]]; simpl in H; congruence.
Qed.

(** ** The critical-workload scan *)

Lemma scan_step_raise (pe : V1Pod * string) (e : exn) :
  scan_step pe = Raise e <->
  (~ entry_well_formed (snd pe) /\ e = ValueError)
  \/ (entry_well_formed (snd pe) /\ pod_metadata_labels (fst pe) = None
      /\ e = AttributeError).
Proof.
  unfold scan_step, entry_well_formed. split.
  - destruct (unpack2 (split_on "=" (snd pe))) as [[k v]|e'] eqn:Hu.
    + assert (Hwf : count_char "=" (snd pe) = 1%nat)
        by (apply unpack2_ok; eauto).
      destruct (pod_metadata_labels (fst pe)); [discriminate|].
      intros H. right. repeat split; congruence.
    + intros H. apply unpack2_raise in Hu as [Hn He]. left.
      split; congruence.
  - intros [[Hn He]|(Hwf & Hl & He)]; subst e.
    + destruct (unpack2 (split_on "=" (snd pe))) as [kv|e'] eqn:Hu.
      * exfalso. apply Hn, unpack2_ok. eauto.
      * apply unpack2_raise in Hu as [_ ->]. reflexivity.
    + destruct (split_on_one_sep _ _ Hwf) as (k & v & Hs & _).
      now rewrite Hs, Hl.
Qed.

Lemma scan_step_ok (pe : V1Pod * string) (b : bool) :
  scan_step pe = Ok b ->
  entry_well_formed (snd pe)
  /\ pod_metadata_labels (fst pe) <> None
  /\ pod_carries (fst pe) (snd pe) = b.
Proof.
  unfold scan_step, entry_well_formed, pod_carries.
  destruct (unpack2 (split_on "=" (snd pe))) as [[k v]|e'] eqn:Hu;
    [|discriminate].
  assert (Hwf : count_char "=" (snd pe) = 1%nat) by (apply unpack2_ok; eauto).
  destruct (split_on_one_sep _ _ Hwf) as (k' & v' & Hs & Hf).
  rewrite Hs in Hu. simpl in Hu. injection Hu as -> ->. rewrite Hf.
  destruct (pod_metadata_labels (fst pe)); [|discriminate].
  intros H. injection H as H. repeat split; congruence.
Qed.

Lemma scan_step_passed (pe : V1Pod * string) :
  scan_step pe = Ok false <-> pair_passed pe.
Proof.
  split.
  - apply scan_step_ok.
  - intros (Hwf & Hl & Hc). unfold scan_step, pod_carries in *.
    destruct (split_on_one_sep _ _ Hwf) as (k & v & Hs & Hf).
    rewrite Hs. simpl. rewrite Hf in Hc.
    destruct (pod_metadata_labels (fst pe)); [|congruence].
    now rewrite Hc.
Qed.

Lemma scan_workloads_pairs (pod : V1Pod) (workloads : list string)
    (rest : list (V1Pod * string)) :
  scan_pairs (map (pair pod) workloads ++ rest) =
  match NodeUtils.scan_workloads (pod_metadata_labels pod) workloads with
  | Ok true => Ok true
  | Ok false => scan_pairs rest
  | Raise e => Raise e
  end.
Proof.
  induction workloads as [|label ws IH]; simpl; [reflexivity|].
  unfold scan_step; simpl.
  destruct (unpack2 (split_on "=" label)) as [[k v]|e]; [|reflexivity].
  destruct (pod_metadata_labels pod) as [d|] eqn:Hl; [|reflexivity].
  destruct (dict_get_eqb d k v); [reflexivity|].
  rewrite IH. reflexivity.
Qed.

(** The nested loops visit the pairs of [list_prod] in order. *)
Lemma scan_pods_pairs (pods : list V1Pod) (workloads : list string) :
  NodeUtils.scan_pods pods workloads = scan_pairs (list_prod pods workloads).
Proof.
  induction pods as [|pod ps IH]; simpl; [reflexivity|].
  rewrite scan_workloads_pairs, IH. reflexivity.
Qed.

Lemma scan_pairs_raise (l : list (V1Pod * string)) (e : exn) :
  scan_pairs l = Raise e <->
  exists before pe after,
    l = before ++ pe :: after
    /\ Forall pair_passed before
    /\ scan_step pe = Raise e.
Proof.
  induction l as [|pe l IH]; simpl.
  - split; [discriminate|].
    intros (before & pe & after & H & _). destruct before; discriminate.
  - destruct (scan_step pe) as [[|]|e'] eqn:Hs.
    + split; [discriminate|].
      intros ([|q before] & pe' & after & H & Hb & Hr);
        simpl in H; injection H as <- ->.
      * congruence.
      * apply Forall_cons in Hb as [Hq _].
        apply scan_step_passed in Hq. congruence.
    + rewrite IH. split.
      * intros (before & pe' & after & -> & Hb & Hr).
        exists (pe :: before), pe', after. split; [reflexivity|].
        split; [|exact Hr]. constructor; [|exact Hb].
        now apply scan_step_passed.
      * intros ([|q before] & pe' & after & H & Hb & Hr);
          simpl in H; injection H as <- ->.
        -- congruence.
        -- apply Forall_cons in Hb as [_ Hb].
           exists before, pe', after. auto.
    + split.
      * intros H. injection H as ->.
        exists [], pe, l. repeat split; [constructor|exact Hs].
      * intros ([|q before] & pe' & after & H & Hb & Hr);
          simpl in H; injection H as <- ->.
        -- congruence.
        -- apply Forall_cons in Hb as [Hq _].
           apply scan_step_passed in Hq. congruence.
Qed.

Lemma scan_pairs_all_passed_or_carried (l : list (V1Pod * string)) :
  Forall (fun pe => entry_well_formed (snd pe)
                    /\ pod_metadata_labels (fst pe) <> None) l ->
  scan_pairs l = Ok (existsb (fun pe => pod_carries (fst pe) (snd pe)) l).
Proof.
  induction 1 as [|pe l [Hwf Hl] _ IH]; simpl; [reflexivity|].
  destruct (scan_step pe) as [b|e] eqn:Hs.
  - apply scan_step_ok in Hs as (_ & _ & ->).
    destruct b; [reflexivity|exact IH].
  - apply scan_step_raise in Hs as [[Hn _]|(_ & Hn & _)]; contradiction.
Qed.

Lemma existsb_list_prod (pods : list V1Pod) (workloads : list string) :
  existsb (fun pe => pod_carries (fst pe) (snd pe)) (list_prod pods workloads) =
  existsb (fun pod => existsb (pod_carries pod) workloads) pods.
Proof.
  induction pods as [|pod ps IH]; simpl; [reflexivity|].
  rewrite existsb_app, IH. f_equal. clear IH.
  induction workloads as [|x ws IHw]; simpl; [reflexivity|].
  now rewrite IHw.
Qed.

Lemma list_pod_on_node_In (cluster_pods : list V1Pod) (node_name : string)
    (pod : V1Pod) :
  In pod (NodeUtils.list_pod_on_node cluster_pods node_name) <->
  In pod cluster_pods /\ pod_spec_node_name pod = Some node_name.
Proof.
  unfold NodeUtils.list_pod_on_node. rewrite filter_In.
  unfold NodeUtils.on_node.
  destruct (pod_spec_node_name pod) as [n|].
  - destruct (String.eqb_spec n node_name); subst; intuition congruence.
  - intuition congruence.
Qed.

(** C5, the claim as stated, fails, in two ways. An entry whose value
    contains [=] is not split on its first [=]: the spec's reading finds the
    pair [("app", "a=b")], which no pod carries, and so answers false; the
    code unpacks three parts into two names and raises [ValueError]. And a
    pod of the node without a label map makes the call raise
    [AttributeError] where the spec's reading answers false. *)
Lemma first_split_entry_raises :
  split_first "=" "app=a=b" = Some ("app", "a=b")
  /\ NodeUtils.is_node_running_critical_pods ["app=a=b"] [Examples.db_pod] "n1"
     = Raise ValueError
  /\ NodeUtils.is_node_running_critical_pods ["app=a=b"] [Examples.db_pod] "n1"
     <> Ok (spec_is_running_critical_workload ["app=a=b"] [Examples.db_pod] "n1")
  /\ NodeUtils.is_node_running_critical_pods ["tier=db"] [Examples.bare_pod] "n1"
     = Raise AttributeError
  /\ spec_is_running_critical_workload ["tier=db"] [Examples.bare_pod] "n1"
     = false.
Proof.
  split; [reflexivity|]. split; [vm_compute; reflexivity|].
  split; [vm_compute; discriminate|].
  split; vm_compute; reflexivity.
Qed.

(** C5, amended: when every configured entry contains exactly one [=] and
    every pod listed for the node has a label map,
    [is_node_running_critical_pods] returns a boolean, and it is true exactly
    when some pod scheduled on the node carries the key/value pair of some
    entry (for such entries the split on the first [=] and the code's split
    agree). *)
Theorem critical_pods_exactly_when_carried (CRITICAL_WORKLOADS : list string)
    (cluster_pods : list V1Pod) (node_name : string) :
  Forall entry_well_formed CRITICAL_WORKLOADS ->
  (forall pod, In pod cluster_pods ->
               pod_spec_node_name pod = Some node_name ->
               pod_metadata_labels pod <> None) ->
  exists b,
    NodeUtils.is_node_running_critical_pods CRITICAL_WORKLOADS cluster_pods
      node_name = Ok b
    /\ b = spec_is_running_critical_workload CRITICAL_WORKLOADS cluster_pods
             node_name
    /\ (b = true <->
        exists pod entry k v d,
          In pod cluster_pods
          /\ pod_spec_node_name pod = Some node_name
          /\ In entry CRITICAL_WORKLOADS
          /\ split_first "=" entry = Some (k, v)
          /\ pod_metadata_labels pod = Some d
          /\ d !! k = Some v).
Proof.
  intros Hwf Hlabels.
  exists (spec_is_running_critical_workload CRITICAL_WORKLOADS cluster_pods
            node_name).
  split; [|split; [reflexivity|]].
  - unfold NodeUtils.is_node_running_critical_pods,
      spec_is_running_critical_workload.
    rewrite scan_pods_pairs, <- existsb_list_prod.
    apply scan_pairs_all_passed_or_carried.
    apply List.Forall_forall. intros [pod entry] Hin.
    apply in_prod_iff in Hin as [Hp He]. simpl.
    apply list_pod_on_node_In in Hp as [Hp Hn]. split.
    + rewrite List.Forall_forall in Hwf. now apply Hwf.
    + now apply Hlabels.
  - unfold spec_is_running_critical_workload. rewrite existsb_exists. split.
    + intros (pod & Hp & Hex).
      apply existsb_exists in Hex as (entry & He & Hc).
      apply list_pod_on_node_In in Hp as [Hp Hn].
      unfold pod_carries, dict_get_eqb in Hc.
      destruct (split_first "=" entry) as [[k v]|] eqn:Hs; [|discriminate].
      destruct (pod_metadata_labels pod) as [d|] eqn:Hl; [|discriminate].
      destruct (d !! k) as [x|] eqn:Hk; [|discriminate].
      apply String.eqb_eq in Hc as ->.
      exists pod, entry, k, v, d. auto 10.
    + intros (pod & entry & k & v & d & Hp & Hn & He & Hs & Hl & Hk).
      exists pod. split; [apply list_pod_on_node_In; auto|].
      apply existsb_exists. exists entry. split; [exact He|].
      unfold pod_carries, dict_get_eqb. rewrite Hs, Hl, Hk.
      apply String.eqb_refl.
Qed.

Lemma critical_pods_exactly_when_carried_witness :
  exists b,
    NodeUtils.is_node_running_critical_pods ["app=api"; "tier=db"]
      [Examples.web_pod; Examples.db_pod] "n1" = Ok b
    /\ b = spec_is_running_critical_workload ["app=api"; "tier=db"]
             [Examples.web_pod; Examples.db_pod] "n1"
    /\ (b = true <->
        exists pod entry k v d,
          In pod [Examples.web_pod; Examples.db_pod]
          /\ pod_spec_node_name pod = Some "n1"
          /\ In entry ["app=api"; "tier=db"]
          /\ split_first "=" entry = Some (k, v)
          /\ pod_metadata_labels pod = Some d
          /\ d !! k = Some v).
Proof.
  apply (critical_pods_exactly_when_carried ["app=api"; "tier=db"]
           [Examples.web_pod; Examples.db_pod] "n1").
  - repeat constructor.
  - intros pod [<-|[<-|[]]] _; discriminate.
Defined.

(** The call with its request: one pod listing, which changes nothing in
    the cluster; refused, its [ApiException] leaves the function, accepted,
    the loops run on the pods of the node that the control plane holds. *)
Lemma critical_pods_call_run (CRITICAL_WORKLOADS : list string)
    (node_name : string) (w : World) :
  exists w1,
    NodeUtils.is_node_running_critical_pods_call CRITICAL_WORKLOADS node_name w
    = (if hd false (api_faults w) then Raise ApiException
       else NodeUtils.is_node_running_critical_pods CRITICAL_WORKLOADS
              (pods (cluster w)) node_name,
       w1)
    /\ trace w1 = trace w ++ [(clock w, ListPods node_name)]
    /\ cluster w1 = cluster w.
Proof.
  unfold NodeUtils.is_node_running_critical_pods_call,
    NodeUtils.list_pod_for_all_namespaces,
    NodeUtils.is_node_running_critical_pods, bind, emit, control_plane_call.
  cbn [api_faults with_trace].
  destruct (api_faults w) as [|[|] fs]; cbn [hd]; eexists;
    (split; [reflexivity|split; reflexivity]).
Qed.

(** C10, the claim as stated, fails: a malformed entry or a pod without
    labels does not make the call raise when the scan never reaches it.
    With no pod on the node the entries are never unpacked, and with an
    empty list the label map is never read; in both cases the call, its
    listing accepted, returns false. *)
Lemma unreached_offender_returns_false :
  ~ entry_well_formed "app"
  /\ fst (NodeUtils.is_node_running_critical_pods_call ["app"] "n1"
            (Examples.base_world [] [Examples.mk_pod "elsewhere" None "n2"]))
     = Ok false
  /\ pod_metadata_labels Examples.bare_pod = None
  /\ pod_spec_node_name Examples.bare_pod = Some "n1"
  /\ fst (NodeUtils.is_node_running_critical_pods_call [] "n1"
            (Examples.base_world [] [Examples.bare_pod]))
     = Ok false.
Proof.
  split; [intros H; discriminate H|].
  repeat split; reflexivity.
Qed.

(** C10, amended: [is_node_running_critical_pods] is not total. A refused
    pod listing leaves it as an [ApiException]. When the listing is
    accepted, the scan goes through the pods of the node in order and, for
    each pod, through the entries in order, and the call raises if it
    reaches, before any matching pair, an entry that does not contain
    exactly one [=] (a [ValueError]) or, the entry being well formed, a pod
    with no label map (an [AttributeError]), and in no other case: an
    offending entry or pod that the scan does not reach raises nothing. *)
Theorem critical_pods_raises_exactly_when (CRITICAL_WORKLOADS : list string)
    (node_name : string) (w : World) :
  (hd false (api_faults w) = true ->
   fst (NodeUtils.is_node_running_critical_pods_call CRITICAL_WORKLOADS
          node_name w) = Raise ApiException)
  /\ (hd false (api_faults w) = false ->
      forall e,
        fst (NodeUtils.is_node_running_critical_pods_call CRITICAL_WORKLOADS
               node_name w) = Raise e
        <->
        exists before pod entry after,
          list_prod (NodeUtils.list_pod_on_node (pods (cluster w)) node_name)
            CRITICAL_WORKLOADS = before ++ (pod, entry) :: after
          /\ Forall pair_passed before
          /\ ((~ entry_well_formed entry /\ e = ValueError)
              \/ (entry_well_formed entry /\ pod_metadata_labels pod = None
                  /\ e = AttributeError))).
Proof.
  destruct (critical_pods_call_run CRITICAL_WORKLOADS node_name w)
    as (w1 & Hrun & _).
  rewrite Hrun. cbn [fst]. split.
  - intros ->. reflexivity.
  - intros -> e. unfold NodeUtils.is_node_running_critical_pods.
    rewrite scan_pods_pairs, scan_pairs_raise. split.
    + intros (before & [pod entry] & after & Hl & Hb & Hr).
      apply scan_step_raise in Hr. exists before, pod, entry, after. auto.
    + intros (before & pod & entry & after & Hl & Hb & Hr).
      exists before, (pod, entry), after. split; [exact Hl|].
      split; [exact Hb|]. now apply scan_step_raise.
Qed.

(** A pod without labels that the scan reaches first: the call raises. *)
Lemma critical_pods_raises_exactly_when_witness :
  fst (NodeUtils.is_node_running_critical_pods_call ["tier=db"] "n1"
         (Examples.base_world [] [Examples.bare_pod; Examples.db_pod]))
  = Raise AttributeError.
Proof.
  destruct (critical_pods_raises_exactly_when ["tier=db"] "n1"
              (Examples.base_world [] [Examples.bare_pod; Examples.db_pod]))
    as [_ Hscan].
  apply (Hscan eq_refl AttributeError).
  exists [], Examples.bare_pod, "tier=db", [(Examples.db_pod, "tier=db")].
  split; [reflexivity|]. split; [constructor|].
  right. split; [reflexivity|]. split; reflexivity.
Defined.

(** The scan order at work: a pod without labels raises when it comes
    first, and is never looked at when an earlier pod matches; a malformed
    first entry raises as soon as the node has a pod. *)
Example critical_pods_scan_order :
  NodeUtils.is_node_running_critical_pods ["tier=db"]
    [Examples.bare_pod; Examples.db_pod] "n1" = Raise AttributeError
  /\ NodeUtils.is_node_running_critical_pods ["tier=db"]
       [Examples.db_pod; Examples.bare_pod] "n1" = Ok true
  /\ NodeUtils.is_node_running_critical_pods ["app"; "tier=db"]
       [Examples.db_pod] "n1" = Raise ValueError
  /\ NodeUtils.is_node_running_critical_pods ["tier=db"; "app"]
       [Examples.db_pod] "n1" = Ok true.
Proof. repeat split; vm_compute; reflexivity. Qed.

(** ** Staleness *)

(** C8: with [days = 0] the node is stale whatever its creation time;
    otherwise it is stale exactly when its age exceeds [days + 1] days. *)
Theorem is_node_older_than_spec (now : Z) (node : V1Node) (days : Z) :
  (days = 0 -> NodeUtils.is_node_older_than now node days = true)
  /\ (days <> 0 ->
      (NodeUtils.is_node_older_than now node days = true <->
       now - metadata_creation_timestamp node
       > (days + 1) * NodeUtils.microseconds_per_day)).
Proof.
  unfold NodeUtils.is_node_older_than, NodeUtils.timedelta_days. split.
  - intros ->. reflexivity.
  - intros Hd. destruct (Z.eqb_spec days 0) as [|_]; [contradiction|].
    rewrite Z.gtb_gt. reflexivity.
Qed.

(** The padding at work: a node aged exactly [days + 1] days is not stale
    yet, one microsecond later it is. *)
Example is_node_older_than_boundary :
  NodeUtils.is_node_older_than (3 * NodeUtils.microseconds_per_day)
    Examples.old_node 2 = false
  /\ NodeUtils.is_node_older_than (3 * NodeUtils.microseconds_per_day + 1)
       Examples.old_node 2 = true
  /\ NodeUtils.is_node_older_than 0 Examples.old_node 0 = true.
Proof. repeat split; reflexivity. Qed.

Lemma is_node_older_than_spec_witness :
  NodeUtils.is_node_older_than 5 Examples.old_node 0 = true.
Proof.
  apply (proj1 (is_node_older_than_spec 5 Examples.old_node 0)). reflexivity.
Defined.

(** ** Waiting for new nodes *)

Lemma name_in_In (names : list string) (n : string) :
  NodeUtils.name_in names n = true <-> In n names.
Proof.
  unfold NodeUtils.name_in. rewrite existsb_exists. split.
  - intros (x & Hx & He). apply String.eqb_eq in He. now subst.
  - intros H. exists n. split; [exact H|apply String.eqb_refl].
Qed.

Lemma new_nodes_In (nodes : list V1Node) (original_nodes : list string)
    (n : string) :
  In n (NodeUtils.new_nodes nodes original_nodes) <->
  (exists node, In node nodes /\ metadata_name node = n)
  /\ ~ In n original_nodes.
Proof.
  unfold NodeUtils.new_nodes. rewrite in_map_iff. split.
  - intros (node & <- & Hf). apply filter_In in Hf as [Hin Hneg].
    split; [eauto|]. rewrite <- name_in_In.
    now destruct (NodeUtils.name_in original_nodes (metadata_name node)).
  - intros [(node & Hin & <-) Hno]. exists node. split; [reflexivity|].
    apply filter_In. split; [exact Hin|].
    rewrite <- name_in_In in Hno.
    now destruct (NodeUtils.name_in original_nodes (metadata_name node)).
Qed.

Lemma ready_conditions_all_true_iff (node : V1Node) :
  NodeUtils.ready_conditions_all_true node = Ok true <->
  exists conditions,
    status_conditions node = Some conditions
    /\ forall c, In c conditions ->
                 condition_type c = "Ready" -> condition_status c = "True".
Proof.
  unfold NodeUtils.ready_conditions_all_true.
  destruct (status_conditions node) as [conditions|].
  - split.
    + intros H. injection H as H. exists conditions. split; [reflexivity|].
      rewrite forallb_forall in H. intros c Hin Ht.
      apply String.eqb_eq, H, filter_In. split; [exact Hin|].
      now apply String.eqb_eq.
    + intros (cs & Hcs & H). injection Hcs as <-. f_equal.
      apply forallb_forall. intros c Hin. apply filter_In in Hin as [Hin Ht].
      apply String.eqb_eq. apply H; [exact Hin|]. now apply String.eqb_eq.
  - split; [discriminate|intros (cs & Hcs & _); discriminate].
Qed.

(** The readiness test raises for one reason only: conditions that are
    [None]. *)
Lemma ready_conditions_all_true_raise (node : V1Node) (e : exn) :
  NodeUtils.ready_conditions_all_true node = Raise e <->
  status_conditions node = None /\ e = TypeError.
Proof.
  unfold NodeUtils.ready_conditions_all_true.
  destruct (status_conditions node).
  - split; [discriminate|intros [H _]; discriminate].
  - split; [intros H; injection H as <-; auto|intros [_ ->]; reflexivity].
Qed.

Lemma select_ready_In (names : list string) (nodes ready : list V1Node)
    (node : V1Node) :
  NodeUtils.select_ready names nodes = Ok ready ->
  (In node ready <->
   In node nodes
   /\ NodeUtils.name_in names (metadata_name node) = true
   /\ NodeUtils.ready_conditions_all_true node = Ok true).
Proof.
  revert ready. induction nodes as [|n nodes IH]; intros ready; simpl.
  - intros H. injection H as <-. simpl. tauto.
  - destruct (NodeUtils.name_in names (metadata_name n)) eqn:Hn.
    + destruct (NodeUtils.ready_conditions_all_true n) as [b|e] eqn:Hb;
        [|discriminate].
      destruct (NodeUtils.select_ready names nodes) as [selected|e];
        [|discriminate].
      intros H. injection H as <-. specialize (IH selected eq_refl).
      destruct b; simpl; rewrite IH.
      * split.
        -- intros [<-|H]; [auto|]. tauto.
        -- intros [[<-|Hin] H]; [now left|right; tauto].
      * split; [tauto|].
        intros [[<-|Hin] [Hnm Hr]]; [congruence|auto].
    + intros H. rewrite (IH ready H). split; [tauto|].
      intros [[<-|Hin] [Hnm Hr]]; [congruence|auto].
Qed.

(** A new node whose conditions are [None] ends the comprehension with a
    [TypeError], wherever it stands in the listing. *)
Lemma select_ready_raises (names : list string) (nodes : list V1Node)
    (node : V1Node) :
  In node nodes ->
  NodeUtils.name_in names (metadata_name node) = true ->
  status_conditions node = None ->
  NodeUtils.select_ready names nodes = Raise TypeError.
Proof.
  intros Hin Hnm Hc. induction nodes as [|n nodes IH]; [contradiction|].
  simpl. destruct Hin as [->|Hin].
  - rewrite Hnm.
    now rewrite (proj2 (ready_conditions_all_true_raise node TypeError)).
  - rewrite (IH Hin).
    destruct (NodeUtils.name_in names (metadata_name n)); [|reflexivity].
    destruct (NodeUtils.ready_conditions_all_true n) as [b|e] eqn:Hb;
      [reflexivity|].
    apply ready_conditions_all_true_raise in Hb as [_ ->]. reflexivity.
Qed.

(** Nodes whose name is not in [new_nodes] are passed over unread. *)
Lemma select_ready_none (names : list string) (nodes : list V1Node) :
  (forall node, In node nodes ->
                NodeUtils.name_in names (metadata_name node) = false) ->
  NodeUtils.select_ready names nodes = Ok [].
Proof.
  induction nodes as [|n nodes IH]; intros H; simpl; [reflexivity|].
  rewrite (H n (or_introl eq_refl)). apply IH. intros node Hin.
  apply H. now right.
Qed.

(** The ready new nodes are the listed nodes outside the original set all of
    whose conditions of type [Ready] have status ["True"]. *)
Lemma ready_new_nodes_In (nodes : list V1Node) (original_nodes : list string)
    (ready : list V1Node) (node : V1Node) :
  NodeUtils.ready_new_nodes nodes original_nodes = Ok ready ->
  (In node ready <->
   In node nodes
   /\ ~ In (metadata_name node) original_nodes
   /\ exists conditions,
        status_conditions node = Some conditions
        /\ forall c, In c conditions ->
                     condition_type c = "Ready" -> condition_status c = "True").
Proof.
  unfold NodeUtils.ready_new_nodes. intros H.
  rewrite (select_ready_In _ _ _ node H), name_in_In, new_nodes_In,
    ready_conditions_all_true_iff.
  split.
  - intros (Hin & [_ Hno] & Hc). auto.
  - intros (Hin & Hno & Hc). eauto 6.
Qed.

Lemma ready_new_nodes_raises (nodes : list V1Node)
    (original_nodes : list string) (node : V1Node) :
  In node nodes ->
  ~ In (metadata_name node) original_nodes ->
  status_conditions node = None ->
  NodeUtils.ready_new_nodes nodes original_nodes = Raise TypeError.
Proof.
  intros Hin Hnew Hc. unfold NodeUtils.ready_new_nodes.
  apply (select_ready_raises _ _ node Hin); [|exact Hc].
  apply name_in_In, new_nodes_In. eauto.
Qed.

Lemma wait_cycles_exhausted (list_node : nat -> list V1Node)
    (original_nodes : list string) (MIN_READY_NODES : Z)
    (remaining cycle : nat) :
  (forall i, (cycle <= i < cycle + remaining)%nat ->
     exists ready,
       NodeUtils.ready_new_nodes (list_node i) original_nodes = Ok ready
       /\ Z.of_nat (length ready) < MIN_READY_NODES) ->
  NodeUtils.wait_cycles list_node original_nodes MIN_READY_NODES
    remaining cycle = Ok None.
Proof.
  revert cycle. induction remaining as [|r IH]; intros cycle H; simpl;
    [reflexivity|].
  destruct (H cycle ltac:(lia)) as (ready & -> & Hlt).
  destruct (Z.leb_spec MIN_READY_NODES (Z.of_nat (length ready))) as [Hle|_];
    [lia|].
  apply IH. intros i Hi. apply H. lia.
Qed.

Lemma wait_cycles_found (list_node : nat -> list V1Node)
    (original_nodes : list string) (MIN_READY_NODES : Z)
    (remaining cycle k : nat) (ready : list V1Node) :
  (k < remaining)%nat ->
  (forall i, (cycle <= i < cycle + k)%nat ->
     exists earlier,
       NodeUtils.ready_new_nodes (list_node i) original_nodes = Ok earlier
       /\ Z.of_nat (length earlier) < MIN_READY_NODES) ->
  NodeUtils.ready_new_nodes (list_node (cycle + k)%nat) original_nodes
  = Ok ready ->
  MIN_READY_NODES <= Z.of_nat (length ready) ->
  NodeUtils.wait_cycles list_node original_nodes MIN_READY_NODES
    remaining cycle
  = Ok (Some (map metadata_name ready)).
Proof.
  revert cycle k. induction remaining as [|r IH];
    intros cycle k Hk Hlt Hready Hge; [lia|].
  simpl. destruct k as [|k].
  - rewrite Nat.add_0_r in Hready. rewrite Hready.
    destruct (Z.leb_spec MIN_READY_NODES (Z.of_nat (length ready)));
      [reflexivity|lia].
  - destruct (Hlt cycle ltac:(lia)) as (earlier & -> & Hearlier).
    destruct (Z.leb_spec MIN_READY_NODES (Z.of_nat (length earlier)));
      [lia|].
    replace (cycle + S k)%nat with (S cycle + k)%nat in * by lia.
    apply (IH (S cycle) k); [lia| |exact Hready|exact Hge].
    intros i Hi. apply Hlt. lia.
Qed.

Lemma wait_cycles_some (list_node : nat -> list V1Node)
    (original_nodes : list string) (MIN_READY_NODES : Z)
    (remaining cycle : nat) (names : list string) :
  NodeUtils.wait_cycles list_node original_nodes MIN_READY_NODES
    remaining cycle = Ok (Some names) ->
  exists k ready,
    (k < remaining)%nat
    /\ NodeUtils.ready_new_nodes (list_node (cycle + k)%nat) original_nodes
       = Ok ready
    /\ MIN_READY_NODES <= Z.of_nat (length ready)
    /\ names = map metadata_name ready.
Proof.
  revert cycle. induction remaining as [|r IH]; intros cycle; simpl;
    [discriminate|].
  destruct (NodeUtils.ready_new_nodes (list_node cycle) original_nodes)
    as [ready|e] eqn:Hready; [|discriminate].
  destruct (Z.leb_spec MIN_READY_NODES (Z.of_nat (length ready))) as [Hle|_].
  - intros H. injection H as <-. exists O, ready.
    rewrite Nat.add_0_r. split; [lia|]. auto.
  - intros H. apply IH in H as (k & ready' & Hk & Hr & Hle & ->).
    exists (S k), ready'.
    replace (cycle + S k)%nat with (S cycle + k)%nat by lia.
    split; [lia|]. auto.
Qed.

(** The part of C6 that holds: at the first cycle whose listing has enough
    ready new nodes, the names of exactly those nodes are returned. *)
Lemma wait_for_new_nodes_found (list_node : nat -> list V1Node)
    (MIN_READY_NODES total_wait_cycles : Z) (original_nodes : list string)
    (k : nat) (ready : list V1Node) :
  (k < Z.to_nat total_wait_cycles)%nat ->
  (forall i, (i < k)%nat ->
     exists earlier,
       NodeUtils.ready_new_nodes (list_node i) original_nodes = Ok earlier
       /\ Z.of_nat (length earlier) < MIN_READY_NODES) ->
  NodeUtils.ready_new_nodes (list_node k) original_nodes = Ok ready ->
  MIN_READY_NODES <= Z.of_nat (length ready) ->
  NodeUtils.wait_for_new_nodes list_node MIN_READY_NODES total_wait_cycles
    original_nodes
  = Ok (Some (map metadata_name ready)).
Proof.
  intros Hk Hlt Hready Hge. unfold NodeUtils.wait_for_new_nodes.
  apply (wait_cycles_found list_node original_nodes MIN_READY_NODES
           (Z.to_nat total_wait_cycles) O k ready Hk).
  - intros i Hi. apply Hlt. lia.
  - exact Hready.
  - exact Hge.
Qed.

(** C6, where the code departs from it: when no cycle of the budget sees the
    minimum of ready new nodes, the function falls off its loop and returns
    Python's [None], not an empty list. *)
Theorem wait_for_new_nodes_exhausted_returns_none
    (list_node : nat -> list V1Node) (MIN_READY_NODES total_wait_cycles : Z)
    (original_nodes : list string) :
  (forall i, (i < Z.to_nat total_wait_cycles)%nat ->
     exists ready,
       NodeUtils.ready_new_nodes (list_node i) original_nodes = Ok ready
       /\ Z.of_nat (length ready) < MIN_READY_NODES) ->
  NodeUtils.wait_for_new_nodes list_node MIN_READY_NODES total_wait_cycles
    original_nodes = Ok None
  /\ NodeUtils.wait_for_new_nodes list_node MIN_READY_NODES total_wait_cycles
       original_nodes <> Ok (Some []).
Proof.
  intros H.
  assert (Hnone : NodeUtils.wait_for_new_nodes list_node MIN_READY_NODES
                    total_wait_cycles original_nodes = Ok None).
  { apply wait_cycles_exhausted. intros i Hi. apply H. lia. }
  rewrite Hnone. split; [reflexivity|discriminate].
Qed.

(** The failing input: one original node, one new node that is not ready,
    a minimum of one and the default budget of five cycles. *)
Lemma wait_for_new_nodes_exhausted_returns_none_witness :
  NodeUtils.wait_for_new_nodes
    (fun _ => [Examples.old_node; Examples.unready_node]) 1 5 ["old-1"]
  = Ok None
  /\ NodeUtils.wait_for_new_nodes
       (fun _ => [Examples.old_node; Examples.unready_node]) 1 5 ["old-1"]
     <> Ok (Some []).
Proof.
  apply (wait_for_new_nodes_exhausted_returns_none
           (fun _ => [Examples.old_node; Examples.unready_node]) 1 5 ["old-1"]).
  intros i _. exists []. split; [vm_compute; reflexivity|simpl; lia].
Defined.

(** C9, the claim as stated, fails for the new node that has no condition
    at all because its conditions are [None]: it has no condition of type
    [Ready], and it is not counted as ready; the readiness test raises a
    [TypeError], which nothing catches, and so does the wait. *)
Lemma new_node_without_conditions_raises :
  status_conditions Examples.registering_node = None
  /\ ~ In (metadata_name Examples.registering_node) ["old-1"]
  /\ NodeUtils.ready_conditions_all_true Examples.registering_node
     = Raise TypeError
  /\ NodeUtils.wait_for_new_nodes
       (fun _ => [Examples.old_node; Examples.registering_node]) 1 5 ["old-1"]
     = Raise TypeError.
Proof.
  split; [reflexivity|]. split; [intros [H|[]]; discriminate H|].
  split; vm_compute; reflexivity.
Qed.

(** C9, amended: a new node whose conditions are a list with no entry of
    type [Ready] (the empty list included) passes the readiness filter: it
    is among the ready new nodes, so it counts toward the minimum, and its
    name is in every list the wait returns from listings that contain it.
    A new node whose conditions are [None] does not: the readiness test
    raises a [TypeError], and so does every wait whose first listing
    contains the node. *)
Theorem node_without_ready_condition_counts_as_ready
    (original_nodes : list string) (node : V1Node) :
  ~ In (metadata_name node) original_nodes ->
  (forall conditions,
     status_conditions node = Some conditions ->
     (forall c, In c conditions -> condition_type c <> "Ready") ->
     NodeUtils.ready_conditions_all_true node = Ok true
     /\ (forall nodes ready, In node nodes ->
           NodeUtils.ready_new_nodes nodes original_nodes = Ok ready ->
           In node ready /\ (1 <= length ready)%nat)
     /\ (forall list_node MIN_READY_NODES total_wait_cycles names,
           (forall i, In node (list_node i)) ->
           NodeUtils.wait_for_new_nodes list_node MIN_READY_NODES
             total_wait_cycles original_nodes = Ok (Some names) ->
           In (metadata_name node) names)
     /\ (forall total_wait_cycles, 0 < total_wait_cycles ->
           NodeUtils.wait_for_new_nodes (fun _ => [node]) 1 total_wait_cycles
             original_nodes = Ok (Some [metadata_name node])))
  /\ (status_conditions node = None ->
      NodeUtils.ready_conditions_all_true node = Raise TypeError
      /\ (forall nodes, In node nodes ->
            NodeUtils.ready_new_nodes nodes original_nodes = Raise TypeError)
      /\ (forall list_node MIN_READY_NODES total_wait_cycles,
            0 < total_wait_cycles -> In node (list_node O) ->
            NodeUtils.wait_for_new_nodes list_node MIN_READY_NODES
              total_wait_cycles original_nodes = Raise TypeError)).
Proof.
  intros Hnew. split.
  - intros conditions Hc Hnone.
    assert (Hready : exists cs,
              status_conditions node = Some cs
              /\ forall c, In c cs ->
                   condition_type c = "Ready" -> condition_status c = "True").
    { exists conditions. split; [exact Hc|].
      intros c Hin Ht. now destruct (Hnone c Hin). }
    assert (Hin : forall nodes ready, In node nodes ->
              NodeUtils.ready_new_nodes nodes original_nodes = Ok ready ->
              In node ready).
    { intros nodes ready H Hr. apply (ready_new_nodes_In _ _ _ node Hr).
      auto. }
    assert (Htest : NodeUtils.ready_conditions_all_true node = Ok true)
      by now apply ready_conditions_all_true_iff.
    split; [exact Htest|]. split; [|split].
    + intros nodes ready H Hr. split; [eauto|].
      specialize (Hin nodes ready H Hr).
      destruct ready; [contradiction|simpl; lia].
    + intros list_node m cycles names Hall Hsome.
      apply wait_cycles_some in Hsome as (k & ready & _ & Hr & _ & ->).
      apply in_map. apply (Hin _ _ (Hall _) Hr).
    + intros cycles Hpos.
      assert (Hl : NodeUtils.ready_new_nodes [node] original_nodes
                   = Ok [node]).
      { assert (Hno : NodeUtils.name_in original_nodes (metadata_name node)
                      = false).
        { apply not_true_is_false. now rewrite name_in_In. }
        unfold NodeUtils.ready_new_nodes, NodeUtils.new_nodes. simpl.
        rewrite Hno, Htest. cbn [negb map].
        now rewrite (proj2 (name_in_In [metadata_name node] (metadata_name node))
                       (or_introl eq_refl)). }
      apply (wait_for_new_nodes_found (fun _ => [node]) 1 cycles
               original_nodes O [node]).
      * lia.
      * intros i Hi. lia.
      * exact Hl.
      * simpl. lia.
  - intros Hc.
    assert (Hraise : forall nodes, In node nodes ->
              NodeUtils.ready_new_nodes nodes original_nodes
              = Raise TypeError).
    { intros nodes H. now apply (ready_new_nodes_raises nodes _ node). }
    split; [now apply ready_conditions_all_true_raise|].
    split; [exact Hraise|].
    intros list_node m cycles Hpos H0.
    unfold NodeUtils.wait_for_new_nodes.
    destruct (Z.to_nat cycles) as [|r] eqn:Hr; [lia|].
    simpl. now rewrite (Hraise _ H0).
Qed.

Lemma node_without_ready_condition_counts_as_ready_witness :
  NodeUtils.ready_conditions_all_true Examples.fresh_node = Ok true
  /\ NodeUtils.wait_for_new_nodes
       (fun _ => [Examples.old_node; Examples.unready_node; Examples.fresh_node])
       1 5 ["old-1"] = Ok (Some ["new-1"]).
Proof.
  assert (Hnew : ~ In (metadata_name Examples.fresh_node) ["old-1"]).
  { intros [H|[]]. discriminate H. }
  destruct (node_without_ready_condition_counts_as_ready ["old-1"]
              Examples.fresh_node Hnew) as [Hlist _].
  destruct (Hlist [Examples.disk_pressure] eq_refl) as (Hr & _ & _ & _).
  { intros c [<-|[]]. discriminate. }
  split; [exact Hr|]. vm_compute. reflexivity.
Defined.

(** ** Running the monad *)

Lemma bind_ok {A B : Type} (m : M A) (k : A -> M B) (w w1 : World) (a : A) :
  m w = (Ok a, w1) -> bind m k w = k a w1.
Proof. unfold bind. now intros ->. Qed.

Lemma bind_raise {A B : Type} (m : M A) (k : A -> M B) (w w1 : World)
    (e : exn) :
  m w = (Raise e, w1) -> bind m k w = (Raise e, w1).
Proof. unfold bind. now intros ->. Qed.

Lemma try_except_ok {A : Type} (m : M A) (h : exn -> option (M A))
    (w w1 : World) (a : A) :
  m w = (Ok a, w1) -> try_except m h w = (Ok a, w1).
Proof. unfold try_except. now intros ->. Qed.

Lemma try_except_raise {A : Type} (m : M A) (h : exn -> option (M A))
    (w w1 : World) (e : exn) :
  m w = (Raise e, w1) ->
  try_except m h w =
  match h e with Some k => k w1 | None => (Raise e, w1) end.
Proof. unfold try_except. now intros ->. Qed.

Lemma reply_ready_iff (r : reply) :
  match r with
  | Some phase => CastApiUtils.phase_is_ready phase
  | None => false
  end = true <-> r = ready_reply.
Proof.
  unfold ready_reply, CastApiUtils.phase_is_ready.
  destruct r as [[p|]|]; split; try discriminate.
  - intros H. apply String.eqb_eq in H. now subst.
  - intros H. injection H as ->. reflexivity.
Qed.

(** ** Waiting for the new node *)

Lemma wait_trace_cons (cluster_id node_id : string) (ri : Z)
    (p : Z * reply * Z) (polls : list (Z * reply * Z)) (b : bool) (t : Z) :
  wait_trace cluster_id node_id ri (p :: polls) b t =
  failed_poll cluster_id node_id ri p
  ++ wait_trace cluster_id node_id ri polls b t.
Proof. unfold wait_trace. simpl. now rewrite <- app_assoc. Qed.

Section WaitLoop.

Variables (cluster_id node_id : string).
Variables (end_time retry_interval_seconds max_retries : Z).
Hypothesis interval_nonneg : 0 <= retry_interval_seconds.

Local Abbreviation wait_loop_post :=
  (wait_loop_post cluster_id node_id end_time retry_interval_seconds
     max_retries).

Lemma wait_loop_spec (fuel : nat) :
  forall (retries : Z) (w : World),
    (Z.to_nat (max_retries - retries) < fuel)%nat ->
    exists b w' polls t,
      CastApiUtils.wait_loop fuel cluster_id node_id end_time
        retry_interval_seconds max_retries retries w = (Ok b, w')
      /\ wait_loop_post retries w b w' polls t.
Proof.
  (* one more round: the request at [clock w] got [r], which is not ready *)
  assert (Hround : forall retries w w' b polls t r t',
    clock w < end_time -> r <> ready_reply -> retries < max_retries ->
    wait_loop_post (retries + 1)
      (with_clock (t' + retry_interval_seconds)
         (with_trace
            ((trace w ++ [(clock w, GetNodeStatus cluster_id node_id r)]) ++
             [(t', Sleep retry_interval_seconds)])
            (with_clock t'
               (with_get_node_replies (tl (get_node_replies w))
                  (with_trace
                     (trace w ++
                      [(clock w, GetNodeStatus cluster_id node_id r)]) w)))))
      b w' polls t ->
    wait_loop_post retries w b w' ((clock w, r, t') :: polls) t).
  { intros retries w w' b polls t r t' Hnow Hr Hmax
      (Htr & Hcl & Hall & Hlen & Ht & Hf & Hp).
    unfold wait_loop_post. rewrite wait_trace_cons.
    cbn in Htr, Hcl, Hp. simpl length.
    refine (conj _ (conj Hcl (conj _ (conj _ (conj Ht (conj _ Hp)))))).
    - rewrite Htr. unfold failed_poll. now rewrite <- !app_assoc.
    - constructor; [|exact Hall]. simpl. split; [lia|exact Hr].
    - lia.
    - intros Hb. destruct (Hf Hb) as [H|H]; [left; exact H|right; lia]. }
  (* the loop ends without a request *)
  assert (Hstop : forall retries w,
    end_time <= clock w \/ max_retries <= retries ->
    wait_loop_post retries w false w [] 0).
  { intros retries w H. unfold wait_loop_post, wait_trace. simpl.
    rewrite app_nil_r.
    refine (conj eq_refl (conj eq_refl (conj _ (conj _ (conj _ (conj _ eq_refl)))))).
    - constructor.
    - lia.
    - discriminate.
    - intros _. destruct H; [left; assumption|right; lia]. }
  induction fuel as [|fuel IH]; intros retries w Hfuel; [lia|].
  cbn [CastApiUtils.wait_loop]. unfold bind at 1, time_time at 1.
  destruct (Z.ltb_spec (clock w) end_time) as [Hnow|Hnow].
  2:{ exists false, w, [], 0. split; [reflexivity|]. apply Hstop. now left. }
  destruct (Z.geb_spec retries max_retries) as [Hmax|Hmax].
  { exists false, w, [], 0. split; [reflexivity|]. apply Hstop. right. lia. }
  unfold bind at 1, try_except at 1, bind at 1,
    requests_get_node_phase at 1.
  destruct (get_node_replies w) as [|[latency r] rest] eqn:Hreplies.
  - (* the script is over: the request fails *)
    cbn -[CastApiUtils.wait_loop Z.add].
    unfold bind at 1, time_sleep at 1.
    destruct (Z.ltb_spec retry_interval_seconds 0) as [Hneg|_]; [lia|].
    unfold bind at 1, emit at 1. cbn -[CastApiUtils.wait_loop Z.add].
    match goal with
    | |- context [CastApiUtils.wait_loop fuel _ _ _ _ _ ?rt ?w2] =>
        destruct (IH rt w2 ltac:(lia)) as (b & w' & polls & t & Hrun & Hpost)
    end.
    exists b, w', ((clock w, None, clock w + 0) :: polls), t.
    split; [exact Hrun|].
    apply Hround; [exact Hnow|discriminate|exact Hmax|].
    rewrite Hreplies. exact Hpost.
  - destruct r as [phase|].
    + cbn -[CastApiUtils.wait_loop Z.add CastApiUtils.phase_is_ready].
      destruct (CastApiUtils.phase_is_ready phase) eqn:Hready.
      * (* ready: the wait is over *)
        exists true, (with_clock (clock w + latency)
                        (with_get_node_replies rest
                           (with_trace
                              (trace w ++
                               [(clock w,
                                 GetNodeStatus cluster_id node_id
                                   (Some phase))]) w))), [], (clock w).
        split; [reflexivity|].
        assert (Hr : Some phase = ready_reply)
          by (apply reply_ready_iff; exact Hready).
        unfold wait_loop_post, wait_trace, final_poll. simpl. rewrite Hr.
        refine (conj eq_refl (conj eq_refl
                  (conj _ (conj _ (conj _ (conj _ eq_refl)))))).
        -- constructor.
        -- lia.
        -- intros _. exact Hnow.
        -- discriminate.
      * unfold bind at 1, time_sleep at 1.
        destruct (Z.ltb_spec retry_interval_seconds 0) as [Hneg|_]; [lia|].
        unfold bind at 1, emit at 1.
        cbn -[CastApiUtils.wait_loop Z.add].
        match goal with
        | |- context [CastApiUtils.wait_loop fuel _ _ _ _ _ ?rt ?w2] =>
            destruct (IH rt w2 ltac:(lia))
              as (b & w' & polls & t & Hrun & Hpost)
        end.
        exists b, w', ((clock w, Some phase, clock w + latency) :: polls), t.
        split; [exact Hrun|].
        apply Hround; [exact Hnow| |exact Hmax|].
        -- intros Hr. apply reply_ready_iff in Hr. congruence.
        -- rewrite Hreplies. exact Hpost.
    + (* a request error: caught, the loop goes on *)
      cbn -[CastApiUtils.wait_loop Z.add].
      unfold bind at 1, time_sleep at 1.
      destruct (Z.ltb_spec retry_interval_seconds 0) as [Hneg|_]; [lia|].
      unfold bind at 1, emit at 1. cbn -[CastApiUtils.wait_loop Z.add].
      match goal with
      | |- context [CastApiUtils.wait_loop fuel _ _ _ _ _ ?rt ?w2] =>
          destruct (IH rt w2 ltac:(lia)) as (b & w' & polls & t & Hrun & Hpost)
      end.
      exists b, w', ((clock w, None, clock w + latency) :: polls), t.
      split; [exact Hrun|].
      apply Hround; [exact Hnow|discriminate|exact Hmax|].
      rewrite Hreplies. exact Hpost.
Qed.

End WaitLoop.

Lemma status_fetches_app (evs1 evs2 : list (Z * event)) :
  status_fetches (evs1 ++ evs2) = (status_fetches evs1 + status_fetches evs2)%nat.
Proof. unfold status_fetches. now rewrite List.filter_app, length_app. Qed.

Lemma create_node_calls_app (evs1 evs2 : list (Z * event)) :
  create_node_calls (evs1 ++ evs2)
  = (create_node_calls evs1 + create_node_calls evs2)%nat.
Proof. unfold create_node_calls. now rewrite List.filter_app, length_app. Qed.

(** A wait makes one status request per failed round, plus the one that
    saw the node ready, and no other call than these and the sleeps. *)
Lemma wait_trace_calls (cluster_id node_id : string) (ri : Z)
    (polls : list (Z * reply * Z)) (b : bool) (t : Z) :
  status_fetches (wait_trace cluster_id node_id ri polls b t)
  = (length polls + (if b then 1 else 0))%nat
  /\ create_node_calls (wait_trace cluster_id node_id ri polls b t) = O
  /\ forall node_name,
       Forall (rotation_event_ok node_name)
         (wait_trace cluster_id node_id ri polls b t).
Proof.
  induction polls as [|[[t0 r] t1] polls (IH1 & IH2 & IH3)].
  - unfold wait_trace. simpl. destruct b; simpl; repeat split;
      intros; repeat constructor.
  - rewrite wait_trace_cons. unfold failed_poll.
    rewrite status_fetches_app, create_node_calls_app, IH1, IH2.
    repeat split.
    intros node_name. apply Forall_app. split; [|apply IH3].
    repeat constructor.
Qed.



(** With a negative poll interval the wait does not survive its first
    poll that is not ready: the request error or the other phase is passed
    over, and the sleep that follows raises a [ValueError], outside the
    [try]. *)
Lemma wait_for_node_ready_negative_interval
    (cluster_id api_key node_id : string)
    (timeout_minutes retry_interval_seconds max_retries : Z) (w : World) :
  retry_interval_seconds < 0 ->
  0 < timeout_minutes ->
  0 < max_retries ->
  (forall latency rest,
     get_node_replies w <> (latency, ready_reply) :: rest) ->
  exists w' r,
    CastApiUtils.wait_for_node_ready cluster_id api_key node_id
      timeout_minutes retry_interval_seconds max_retries w
    = (Raise ValueError, w')
    /\ r <> ready_reply
    /\ trace w' = trace w ++ [(clock w, GetNodeStatus cluster_id node_id r)].
Proof.
  intros Hneg Ht Hm Hfirst.
  unfold CastApiUtils.wait_for_node_ready. unfold bind at 1, time_time at 1.
  cbn [CastApiUtils.wait_loop]. unfold bind at 1, time_time at 1.
  destruct (Z.ltb_spec (clock w) (clock w + timeout_minutes * 60))
    as [_|Hno]; [|lia].
  destruct (Z.geb_spec 0 max_retries) as [Hno|_]; [lia|].
  unfold bind at 1, try_except at 1, bind at 1,
    requests_get_node_phase at 1.
  destruct (get_node_replies w) as [|[l0 r0] tail] eqn:Hreplies.
  - cbn -[Z.add]. unfold bind at 1, time_sleep at 1.
    destruct (Z.ltb_spec retry_interval_seconds 0) as [_|Hno]; [|lia].
    eexists. exists None. split; [reflexivity|].
    split; [discriminate|reflexivity].
  - destruct r0 as [phase|].
    + cbn -[Z.add CastApiUtils.phase_is_ready].
      destruct (CastApiUtils.phase_is_ready phase) eqn:Hready.
      { exfalso. apply (Hfirst l0 tail). f_equal. f_equal.
        now apply reply_ready_iff. }
      unfold bind at 1, time_sleep at 1.
      destruct (Z.ltb_spec retry_interval_seconds 0) as [_|Hno]; [|lia].
      eexists. exists (Some phase). split; [reflexivity|].
      split; [|reflexivity].
      intros H. apply reply_ready_iff in H. congruence.
    + cbn -[Z.add]. unfold bind at 1, time_sleep at 1.
      destruct (Z.ltb_spec retry_interval_seconds 0) as [_|Hno]; [|lia].
      eexists. exists None. split; [reflexivity|].
      split; [discriminate|reflexivity].
Qed.


(** The script of [polling_world]: the request error and the pending phase
    are passed over, the third request sees ["ready"]. A phase that differs
    from ["ready"] in case only is not ready, and with a budget of two polls
    the same script ends in false after two requests. *)
Example wait_for_node_ready_runs :
  fst (CastApiUtils.wait_for_node_ready "c" "k" "new-1" 7 30 20
         Examples.polling_world) = Ok true
  /\ status_fetches
       (trace (snd (CastApiUtils.wait_for_node_ready "c" "k" "new-1" 7 30 20
                      Examples.polling_world))) = 3%nat
  /\ CastApiUtils.phase_is_ready (Some "Ready") = false
  /\ fst (CastApiUtils.wait_for_node_ready "c" "k" "new-1" 7 30 2
            Examples.polling_world) = Ok false
  /\ status_fetches
       (trace (snd (CastApiUtils.wait_for_node_ready "c" "k" "new-1" 7 30 2
                      Examples.polling_world))) = 2%nat
  /\ fst (CastApiUtils.wait_for_node_ready "c" "k" "new-1" 1 30 20
            Examples.polling_world) = Ok false.
Proof. repeat split; vm_compute; reflexivity. Qed.

(** ** The calls [rotate_node] makes *)

Lemma get_node_label_value_spec (node_name key : string) (w : World) :
  exists v w1,
    CastApiUtils.get_node_label_value node_name key w = (Ok v, w1)
    /\ trace w1 = trace w ++ [(clock w, ReadNode node_name)]
    /\ cluster w1 = cluster w
    /\ same_service w w1
    /\ api_faults w1 = tl (api_faults w)
    /\ (v = None \/ v = node_label w node_name key)
    /\ (hd false (api_faults w) = false -> v = node_label w node_name key).
Proof.
  cbv [CastApiUtils.get_node_label_value try_except bind read_node emit
       control_plane_call ret node_label same_service].
  cbn [api_faults with_trace with_api_faults cluster trace clock
       drain_executor node_templates_reply post_node_replies
       get_node_replies].
  destruct (api_faults w) as [|[|] fs] eqn:Hf;
    cbn [api_faults with_trace with_api_faults cluster trace clock
         drain_executor node_templates_reply post_node_replies
         get_node_replies hd tl];
    try (destruct (nodes (cluster w) !! node_name) as [node|];
         [destruct (metadata_labels node) as [labels|];
          [destruct (labels !! key)|]|]);
    eexists _, _; (split; [reflexivity|]);
    cbn [api_faults with_trace with_api_faults cluster trace clock
         drain_executor node_templates_reply post_node_replies
         get_node_replies];
    repeat split; auto; try (intros; discriminate).
Qed.

Lemma fetch_node_templates_spec (cluster_id api_key : string) (w : World) :
  exists w1,
    CastApiUtils.fetch_node_templates cluster_id api_key w
    = (Ok (world_templates w), w1)
    /\ trace w1 = trace w ++ [(clock w, GetNodeTemplates cluster_id)]
    /\ cluster w1 = cluster w
    /\ post_node_replies w1 = post_node_replies w.
Proof.
  unfold CastApiUtils.fetch_node_templates, try_except, bind,
    requests_get_node_templates, emit, world_templates. cbn.
  destruct (node_templates_reply w) as [body|]; cbn;
    eexists; (split; [reflexivity|]); cbn; auto.
Qed.

Lemma add_node_spec (cluster_id api_key instance_type configuration_id : string)
    (labels : option (gmap string string)) (taints : option (list Taint))
    (w : World) :
  exists v w1 r payload,
    CastApiUtils.add_node cluster_id api_key instance_type configuration_id
      labels taints w = (Ok v, w1)
    /\ trace w1 = trace w ++ [(clock w, PostNode cluster_id payload r)]
    /\ cluster w1 = cluster w
    /\ instanceType payload = instance_type
    /\ payload_configurationId payload = configuration_id
    /\ kubernetesLabels payload = labels
    /\ kubernetesTaints payload = taints
    /\ (forall id, v = Some id -> r = Some (Some id)).
Proof.
  unfold CastApiUtils.add_node, try_except, requests_post_node.
  destruct (post_node_replies w) as [|[node_id|] rest]; cbn;
    eexists _, _, _, _; (split; [reflexivity|]); cbn;
    repeat split; auto; try discriminate.
  intros id ->. reflexivity.
Qed.

Lemma wait_for_node_ready_frame (cluster_id api_key node_id : string)
    (timeout_minutes retry_interval_seconds max_retries : Z) (w : World) :
  0 <= retry_interval_seconds ->
  exists b w' polls t,
    CastApiUtils.wait_for_node_ready cluster_id api_key node_id
      timeout_minutes retry_interval_seconds max_retries w = (Ok b, w')
    /\ trace w' =
         trace w
         ++ wait_trace cluster_id node_id retry_interval_seconds polls b t
    /\ cluster w' = cluster w.
Proof.
  intros Hri. unfold CastApiUtils.wait_for_node_ready.
  unfold bind at 1, time_time at 1.
  destruct (wait_loop_spec cluster_id node_id
              (clock w + timeout_minutes * 60) retry_interval_seconds
              max_retries Hri (S (Z.to_nat max_retries)) 0 w)
    as (b & w' & polls & t & Hrun & Htr & Hcl & _).
  { rewrite Z.sub_0_r. lia. }
  exists b, w', polls, t. auto.
Qed.

Section RotateLoop.

Variables (cluster_id api_key : string).
Variables (instance_type node_configuration_id : option string).
Variable node_template_labels : option (gmap string string).
Variable node_template_tolerations : option (list Taint).

Local Abbreviation successful_attempt := (successful_attempt cluster_id).
Local Abbreviation rotate_attempt_post :=
  (rotate_attempt_post cluster_id instance_type node_configuration_id).

Lemma rotate_attempt_spec (w : World) :
  exists o w1 evs,
    CastApiUtils.rotate_attempt cluster_id api_key instance_type
      node_configuration_id node_template_labels node_template_tolerations w
    = (Ok o, w1)
    /\ rotate_attempt_post w o w1 evs.
Proof.
  assert (Hskip : provisioning_guard instance_type node_configuration_id
                  = false ->
          exists o w1 evs,
            (Ok (@None string), w) = (Ok o, w1)
            /\ rotate_attempt_post w o w1 evs).
  { intros Hg. exists None, w, []. unfold rotate_attempt_post.
    rewrite app_nil_r, Hg. repeat split; auto; discriminate. }
  unfold CastApiUtils.rotate_attempt, rotate_attempt_post in *.
  destruct instance_type as [it|]; [|apply Hskip; reflexivity].
  destruct node_configuration_id as [cfg|];
    [|apply Hskip; unfold provisioning_guard; apply andb_false_r].
  destruct (str_truthy (Some it)) eqn:Hit;
    [|apply Hskip; unfold provisioning_guard; now rewrite Hit].
  clear Hskip.
  assert (Hguard : provisioning_guard (Some it) (Some cfg) = true)
    by (unfold provisioning_guard; now rewrite Hit).
  rewrite Hguard.
  destruct (add_node_spec cluster_id api_key it cfg node_template_labels
              node_template_tolerations w)
    as (v & w1 & r & payload & Hadd & Htr1 & Hcl1 & _ & _ & _ & _ & Hv).
  rewrite (bind_ok _ _ _ _ _ Hadd).
  assert (Hone : forall o,
            o = None ->
            exists o' w' evs,
              (Ok o, w1) = (Ok o', w')
              /\ trace w' = trace w ++ evs
              /\ cluster w' = cluster w
              /\ (forall node_name, Forall (rotation_event_ok node_name) evs)
              /\ create_node_calls evs = 1%nat
              /\ (true = false -> o' = None /\ evs = [])
              /\ (forall id, o' = Some id -> successful_attempt id evs)).
  { intros o ->.
    exists None, w1, [(clock w, PostNode cluster_id payload r)].
    repeat split; auto; try discriminate. repeat constructor. }
  destruct v as [id|]; [|now apply Hone].
  destruct (str_truthy (Some id)); [|now apply Hone].
  clear Hone. specialize (Hv id eq_refl). subst r.
  destruct (wait_for_node_ready_frame cluster_id api_key id 7 30 20 w1)
    as (b & w2 & polls & t & Hwait & Htr2 & Hcl2); [lia|].
  rewrite (bind_ok _ _ _ _ _ Hwait).
  destruct (wait_trace_calls cluster_id id 30 polls b t) as (_ & Hc & Hok).
  exists (if b then Some id else None), w2,
    ((clock w, PostNode cluster_id payload (Some (Some id)))
     :: wait_trace cluster_id id 30 polls b t).
  split; [now destruct b|].
  split; [rewrite Htr2, Htr1, <- app_assoc; reflexivity|].
  split; [congruence|].
  split; [intros node_name; constructor; [exact I|apply Hok]|].
  split; [|split; [discriminate|]].
  - change (create_node_calls
              ([(clock w, PostNode cluster_id payload (Some (Some id)))]
               ++ wait_trace cluster_id id 30 polls b t) = 1%nat).
    rewrite create_node_calls_app, Hc. reflexivity.
  - intros id' Hid. destruct b; [|discriminate]. injection Hid as <-.
    unfold successful_attempt. eauto.
Qed.

Variable max_retries : Z.

Local Abbreviation rotate_loop_post :=
  (rotate_loop_post cluster_id instance_type node_configuration_id
     max_retries).

Lemma rotate_loop_spec (fuel : nat) :
  forall (retry_count : Z) (w : World),
    (Z.to_nat (max_retries - retry_count) < fuel)%nat ->
    exists o w' evs,
      CastApiUtils.rotate_loop fuel cluster_id api_key instance_type
        node_configuration_id node_template_labels node_template_tolerations
        max_retries retry_count w = (Ok o, w')
      /\ rotate_loop_post retry_count w o w' evs.
Proof.
  induction fuel as [|fuel IH]; intros retry_count w Hfuel; [lia|].
  cbn [CastApiUtils.rotate_loop].
  destruct (Z.ltb_spec retry_count max_retries) as [Hlt|Hge].
  2:{ exists None, w, []. split; [reflexivity|].
      unfold rotate_loop_post. rewrite app_nil_r.
      replace (Z.to_nat (max_retries - retry_count)) with O by lia.
      repeat split; auto; try discriminate.
      now destruct (provisioning_guard _ _). }
  destruct (rotate_attempt_spec w)
    as (o1 & w1 & evs1 & Hrun1 & Htr1 & Hcl1 & Hok1 & Hcalls1 & Hoff1 & Hsucc1).
  rewrite (bind_ok _ _ _ _ _ Hrun1).
  destruct o1 as [id|].
  - (* the attempt returned the node id: the loop is over *)
    exists (Some id), w1, evs1. split; [reflexivity|].
    unfold rotate_loop_post.
    refine (conj Htr1 (conj Hcl1 (conj Hok1 (conj _ (conj _ (conj _ _)))))).
    + rewrite Hcalls1. destruct (provisioning_guard _ _); lia.
    + discriminate.
    + intros Hg. destruct (Hoff1 Hg) as [Hno _]. discriminate.
    + intros id' Hid. injection Hid as <-.
      exists [], evs1. split; [reflexivity|]. now apply Hsucc1.
  - destruct (IH (retry_count + 1) w1 ltac:(lia))
      as (o & w' & evs & Hrun & Htr & Hcl & Hok & Hle & Hnone & Hoff & Hsome).
    exists o, w', (evs1 ++ evs). split; [exact Hrun|].
    unfold rotate_loop_post.
    refine (conj _ (conj _ (conj _ (conj _ (conj _ (conj _ _)))))).
    + rewrite Htr, Htr1. now rewrite <- app_assoc.
    + congruence.
    + intros node_name. apply Forall_app. split; [apply Hok1|apply Hok].
    + rewrite create_node_calls_app, Hcalls1.
      destruct (provisioning_guard _ _); lia.
    + intros Ho. rewrite create_node_calls_app, Hcalls1, (Hnone Ho).
      destruct (provisioning_guard _ _); lia.
    + intros Hg. destruct (Hoff1 Hg) as [_ ->]. destruct (Hoff Hg) as [-> ->].
      split; reflexivity.
    + intros id Hid. destruct (Hsome id Hid) as (before & last & -> & Hlast).
      exists (evs1 ++ before), last. split; [now rewrite app_assoc|exact Hlast].
Qed.

End RotateLoop.

(** ** The rotation as a whole *)

Lemma accepts_next_S (k : nat) (w w1 : World) :
  accepts_next (S k) w ->
  api_faults w1 = tl (api_faults w) ->
  hd false (api_faults w) = false /\ accepts_next k w1.
Proof.
  unfold accepts_next. intros H ->.
  destruct (api_faults w) as [|b fs]; simpl in *.
  - split; [reflexivity|]. destruct k; constructor.
  - apply Forall_cons in H as [-> H]. auto.
Qed.

Lemma world_templates_same (w w' : World) :
  same_service w w' -> world_templates w' = world_templates w.
Proof. intros (_ & _ & H & _). unfold world_templates. now rewrite H. Qed.

Lemma node_label_same (w w' : World) (node_name key : string) :
  cluster w' = cluster w ->
  node_label w' node_name key = node_label w node_name key.
Proof. intros H. unfold node_label. now rewrite H. Qed.

(** [rotate_node] reads three labels and the catalog, then runs the retry
    loop on what it resolved: [sched] and [it] are the template name and the
    instance type it read. *)
Lemma rotate_node_spec (node_name cluster_id api_key : string) (w : World) :
  exists sched it o w' evs,
    CastApiUtils.rotate_node node_name cluster_id api_key w = (Ok o, w')
    /\ trace w' = trace w ++ rotation_reads w node_name cluster_id ++ evs
    /\ cluster w' = cluster w
    /\ (sched = None
        \/ sched = node_label w node_name "scheduling.cast.ai/node-template")
    /\ (accepts_next 3 w ->
        sched = node_label w node_name "scheduling.cast.ai/node-template"
        /\ it = node_label w node_name "node.kubernetes.io/instance-type")
    /\ (forall n, Forall (rotation_event_ok n) evs)
    /\ (create_node_calls evs <= 3)%nat
    /\ (o = None ->
        create_node_calls evs
        = if provisioning_guard it
               (fst (fst (CastApiUtils.resolve_template sched
                            (world_templates w))))
          then 3%nat else O)
    /\ (provisioning_guard it
          (fst (fst (CastApiUtils.resolve_template sched (world_templates w))))
        = false -> o = None /\ evs = [])
    /\ (forall id, o = Some id ->
        exists before last,
          evs = before ++ last /\ successful_attempt cluster_id id last).
Proof.
  unfold CastApiUtils.rotate_node.
  destruct (get_node_label_value_spec node_name "provisioner.cast.ai/node-id" w)
    as (v1 & w1 & Hrun1 & Htr1 & Hcl1 & Hsame1 & Hf1 & _ & _).
  rewrite (bind_ok _ _ _ _ _ Hrun1).
  destruct (get_node_label_value_spec node_name
              "scheduling.cast.ai/node-template" w1)
    as (sched & w2 & Hrun2 & Htr2 & Hcl2 & Hsame2 & Hf2 & Hs & Hs').
  rewrite (bind_ok _ _ _ _ _ Hrun2).
  destruct (get_node_label_value_spec node_name
              "node.kubernetes.io/instance-type" w2)
    as (it & w3 & Hrun3 & Htr3 & Hcl3 & Hsame3 & Hf3 & Hi & Hi').
  rewrite (bind_ok _ _ _ _ _ Hrun3).
  destruct (fetch_node_templates_spec cluster_id api_key w3)
    as (w4 & Hrun4 & Htr4 & Hcl4 & _).
  rewrite (bind_ok _ _ _ _ _ Hrun4).
  assert (Hc1 : clock w1 = clock w) by apply Hsame1.
  assert (Hc2 : clock w2 = clock w) by (destruct Hsame2 as [-> _]; exact Hc1).
  assert (Hc3 : clock w3 = clock w) by (destruct Hsame3 as [-> _]; exact Hc2).
  assert (Htpl : world_templates w3 = world_templates w).
  { rewrite (world_templates_same _ _ Hsame3), (world_templates_same _ _ Hsame2).
    now apply world_templates_same. }
  rewrite Htpl.
  destruct (CastApiUtils.resolve_template sched (world_templates w))
    as [[cfg tol] labels] eqn:Hres.
  destruct (rotate_loop_spec cluster_id api_key it cfg labels tol 3
              (S (Z.to_nat 3)) 0 w4 ltac:(lia))
    as (o & w' & evs & Hrun & Htr & Hcl & Hok & Hle & Hnone & Hoff & Hsome).
  exists sched, it, o, w', evs.
  assert (Htr' : trace w4 = trace w ++ rotation_reads w node_name cluster_id).
  { rewrite Htr4, Htr3, Htr2, Htr1, Hc1, Hc2, Hc3. unfold rotation_reads.
    now rewrite <- !app_assoc. }
  split; [exact Hrun|].
  split; [rewrite Htr, Htr'; now rewrite <- app_assoc|].
  split; [congruence|].
  split.
  { destruct Hs as [-> | ->]; [now left|right].
    now apply node_label_same. }
  split.
  { intros Hacc.
    destruct (accepts_next_S _ _ _ Hacc Hf1) as [_ Hacc1].
    destruct (accepts_next_S _ _ _ Hacc1 Hf2) as [Hh2 Hacc2].
    destruct (accepts_next_S _ _ _ Hacc2 Hf3) as [Hh3 _].
    rewrite (Hs' Hh2), (Hi' Hh3). split.
    - now apply node_label_same.
    - rewrite (node_label_same w1 w2), (node_label_same w w1); auto. }
  rewrite Hres. cbn [fst].
  change (Z.to_nat 3) with 3%nat in Hle, Hnone. auto 10.
Qed.

Lemma find_in_items_absent (l : list TemplateItem) (template_name : string) :
  (forall item, In item l ->
     CastApiUtils.item_has_name template_name item = false) ->
  CastApiUtils.find_in_items l template_name = empty_template.
Proof.
  induction l as [|item l IH]; intros H; simpl; [reflexivity|].
  rewrite (H item (or_introl eq_refl)). apply IH.
  intros i Hi. apply H. now right.
Qed.

Lemma rotation_event_ok_no_mutation (node_name : string) (te : Z * event) :
  rotation_event_ok node_name te -> is_mutation te = false.
Proof.
  destruct te as [t []]; unfold rotation_event_ok, is_mutation; simpl;
    intros H; (reflexivity || contradiction).
Qed.

Lemma rotation_reads_ok (w : World) (node_name cluster_id : string) :
  Forall (rotation_event_ok node_name) (rotation_reads w node_name cluster_id)
  /\ create_node_calls (rotation_reads w node_name cluster_id) = O.
Proof.
  split; [|reflexivity].
  unfold rotation_reads. repeat constructor.
Qed.

(** C1, the claim as stated, fails: the node asks for template [gpu], the
    catalog only has [default]; the resolver returns the empty dict, and the
    rotation then makes no create-node call at all (the trace has the three
    label reads and the catalog request, nothing else) and returns [None]. *)
Lemma unknown_template_makes_no_attempt :
  node_label Examples.unknown_template_world "n1"
    "scheduling.cast.ai/node-template" = Some "gpu"
  /\ node_label Examples.unknown_template_world "n1"
       "node.kubernetes.io/instance-type" = Some "m5.large"
  /\ CastApiUtils.find_node_template_details
       (world_templates Examples.unknown_template_world) "gpu" = empty_template
  /\ fst (CastApiUtils.rotate_node "n1" "c" "k" Examples.unknown_template_world)
     = Ok None
  /\ trace (snd (CastApiUtils.rotate_node "n1" "c" "k"
                   Examples.unknown_template_world))
     = [(1000, ReadNode "n1"); (1000, ReadNode "n1"); (1000, ReadNode "n1");
        (1000, GetNodeTemplates "c")]
  /\ create_node_calls
       (trace (snd (CastApiUtils.rotate_node "n1" "c" "k"
                      Examples.unknown_template_world))) = O.
Proof. repeat split; vm_compute; reflexivity. Qed.

(** C1, amended: when the catalog has no template of the name the node's
    template label gives, the resolver returns the empty dict, and the
    rotation issues no provisioning attempt: the configuration id stays
    unset, every pass of the retry loop skips the create-node call, and
    [rotate_node] returns [None] having only read the node's labels and the
    catalog. *)
Theorem unknown_template_rotation_makes_no_attempt
    (node_name cluster_id api_key : string) (w : World) :
  (forall tname,
     node_label w node_name "scheduling.cast.ai/node-template" = Some tname ->
     forall item, In item (default [] (items (world_templates w))) ->
                  CastApiUtils.item_has_name tname item = false) ->
  (forall tname,
     node_label w node_name "scheduling.cast.ai/node-template" = Some tname ->
     CastApiUtils.find_node_template_details (world_templates w) tname
     = empty_template
     /\ template_truthy
          (CastApiUtils.find_node_template_details (world_templates w) tname)
        = false)
  /\ exists w',
       CastApiUtils.rotate_node node_name cluster_id api_key w = (Ok None, w')
       /\ trace w' = trace w ++ rotation_reads w node_name cluster_id
       /\ create_node_calls (rotation_reads w node_name cluster_id) = O
       /\ cluster w' = cluster w.
Proof.
  intros Hcat.
  assert (Hfind : forall tname,
            node_label w node_name "scheduling.cast.ai/node-template"
            = Some tname ->
            CastApiUtils.find_node_template_details (world_templates w) tname
            = empty_template).
  { intros tname Hl. unfold CastApiUtils.find_node_template_details.
    apply find_in_items_absent. now apply Hcat. }
  split.
  { intros tname Hl. rewrite (Hfind tname Hl). split; reflexivity. }
  destruct (rotate_node_spec node_name cluster_id api_key w)
    as (sched & it & o & w' & evs & Hrun & Htr & Hcl & Hs & _ & _ & _ & _
        & Hoff & _).
  assert (Hcfg : fst (fst (CastApiUtils.resolve_template sched
                             (world_templates w))) = None).
  { unfold CastApiUtils.resolve_template.
    destruct sched as [tname|]; [|reflexivity].
    destruct Hs as [Hs|Hs]; [discriminate|].
    destruct (str_truthy (Some tname)); [|reflexivity].
    rewrite (Hfind tname (eq_sym Hs)). reflexivity. }
  rewrite Hcfg in Hoff.
  destruct Hoff as [-> ->];
    [unfold provisioning_guard; apply andb_false_r|].
  rewrite app_nil_r in Htr. exists w'.
  split; [exact Hrun|]. split; [exact Htr|]. split; [reflexivity|exact Hcl].
Qed.

Lemma unknown_template_rotation_makes_no_attempt_witness :
  exists w',
    CastApiUtils.rotate_node "n1" "c" "k" Examples.unknown_template_world
    = (Ok None, w')
    /\ trace w' =
         trace Examples.unknown_template_world
         ++ rotation_reads Examples.unknown_template_world "n1" "c"
    /\ create_node_calls
         (rotation_reads Examples.unknown_template_world "n1" "c") = O
    /\ cluster w' = cluster Examples.unknown_template_world.
Proof.
  apply (unknown_template_rotation_makes_no_attempt "n1" "c" "k"
           Examples.unknown_template_world).
  intros tname Hl item Hin.
  vm_compute in Hl. injection Hl as <-.
  destruct Hin as [<-|[]]. vm_compute. reflexivity.
Defined.

(** C3, the claim as stated, fails: the template resolves and the service
    would accept a request, but the node has no instance-type label; the
    guard of the provisioning call never holds, and the rotation reports
    exhaustion after no create-node call, not three. *)
Lemma missing_instance_type_makes_no_attempt :
  resolved_configuration_id Examples.no_instance_type_world "n1" = Some "c1"
  /\ node_label Examples.no_instance_type_world "n1"
       "node.kubernetes.io/instance-type" = None
  /\ fst (CastApiUtils.rotate_node "n1" "c" "k" Examples.no_instance_type_world)
     = Ok None
  /\ create_node_calls
       (trace (snd (CastApiUtils.rotate_node "n1" "c" "k"
                      Examples.no_instance_type_world))) = O.
Proof. repeat split; vm_compute; reflexivity. Qed.

(** C3, amended: a rotation never makes more than 3 create-node calls. A
    rotation that reports exhaustion made exactly 3 of them when the guard
    of the provisioning call holds (a non-empty instance type and a resolved
    configuration id) and none when it does not. A rotation that returns a
    node id stopped right there: its trace ends with the create-node call
    that returned that id and the wait that saw it ready. The model's
    iteration bound is never reached and nothing is raised. *)
Theorem rotation_attempts_bounded (node_name cluster_id api_key : string)
    (w : World) :
  exists o w' evs,
    CastApiUtils.rotate_node node_name cluster_id api_key w = (Ok o, w')
    /\ trace w' = trace w ++ evs
    /\ (create_node_calls evs <= 3)%nat
    /\ (o = None -> create_node_calls evs = 3%nat \/ create_node_calls evs = O)
    /\ (accepts_next 3 w -> o = None ->
        create_node_calls evs
        = if provisioning_guard
               (node_label w node_name "node.kubernetes.io/instance-type")
               (resolved_configuration_id w node_name)
          then 3%nat else O)
    /\ (forall id, o = Some id ->
        exists before last,
          evs = before ++ last /\ successful_attempt cluster_id id last).
Proof.
  destruct (rotate_node_spec node_name cluster_id api_key w)
    as (sched & it & o & w' & evs & Hrun & Htr & _ & _ & Hacc & _ & Hle
        & Hnone & _ & Hsome).
  destruct (rotation_reads_ok w node_name cluster_id) as [_ Hreads].
  exists o, w', (rotation_reads w node_name cluster_id ++ evs).
  rewrite create_node_calls_app, Hreads. cbn [Nat.add].
  split; [exact Hrun|]. split; [exact Htr|]. split; [exact Hle|].
  split; [|split].
  - intros Ho. rewrite (Hnone Ho).
    destruct (provisioning_guard _ _); [now left|now right].
  - intros Ha Ho. destruct (Hacc Ha) as [-> ->]. exact (Hnone Ho).
  - intros id Hid. destruct (Hsome id Hid) as (before & last & -> & Hlast).
    exists (rotation_reads w node_name cluster_id ++ before), last.
    split; [now rewrite app_assoc|exact Hlast].
Qed.

(** Three refused requests: exhaustion after exactly three create-node
    calls. One refusal, then a node that becomes ready: two calls, and the
    second node id is returned although a third reply was available. *)
Example rotation_attempts_run :
  fst (CastApiUtils.rotate_node "n1" "c" "k" Examples.failing_service_world)
  = Ok None
  /\ create_node_calls
       (trace (snd (CastApiUtils.rotate_node "n1" "c" "k"
                      Examples.failing_service_world))) = 3%nat
  /\ fst (CastApiUtils.rotate_node "n1" "c" "k"
            Examples.recovering_service_world) = Ok (Some "new-9")
  /\ create_node_calls
       (trace (snd (CastApiUtils.rotate_node "n1" "c" "k"
                      Examples.recovering_service_world))) = 2%nat
  /\ last (trace (snd (CastApiUtils.rotate_node "n1" "c" "k"
                         Examples.recovering_service_world)))
     = Some (1031, GetNodeStatus "c" "new-9" (Some (Some "ready"))).
Proof. repeat split; vm_compute; reflexivity. Qed.

(** C4: a rotation that ends in exhaustion leaves the cluster state as it
    was and sends the control plane nothing but reads of the node: no patch
    (cordon, uncordon, label) and no drain is ever issued. *)
Theorem exhausted_rotation_leaves_node_untouched
    (node_name cluster_id api_key : string) (w w' : World) :
  CastApiUtils.rotate_node node_name cluster_id api_key w = (Ok None, w') ->
  cluster w' = cluster w
  /\ exists evs,
       trace w' = trace w ++ evs
       /\ Forall (rotation_event_ok node_name) evs
       /\ Forall (fun te => is_mutation te = false) evs.
Proof.
  intros Hnone.
  destruct (rotate_node_spec node_name cluster_id api_key w)
    as (sched & it & o & w1 & evs & Hrun & Htr & Hcl & _ & _ & Hok & _).
  rewrite Hnone in Hrun. injection Hrun as <- <-.
  split; [exact Hcl|].
  exists (rotation_reads w node_name cluster_id ++ evs).
  split; [exact Htr|].
  assert (Hall : Forall (rotation_event_ok node_name)
                   (rotation_reads w node_name cluster_id ++ evs)).
  { apply Forall_app. split; [apply rotation_reads_ok|apply Hok]. }
  split; [exact Hall|].
  eapply Forall_impl; [exact Hall|].
  intros te. apply rotation_event_ok_no_mutation.
Qed.

Lemma exhausted_rotation_leaves_node_untouched_witness :
  cluster (snd (CastApiUtils.rotate_node "n1" "c" "k"
                  Examples.failing_service_world))
  = cluster Examples.failing_service_world
  /\ exists evs,
       trace (snd (CastApiUtils.rotate_node "n1" "c" "k"
                     Examples.failing_service_world))
       = trace Examples.failing_service_world ++ evs
       /\ Forall (rotation_event_ok "n1") evs
       /\ Forall (fun te => is_mutation te = false) evs.
Proof.
  apply (exhausted_rotation_leaves_node_untouched "n1" "c" "k"
           Examples.failing_service_world).
  vm_compute. reflexivity.
Defined.

(** ** Draining with a timeout *)

(** The three patch helpers are one pattern: issue the patch, swallow an
    [ApiException]. Whatever the control plane answers the helper returns
    normally; the node changes only when the patch is accepted. *)
Lemma best_effort_patch (node_name : string) (body : patch_body) (w : World) :
  exists w1,
    try_except (patch_node node_name body)
      (fun e => match e with
                | ApiException => Some (ret tt)
                | _ => None
                end) w = (Ok tt, w1)
    /\ trace w1 = trace w ++ [(clock w, PatchNode node_name body)]
    /\ clock w1 = clock w
    /\ pods (cluster w1) = pods (cluster w)
    /\ api_faults w1 = tl (api_faults w)
    /\ (forall node,
          hd false (api_faults w) = false ->
          nodes (cluster w) !! node_name = Some node ->
          nodes (cluster w1)
          = <[node_name := apply_patch body node]> (nodes (cluster w)))
    /\ (hd false (api_faults w) = true -> cluster w1 = cluster w).
Proof.
  cbv [try_except patch_node bind emit control_plane_call ret].
  cbn [api_faults with_trace with_api_faults with_cluster cluster trace clock].
  destruct (api_faults w) as [|[|] fs] eqn:Hf;
    cbn [api_faults with_trace with_api_faults with_cluster cluster trace
         clock hd tl];
    try (destruct (nodes (cluster w) !! node_name) as [node|] eqn:Hn);
    eexists; (split; [reflexivity|]);
    cbn [api_faults with_trace with_api_faults with_cluster cluster trace
         clock nodes pods];
    rewrite ?Hf; repeat split; auto;
    try (intros; discriminate); try (intros; congruence).
Qed.

(** C2, the claim as stated, fails: the drain executor cordons the node and
    times out, and the control plane then refuses both patches. The two
    [ApiException]s are swallowed, the pod list is returned as on any
    timeout, and the node stays cordoned and without the failure label. *)
Lemma refused_patches_leave_node_cordoned :
  fst (NodeUtils.drain_node_with_timeout "n1" 60
         (Examples.stuck_drain_world [true; true]))
  = Ok (Some [Examples.db_pod])
  /\ map snd (trace (snd (NodeUtils.drain_node_with_timeout "n1" 60
                            (Examples.stuck_drain_world [true; true]))))
     = [KubectlDrain "n1" 60; ListPods "n1";
        PatchNode "n1" (PatchLabel "drain-status" "failed");
        PatchNode "n1" (PatchUnschedulable false)]
  /\ spec_unschedulable
       <$> nodes (cluster (snd (NodeUtils.drain_node_with_timeout "n1" 60
                                  (Examples.stuck_drain_world [true; true]))))
           !! "n1"
     = Some true
  /\ node_label (snd (NodeUtils.drain_node_with_timeout "n1" 60
                        (Examples.stuck_drain_world [true; true])))
       "n1" "drain-status" = None.
Proof. repeat split; vm_compute; reflexivity. Qed.

(** C2, amended: [drain_node_with_timeout] first runs the drain executor.
    - If the executor succeeds, it returns [None] (no pod list) and calls
      nothing else.
    - If the executor times out, it lists the pods still scheduled on the
      node, issues the patch that sets the label [drain-status=failed] and
      then the patch that sets [unschedulable] to false, and returns that pod
      list. Both patches are best effort: when the control plane accepts
      them, the node ends up uncordoned and labelled; an [ApiException] on a
      patch is swallowed.
    - If the executor fails in any other way, the error is raised to the
      caller and nothing else is called. *)
Theorem drain_node_with_timeout_contract (node_name : string) (timeout : Z)
    (w : World) (outcome : option exn) (c : Cluster) :
  drain_executor w node_name timeout (cluster w) = (outcome, c) ->
  exists w',
    match outcome with
    | None =>
        NodeUtils.drain_node_with_timeout node_name timeout w = (Ok None, w')
        /\ trace w' = trace w ++ [(clock w, KubectlDrain node_name timeout)]
        /\ cluster w' = c
    | Some TimeoutExpired =>
        NodeUtils.drain_node_with_timeout node_name timeout w
        = (Ok (Some (NodeUtils.list_pod_on_node (pods c) node_name)), w')
        /\ trace w' =
             trace w
             ++ [(clock w, KubectlDrain node_name timeout);
                 (clock w, ListPods node_name);
                 (clock w,
                  PatchNode node_name (PatchLabel "drain-status" "failed"));
                 (clock w, PatchNode node_name (PatchUnschedulable false))]
        /\ pods (cluster w') = pods c
        /\ (forall node,
              accepts_next 2 w ->
              nodes c !! node_name = Some node ->
              exists node',
                nodes (cluster w') !! node_name = Some node'
                /\ spec_unschedulable node' = false
                /\ node_label w' node_name "drain-status" = Some "failed")
    | Some e =>
        NodeUtils.drain_node_with_timeout node_name timeout w = (Raise e, w')
        /\ trace w' = trace w ++ [(clock w, KubectlDrain node_name timeout)]
        /\ cluster w' = c
    end.
Proof.
  intros Hexec.
  set (w0 := with_cluster c
               (with_trace
                  (trace w ++ [(clock w, KubectlDrain node_name timeout)]) w)).
  assert (Hrun : forall A (k : unit -> M A),
            bind (subprocess_run_kubectl_drain node_name timeout) k w
            = match outcome with
              | None => k tt w0
              | Some e => (Raise e, w0)
              end).
  { intros A k.
    cbv [bind subprocess_run_kubectl_drain emit].
    cbn [drain_executor cluster with_trace]. rewrite Hexec.
    now destruct outcome. }
  destruct outcome as [e|]; [destruct e|];
    unfold NodeUtils.drain_node_with_timeout, try_except at 1;
    rewrite Hrun;
    try (exists w0; repeat split; reflexivity).
  (* the timeout *)
  unfold bind at 1, NodeUtils.dump_pods_on_node at 1, bind at 1, emit at 1.
  cbn [cluster with_trace pods].
  set (w1 := with_trace (trace w0 ++ [(clock w0, ListPods node_name)]) w0).
  destruct (best_effort_patch node_name (PatchLabel "drain-status" "failed") w1)
    as (w2 & Hrun2 & Htr2 & Hclk2 & Hpods2 & Hf2 & Hok2 & _).
  destruct (best_effort_patch node_name (PatchUnschedulable false) w2)
    as (w3 & Hrun3 & Htr3 & Hclk3 & Hpods3 & Hf3 & Hok3 & _).
  unfold NodeUtils.label_node, NodeUtils.uncordon_node.
  rewrite (bind_ok _ _ _ _ _ Hrun2), (bind_ok _ _ _ _ _ Hrun3).
  exists w3. split; [reflexivity|]. split; [|split].
  - rewrite Htr3, Htr2, Hclk2. subst w1 w0. cbn [trace clock with_trace
      with_cluster]. now rewrite <- !app_assoc.
  - rewrite Hpods3, Hpods2. reflexivity.
  - intros node Hacc Hnode.
    assert (Hacc1 : accepts_next 2 w1) by exact Hacc.
    destruct (accepts_next_S _ _ _ Hacc1 Hf2) as [Hh1 Hacc2].
    destruct (accepts_next_S _ _ _ Hacc2 Hf3) as [Hh2 _].
    assert (Hn1 : nodes (cluster w1) !! node_name = Some node) by exact Hnode.
    pose proof (Hok2 node Hh1 Hn1) as Hnodes2.
    assert (Hn2 : nodes (cluster w2) !! node_name
                  = Some (apply_patch (PatchLabel "drain-status" "failed") node)).
    { rewrite Hnodes2. apply lookup_insert_eq. }
    pose proof (Hok3 _ Hh2 Hn2) as Hnodes3.
    eexists. split; [rewrite Hnodes3; apply lookup_insert_eq|].
    split; [reflexivity|].
    unfold node_label. rewrite Hnodes3, lookup_insert_eq.
    cbn [apply_patch metadata_labels]. apply lookup_insert_eq.
Qed.

Lemma drain_node_with_timeout_contract_witness :
  exists w',
    NodeUtils.drain_node_with_timeout "n1" 60 (Examples.stuck_drain_world [])
    = (Ok (Some (NodeUtils.list_pod_on_node
                   (pods (snd (Examples.cordon_then_time_out "n1" 60
                                 (cluster (Examples.stuck_drain_world [])))))
                   "n1")), w')
    /\ trace w' =
         trace (Examples.stuck_drain_world [])
         ++ [(clock (Examples.stuck_drain_world []), KubectlDrain "n1" 60);
             (clock (Examples.stuck_drain_world []), ListPods "n1");
             (clock (Examples.stuck_drain_world []),
              PatchNode "n1" (PatchLabel "drain-status" "failed"));
             (clock (Examples.stuck_drain_world []),
              PatchNode "n1" (PatchUnschedulable false))]
    /\ pods (cluster w')
       = pods (snd (Examples.cordon_then_time_out "n1" 60
                      (cluster (Examples.stuck_drain_world []))))
    /\ (forall node,
          accepts_next 2 (Examples.stuck_drain_world []) ->
          nodes (snd (Examples.cordon_then_time_out "n1" 60
                        (cluster (Examples.stuck_drain_world []))))
            !! "n1" = Some node ->
          exists node',
            nodes (cluster w') !! "n1" = Some node'
            /\ spec_unschedulable node' = false
            /\ node_label w' "n1" "drain-status" = Some "failed").
Proof.
  apply (drain_node_with_timeout_contract "n1" 60
           (Examples.stuck_drain_world []) (Some TimeoutExpired)
           (snd (Examples.cordon_then_time_out "n1" 60
                   (cluster (Examples.stuck_drain_world []))))).
  reflexivity.
Defined.

(** The three outcomes on concrete worlds: the drain that times out with an
    obliging control plane ends with the node uncordoned and labelled; a
    drain that succeeds returns [None]; a drain that fails otherwise raises. *)
Example drain_node_with_timeout_runs :
  fst (NodeUtils.drain_node_with_timeout "n1" 60 (Examples.stuck_drain_world []))
  = Ok (Some [Examples.db_pod])
  /\ spec_unschedulable
       <$> nodes (cluster (snd (NodeUtils.drain_node_with_timeout "n1" 60
                                  (Examples.stuck_drain_world []))))
           !! "n1"
     = Some false
  /\ node_label (snd (NodeUtils.drain_node_with_timeout "n1" 60
                        (Examples.stuck_drain_world [])))
       "n1" "drain-status" = Some "failed"
  /\ fst (NodeUtils.drain_node_with_timeout "n1" 60
            Examples.unknown_template_world) = Ok None
  /\ fst (NodeUtils.drain_node_with_timeout "n1" 60
            (with_cluster (cluster Examples.unknown_template_world)
               {| cluster := cluster Examples.unknown_template_world;
                  clock := 0; trace := []; api_faults := [];
                  drain_executor := fun _ _ c => (Some CalledProcessError, c);
                  node_templates_reply := None;
                  post_node_replies := [];
                  get_node_replies := [] |}))
     = Raise CalledProcessError.
Proof. repeat split; vm_compute; reflexivity. Qed.

(** * Further properties of the code *)

(** ** Removing the cron-job node *)

Lemma list_remove_split (n : string) (l : list string) :
  In n l ->
  exists before after,
    l = before ++ n :: after
    /\ ~ In n before
    /\ NodeUtils.list_remove n l = before ++ after.
Proof.
  induction l as [|y l IH]; intros Hin; [contradiction|]. simpl.
  destruct (String.eqb_spec y n) as [->|Hne].
  - exists [], l. repeat split; auto.
  - destruct Hin as [Heq|Hin]; [contradiction|].
    destruct (IH Hin) as (before & after & -> & Hnb & Hr).
    exists (y :: before), after. split; [reflexivity|]. split.
    + intros [H|H]; [contradiction|now apply Hnb].
    + simpl. now rewrite Hr.
Qed.

Lemma remove_from_one_list (n : string) (l : list string) :
  cron_job_node_removed n l
    (if NodeUtils.name_in l n then NodeUtils.list_remove n l else l).
Proof.
  destruct (NodeUtils.name_in l n) eqn:Hin.
  - right. apply name_in_In in Hin.
    destruct (list_remove_split n l Hin) as (before & after & H).
    exists before, after. exact H.
  - left. split; [|reflexivity]. rewrite <- name_in_In, Hin. discriminate.
Qed.

(** The name given is missing or empty, or is in neither list: both lists
    come back as they were. *)
Theorem remove_cron_job_node_unchanged (cron_job_node_name : option string)
    (critical_nodes non_critical_nodes : list string) :
  (cron_job_node_name = None \/ cron_job_node_name = Some ""
   \/ exists n, cron_job_node_name = Some n
                /\ ~ In n critical_nodes /\ ~ In n non_critical_nodes) ->
  NodeUtils.remove_cron_job_node cron_job_node_name critical_nodes
    non_critical_nodes = (critical_nodes, non_critical_nodes).
Proof.
  unfold NodeUtils.remove_cron_job_node.
  intros [->|[->|(n & -> & Hc & Hn)]]; [reflexivity|reflexivity|].
  destruct (str_truthy (Some n)); [|reflexivity].
  rewrite <- name_in_In in Hc, Hn.
  destruct (NodeUtils.name_in critical_nodes n); [now destruct Hc|].
  destruct (NodeUtils.name_in non_critical_nodes n); [now destruct Hn|].
  reflexivity.
Qed.

Lemma remove_cron_job_node_unchanged_witness :
  NodeUtils.remove_cron_job_node (Some "") ["a"; ""; "b"] [""]
  = (["a"; ""; "b"], [""]).
Proof.
  apply (remove_cron_job_node_unchanged (Some "") ["a"; ""; "b"] [""]).
  right. left. reflexivity.
Defined.

(** A non-empty name is taken out of each list at its first occurrence
    only: what stood before and after it keeps its order, and a second
    occurrence of the name stays in the list. With lists free of
    duplicates the name is in neither returned list. *)
Theorem remove_cron_job_node_first_occurrence (n : string)
    (critical_nodes non_critical_nodes : list string) :
  n <> "" ->
  let r := NodeUtils.remove_cron_job_node (Some n) critical_nodes
             non_critical_nodes in
  cron_job_node_removed n critical_nodes (fst r)
  /\ cron_job_node_removed n non_critical_nodes (snd r)
  /\ (forall x, x <> n -> count_occ string_dec (fst r) x
                          = count_occ string_dec critical_nodes x)
  /\ count_occ string_dec (fst r) n
     = Nat.pred (count_occ string_dec critical_nodes n)
  /\ (List.NoDup critical_nodes -> ~ In n (fst r))
  /\ (List.NoDup non_critical_nodes -> ~ In n (snd r)).
Proof.
  intros Hn r.
  assert (Hr : r = (if NodeUtils.name_in critical_nodes n
                    then NodeUtils.list_remove n critical_nodes
                    else critical_nodes,
                    if NodeUtils.name_in non_critical_nodes n
                    then NodeUtils.list_remove n non_critical_nodes
                    else non_critical_nodes)).
  { subst r. unfold NodeUtils.remove_cron_job_node, str_truthy.
    destruct (String.eqb_spec n ""); [contradiction|reflexivity]. }
  rewrite Hr. cbn [fst snd].
  pose proof (remove_from_one_list n critical_nodes) as Hc.
  pose proof (remove_from_one_list n non_critical_nodes) as Hnc.
  assert (Hnodup : forall l r0,
            cron_job_node_removed n l r0 -> List.NoDup l -> ~ In n r0).
  { intros l r0 [[Hno ->]|(before & after & -> & Hb & ->)] Hnd; [exact Hno|].
    apply List.NoDup_remove_2 in Hnd. exact Hnd. }
  split; [exact Hc|]. split; [exact Hnc|]. split; [|split; [|split]].
  - intros x Hx.
    destruct Hc as [[_ ->]|(before & after & -> & _ & ->)]; [reflexivity|].
    rewrite !count_occ_app. simpl.
    destruct (string_dec n x); [congruence|reflexivity].
  - destruct Hc as [[Hno ->]|(before & after & -> & _ & ->)].
    + apply (count_occ_not_In string_dec) in Hno. now rewrite Hno.
    + rewrite !count_occ_app. simpl.
      destruct (string_dec n n); [|congruence]. lia.
  - now apply Hnodup.
  - now apply Hnodup.
Qed.

Lemma remove_cron_job_node_first_occurrence_witness :
  cron_job_node_removed "a" ["x"; "a"; "y"; "a"]
    (fst (NodeUtils.remove_cron_job_node (Some "a") ["x"; "a"; "y"; "a"] ["b"]))
  /\ fst (NodeUtils.remove_cron_job_node (Some "a") ["x"; "a"; "y"; "a"] ["b"])
     = ["x"; "y"; "a"].
Proof.
  split; [|reflexivity].
  apply (remove_cron_job_node_first_occurrence "a" ["x"; "a"; "y"; "a"] ["b"]).
  discriminate.
Defined.

(** ** Nodes on an older version *)

Lemma string_ltb_lts (a b : string) :
  String.ltb a b = true <-> OrderedTypeEx.String_as_OT.lt a b.
Proof.
  unfold String.ltb. rewrite <- OrderedTypeEx.String_as_OT.cmp_lt.
  unfold OrderedTypeEx.String_as_OT.cmp.
  destruct (String.compare a b); split; congruence.
Qed.

Lemma string_compare_refl (a : string) : String.compare a a = Eq.
Proof.
  induction a as [|c a IH]; simpl; [reflexivity|].
  assert (Hc : Ascii.compare c c = Eq).
  { unfold Ascii.compare. apply N.compare_refl. }
  now rewrite Hc.
Qed.

Lemma string_ltb_irrefl (a : string) : String.ltb a a = false.
Proof. unfold String.ltb. now rewrite string_compare_refl. Qed.

Lemma string_leb_ltb (a b : string) :
  String.leb a b = true <-> a = b \/ String.ltb a b = true.
Proof.
  unfold String.leb, String.ltb. split.
  - destruct (String.compare a b) eqn:Hc; intros H; try discriminate.
    + left. now apply String.compare_eq_iff.
    + now right.
  - intros [->|H].
    + now rewrite string_compare_refl.
    + destruct (String.compare a b); congruence.
Qed.

Lemma string_leb_trans (a b c : string) :
  String.leb a b = true -> String.leb b c = true -> String.leb a c = true.
Proof.
  rewrite !string_leb_ltb.
  intros [->|Hab] [->|Hbc]; auto. right.
  rewrite string_ltb_lts in *.
  eapply OrderedTypeEx.String_as_OT.lt_trans; eassumption.
Qed.

Lemma string_ltb_false_leb (a b : string) :
  String.ltb a b = false -> String.leb b a = true.
Proof.
  unfold String.ltb, String.leb. rewrite (String.compare_antisym b a).
  destruct (String.compare a b); simpl; congruence.
Qed.

(** [max] returns one of the values, and none is greater. *)
Lemma python_max_spec (values : list string) (m : string) :
  NodeUtils.python_max values = Ok m ->
  In m values /\ forall x, In x values -> String.leb x m = true.
Proof.
  destruct values as [|v rest]; simpl; [discriminate|].
  intros H. injection H as <-.
  assert (Hgen : forall l acc,
            let m := fold_left
                       (fun acc x => if String.ltb acc x then x else acc)
                       l acc in
            (m = acc \/ In m l)
            /\ String.leb acc m = true
            /\ forall x, In x l -> String.leb x m = true).
  { induction l as [|y l IH]; intros acc; simpl.
    - split; [now left|]. split; [apply string_leb_ltb; now left|].
      intros x [].
    - destruct (String.ltb acc y) eqn:Hlt.
      + destruct (IH y) as (Hin & Hle & Hall). repeat split.
        * destruct Hin as [->|Hin]; auto.
        * eapply string_leb_trans; [|exact Hle].
          apply string_leb_ltb. now right.
        * intros x [<-|Hx]; auto.
      + destruct (IH acc) as (Hin & Hle & Hall). repeat split.
        * destruct Hin as [->|Hin]; auto.
        * exact Hle.
        * intros x [<-|Hx]; auto.
          eapply string_leb_trans; [|exact Hle].
          now apply string_ltb_false_leb. }
  destruct (Hgen rest v) as (Hin & Hle & Hall). split.
  - destruct Hin as [->|Hin]; auto.
  - intros x [<-|Hx]; auto.
Qed.

Lemma node_versions_fold (nodes : list NodeUtils.ListedNode)
    (d : gmap string string) (k v : string) :
  fold_left
    (fun d node => <[listed_name node := listed_version node]> d) nodes d
  !! k = Some v ->
  d !! k = Some v
  \/ exists node, In node nodes /\ listed_name node = k
                  /\ listed_version node = v.
Proof.
  revert d. induction nodes as [|n nodes IH]; intros d; simpl; [auto|].
  intros H. apply IH in H as [H|(node & Hin & Hk & Hv)].
  - destruct (decide (listed_name n = k)) as [<-|Hne].
    + rewrite lookup_insert_eq in H. injection H as <-. right.
      exists n. auto.
    + rewrite lookup_insert_ne in H by exact Hne. now left.
  - right. exists node. auto.
Qed.

Lemma node_versions_defined (nodes : list NodeUtils.ListedNode)
    (d : gmap string string) (node : NodeUtils.ListedNode) :
  In node nodes ->
  is_Some (fold_left
             (fun d node => <[listed_name node := listed_version node]> d)
             nodes d !! listed_name node).
Proof.
  assert (Hkeep : forall l (d0 : gmap string string) k,
            is_Some (d0 !! k) ->
            is_Some (fold_left
                       (fun d node =>
                          <[listed_name node := listed_version node]> d)
                       l d0 !! k)).
  { induction l as [|n l IH]; intros d0 k H; simpl; [exact H|].
    apply IH. destruct (decide (listed_name n = k)) as [<-|Hne].
    - rewrite lookup_insert_eq. eauto.
    - now rewrite lookup_insert_ne. }
  revert d. induction nodes as [|n nodes IH]; intros d Hin; [contradiction|].
  simpl. destruct Hin as [->|Hin]; [|now apply IH].
  apply Hkeep. rewrite lookup_insert_eq. eauto.
Qed.

(** The latest version is the version of a listed node. *)
Lemma latest_version_listed (nodes : list NodeUtils.ListedNode) :
  nodes <> [] ->
  exists latest,
    NodeUtils.python_max (map snd (map_to_list (NodeUtils.node_versions nodes)))
    = Ok latest
    /\ exists node, In node nodes /\ listed_version node = latest.
Proof.
  intros Hne.
  destruct nodes as [|n0 nodes]; [contradiction|].
  destruct (node_versions_defined (n0 :: nodes) ∅ n0 (or_introl eq_refl))
    as [v0 Hv0].
  fold (NodeUtils.node_versions (n0 :: nodes)) in Hv0.
  assert (Hin0 : In v0 (map snd (map_to_list
                                   (NodeUtils.node_versions (n0 :: nodes))))).
  { apply in_map_iff. exists (listed_name n0, v0). split; [reflexivity|].
    apply list_elem_of_In, elem_of_map_to_list. exact Hv0. }
  destruct (map snd (map_to_list (NodeUtils.node_versions (n0 :: nodes))))
    as [|v vs] eqn:Hvals; [contradiction|].
  destruct (NodeUtils.python_max (v :: vs)) as [latest|e] eqn:Hmax;
    [|discriminate].
  exists latest. split; [reflexivity|].
  apply python_max_spec in Hmax as [Hin _]. rewrite <- Hvals in Hin.
  apply in_map_iff in Hin as ([k v'] & <- & Hkv).
  apply list_elem_of_In, elem_of_map_to_list in Hkv.
  apply node_versions_fold in Hkv as [Hkv|(node & Hn & _ & Hv)].
  - rewrite lookup_empty in Hkv. discriminate.
  - exists node. auto.
Qed.

(** What the function does with a listing it got. *)
Lemma old_version_nodes_of_listing (nodes : list NodeUtils.ListedNode) :
  exists latest,
    (nodes <> [] -> exists node, In node nodes /\ listed_version node = latest)
    /\ NodeUtils.get_old_version_cast_ai_nodes (Ok nodes)
       = Ok (match List.filter
                     (fun node => String.ltb (listed_version node) latest)
                     nodes
             with
             | [] => None
             | old => Some old
             end).
Proof.
  destruct nodes as [|n0 nodes].
  { exists "". split; [intros H; now destruct H|reflexivity]. }
  destruct (latest_version_listed (n0 :: nodes) ltac:(discriminate))
    as (latest & Hmax & node & Hnode & Hlatest).
  exists latest. split; [intros _; exists node; auto|].
  unfold NodeUtils.get_old_version_cast_ai_nodes, NodeUtils.get_cast_ai_nodes.
  rewrite Hmax. fold listed_version.
  change (fun node : NodeUtils.ListedNode =>
            String.ltb (NodeUtils.status_node_info_kubelet_version node)
              latest)
    with (fun node => String.ltb (listed_version node) latest).
  now destruct (List.filter _ (n0 :: nodes)).
Qed.

(** An exception of the node listing is not caught: it leaves
    [get_old_version_cast_ai_nodes]. When the function returns, it was
    given a listing, and it returns [None] or a list that is not empty: a
    list it returns holds, in listing order, exactly the listed nodes whose
    version string is below the latest one, which is the version of a
    listed node; so it is never the whole listing: at least one node is
    left out. *)
Theorem old_version_nodes_are_a_strict_selection
    (list_node : result (list NodeUtils.ListedNode)) :
  (forall e, list_node = Raise e ->
     NodeUtils.get_old_version_cast_ai_nodes list_node = Raise e)
  /\ (forall r,
        NodeUtils.get_old_version_cast_ai_nodes list_node = Ok r ->
        exists nodes latest,
          list_node = Ok nodes
          /\ (nodes <> [] ->
              exists node, In node nodes /\ listed_version node = latest)
          /\ r = match List.filter
                         (fun node => String.ltb (listed_version node) latest)
                         nodes
                 with
                 | [] => None
                 | old => Some old
                 end
          /\ forall old,
               r = Some old ->
               old <> []
               /\ (length old < length nodes)%nat
               /\ forall node, In node old <->
                               In node nodes
                               /\ String.ltb (listed_version node) latest
                                  = true).
Proof.
  split; [intros e ->; reflexivity|].
  intros r Hr. destruct list_node as [nodes|e]; [|discriminate Hr].
  destruct (old_version_nodes_of_listing nodes) as (latest & Hlisted & Hrun).
  rewrite Hrun in Hr. injection Hr as <-.
  exists nodes, latest. split; [reflexivity|]. split; [exact Hlisted|].
  split; [reflexivity|].
  intros old Hold.
  destruct (List.filter (fun node => String.ltb (listed_version node) latest)
              nodes) as [|o old'] eqn:Hf; [discriminate|].
  injection Hold as <-. split; [discriminate|].
  assert (Hne : nodes <> []) by (intros ->; discriminate Hf).
  destruct (Hlisted Hne) as (node & Hnode & Hlatest).
  split.
  - rewrite <- Hf.
    assert (Hnot : ~ In node
                     (List.filter
                        (fun node => String.ltb (listed_version node) latest)
                        nodes)).
    { rewrite filter_In, Hlatest, string_ltb_irrefl. intros [_ H].
      discriminate. }
    clear Hf Hrun Hne Hlisted.
    revert Hnode Hnot. generalize nodes. intros l.
    induction l as [|x l IH]; intros Hin Hnot; [contradiction|].
    simpl in *. destruct (String.ltb (listed_version x) latest) eqn:Hx.
    + destruct Hin as [->|Hin].
      * exfalso. apply Hnot. now left.
      * simpl. apply -> Nat.succ_lt_mono. apply IH; [exact Hin|].
        intros H. apply Hnot. now right.
    + pose proof (List.filter_length_le
                    (fun node => String.ltb (listed_version node) latest) l).
      lia.
  - intros x. rewrite <- Hf. apply filter_In.
Qed.

Lemma old_version_nodes_are_a_strict_selection_witness :
  exists latest,
    (exists node, In node Examples.mixed_versions
                  /\ listed_version node = latest)
    /\ [Examples.listed "a" "v1.27.3"; Examples.listed "c" "v1.27.9"]
       = List.filter (fun node => String.ltb (listed_version node) latest)
           Examples.mixed_versions
    /\ (length [Examples.listed "a" "v1.27.3"; Examples.listed "c" "v1.27.9"]
        < length Examples.mixed_versions)%nat.
Proof.
  destruct (old_version_nodes_are_a_strict_selection
              (Ok Examples.mixed_versions)) as [_ Hreturned].
  destruct (Hreturned
              (Some [Examples.listed "a" "v1.27.3";
                     Examples.listed "c" "v1.27.9"]))
    as (nodes & latest & Hnodes & Hlisted & Hr & Hold).
  { vm_compute. reflexivity. }
  injection Hnodes as <-.
  destruct (Hold _ eq_refl) as (_ & Hlen & _).
  exists latest. split; [apply Hlisted; discriminate|]. split; [|exact Hlen].
  destruct (List.filter (fun node => String.ltb (listed_version node) latest)
              Examples.mixed_versions); [discriminate Hr|].
  congruence.
Defined.

(** When node names are distinct, as they are in a cluster, the latest
    version is the greatest of the listing, and the nodes left out of the
    returned list are exactly those that run it. Versions are ordered as
    strings, character by character. *)
Theorem old_version_nodes_leave_out_the_latest
    (nodes : list NodeUtils.ListedNode) (old : list NodeUtils.ListedNode) :
  List.NoDup (map listed_name nodes) ->
  NodeUtils.get_old_version_cast_ai_nodes (Ok nodes) = Ok (Some old) ->
  exists latest,
    (forall node, In node nodes ->
                  String.leb (listed_version node) latest = true)
    /\ (forall node, In node nodes ->
          (In node old <-> listed_version node <> latest)).
Proof.
  intros Hnd Hold.
  destruct nodes as [|n0 nodes]; [discriminate|].
  destruct (latest_version_listed (n0 :: nodes) ltac:(discriminate))
    as (latest & Hmax & _).
  exists latest.
  assert (Hle : forall node, In node (n0 :: nodes) ->
                  String.leb (listed_version node) latest = true).
  { intros node Hin.
    apply python_max_spec in Hmax as [_ Hall]. apply Hall.
    apply in_map_iff. exists (listed_name node, listed_version node).
    split; [reflexivity|].
    apply list_elem_of_In, elem_of_map_to_list.
    destruct (node_versions_defined (n0 :: nodes) ∅ node Hin) as [v Hv].
    fold (NodeUtils.node_versions (n0 :: nodes)) in Hv.
    pose proof Hv as Hv'.
    apply node_versions_fold in Hv' as [Hv'|(node' & Hin' & Hk & Hv')].
    { rewrite lookup_empty in Hv'. discriminate. }
    assert (node' = node).
    { clear -Hnd Hin Hin' Hk.
      revert Hnd Hin Hin'. generalize (n0 :: nodes). intros l.
      induction l as [|x l IH]; intros Hnd Hin Hin'; [contradiction|].
      simpl in Hnd. apply List.NoDup_cons_iff in Hnd as [Hx Hnd].
      destruct Hin as [->|Hin], Hin' as [->|Hin']; auto.
      - exfalso. apply Hx. rewrite <- Hk. now apply in_map.
      - exfalso. apply Hx. rewrite Hk. now apply in_map. }
    subst node' v. exact Hv. }
  split; [exact Hle|].
  intros node Hin.
  unfold NodeUtils.get_old_version_cast_ai_nodes, NodeUtils.get_cast_ai_nodes
    in Hold.
  rewrite Hmax in Hold.
  destruct (List.filter _ (n0 :: nodes)) as [|o old'] eqn:Hf in Hold;
    [discriminate|].
  injection Hold as <-. rewrite <- Hf, filter_In.
  fold (listed_version node). split.
  - intros [_ Hlt] Heq. rewrite Heq, string_ltb_irrefl in Hlt. discriminate.
  - intros Hne. split; [exact Hin|].
    specialize (Hle node Hin). apply string_leb_ltb in Hle as [Heq|Hlt];
      [contradiction|exact Hlt].
Qed.

Lemma old_version_nodes_leave_out_the_latest_witness :
  exists latest,
    (forall node, In node Examples.mixed_versions ->
                  String.leb (listed_version node) latest = true)
    /\ (forall node, In node Examples.mixed_versions ->
          (In node [Examples.listed "a" "v1.27.3"; Examples.listed "c" "v1.27.9"]
           <-> listed_version node <> latest)).
Proof.
  apply (old_version_nodes_leave_out_the_latest Examples.mixed_versions
           [Examples.listed "a" "v1.27.3"; Examples.listed "c" "v1.27.9"]).
  - repeat constructor; simpl; intuition discriminate.
  - vm_compute. reflexivity.
Defined.

(** The order is the one of strings: with one node on ["v1.9.0"] and one on
    ["v1.10.0"], the node on ["v1.10.0"] is the one reported as old. *)
Example old_version_nodes_string_order :
  NodeUtils.get_old_version_cast_ai_nodes
    (Ok [Examples.listed "a" "v1.9.0"; Examples.listed "b" "v1.10.0"])
  = Ok (Some [Examples.listed "b" "v1.10.0"])
  /\ NodeUtils.get_old_version_cast_ai_nodes
       (Ok [Examples.listed "a" "v1.28.1"; Examples.listed "b" "v1.28.1"])
     = Ok None
  /\ NodeUtils.get_old_version_cast_ai_nodes (Ok []) = Ok None
  /\ NodeUtils.get_old_version_cast_ai_nodes (Raise ApiException)
     = Raise ApiException.
Proof. repeat split; vm_compute; reflexivity. Qed.

(** ** Patching a node: cordon, uncordon, label *)

(** The outcome of one best-effort patch, whatever the control plane does:
    refused or unknown node, nothing changes; accepted, the node is replaced
    by its patched version. *)
Lemma patch_outcome (node_name : string) (body : patch_body) (w : World) :
  exists w1,
    try_except (patch_node node_name body)
      (fun e => match e with
                | ApiException => Some (ret tt)
                | _ => None
                end) w = (Ok tt, w1)
    /\ trace w1 = trace w ++ [(clock w, PatchNode node_name body)]
    /\ api_faults w1 = tl (api_faults w)
    /\ same_service w w1
    /\ (hd false (api_faults w) = true
        \/ nodes (cluster w) !! node_name = None ->
        cluster w1 = cluster w)
    /\ (forall node,
          hd false (api_faults w) = false ->
          nodes (cluster w) !! node_name = Some node ->
          cluster w1
          = {| nodes := <[node_name := apply_patch body node]> (nodes (cluster w));
               pods := pods (cluster w) |}).
Proof.
  cbv [try_except patch_node bind emit control_plane_call ret same_service].
  cbn [api_faults with_trace with_api_faults with_cluster cluster trace clock].
  destruct (api_faults w) as [|[|] fs] eqn:Hf;
    cbn [api_faults with_trace with_api_faults with_cluster cluster trace
         clock hd tl];
    try (destruct (nodes (cluster w) !! node_name) as [node|] eqn:Hn);
    eexists; (split; [reflexivity|]);
    cbn [api_faults with_trace with_api_faults with_cluster cluster trace
         clock nodes pods drain_executor node_templates_reply
         post_node_replies get_node_replies];
    rewrite ?Hf; repeat split; auto;
    try (intros; discriminate); try (intros; congruence);
    try (intros [?|?]; congruence).
Qed.

(** [cordon_node], [uncordon_node] and [label_node] never raise: each
    issues its one patch and returns. When the control plane refuses the
    patch or does not know the node, the cluster is left exactly as it
    was. *)
Theorem patch_helpers_swallow_refusals (node_name label_key label_value : string)
    (w : World) :
  hd false (api_faults w) = true \/ nodes (cluster w) !! node_name = None ->
  (exists w1,
     NodeUtils.cordon_node node_name w = (Ok tt, w1)
     /\ trace w1
        = trace w ++ [(clock w, PatchNode node_name (PatchUnschedulable true))]
     /\ cluster w1 = cluster w)
  /\ (exists w1,
        NodeUtils.uncordon_node node_name w = (Ok tt, w1)
        /\ trace w1
           = trace w
             ++ [(clock w, PatchNode node_name (PatchUnschedulable false))]
        /\ cluster w1 = cluster w)
  /\ (exists w1,
        NodeUtils.label_node node_name label_key label_value w = (Ok tt, w1)
        /\ trace w1
           = trace w
             ++ [(clock w,
                  PatchNode node_name (PatchLabel label_key label_value))]
        /\ cluster w1 = cluster w).
Proof.
  intros Hbad.
  unfold NodeUtils.cordon_node, NodeUtils.uncordon_node, NodeUtils.label_node.
  repeat split.
  - destruct (patch_outcome node_name (PatchUnschedulable true) w)
      as (w1 & Hrun & Htr & _ & _ & Hsame & _). eauto.
  - destruct (patch_outcome node_name (PatchUnschedulable false) w)
      as (w1 & Hrun & Htr & _ & _ & Hsame & _). eauto.
  - destruct (patch_outcome node_name (PatchLabel label_key label_value) w)
      as (w1 & Hrun & Htr & _ & _ & Hsame & _). eauto.
Qed.

Lemma patch_helpers_swallow_refusals_witness :
  exists w1,
    NodeUtils.cordon_node "n1" (Examples.one_node_world [true]) = (Ok tt, w1)
    /\ trace w1
       = trace (Examples.one_node_world [true])
         ++ [(clock (Examples.one_node_world [true]),
              PatchNode "n1" (PatchUnschedulable true))]
    /\ cluster w1 = cluster (Examples.one_node_world [true]).
Proof.
  apply (patch_helpers_swallow_refusals "n1" "k" "v"
           (Examples.one_node_world [true])).
  left. reflexivity.
Defined.

Lemma apply_patch_unschedulable_twice (b b' : bool) (node : V1Node) :
  apply_patch (PatchUnschedulable b') (apply_patch (PatchUnschedulable b) node)
  = apply_patch (PatchUnschedulable b') node.
Proof. reflexivity. Qed.

Lemma apply_patch_unschedulable_same (node : V1Node) :
  apply_patch (PatchUnschedulable (spec_unschedulable node)) node = node.
Proof. now destruct node. Qed.

Lemma cluster_insert_same (c : Cluster) (node_name : string) (node : V1Node) :
  nodes c !! node_name = Some node ->
  {| nodes := <[node_name := node]> (nodes c); pods := pods c |} = c.
Proof.
  intros H. destruct c as [ns ps]. simpl in *. f_equal. now apply insert_id.
Qed.

(** Two patches of the unschedulable flag in a row, both accepted: the
    cluster ends as if only the second had been made. *)
Lemma two_flag_patches (node_name : string) (b b' : bool) (w : World)
    (node : V1Node) :
  accepts_next 2 w ->
  nodes (cluster w) !! node_name = Some node ->
  exists w2,
    bind (try_except (patch_node node_name (PatchUnschedulable b))
            (fun e => match e with
                      | ApiException => Some (ret tt)
                      | _ => None
                      end))
      (fun _ =>
         try_except (patch_node node_name (PatchUnschedulable b'))
           (fun e => match e with
                     | ApiException => Some (ret tt)
                     | _ => None
                     end)) w = (Ok tt, w2)
    /\ cluster w2
       = {| nodes := <[node_name := apply_patch (PatchUnschedulable b') node]>
                       (nodes (cluster w));
            pods := pods (cluster w) |}.
Proof.
  intros Hacc Hnode.
  destruct (patch_outcome node_name (PatchUnschedulable b) w)
    as (w1 & Hrun1 & _ & Hf1 & _ & _ & Hok1).
  destruct (accepts_next_S _ _ _ Hacc Hf1) as [Hh1 Hacc1].
  specialize (Hok1 node Hh1 Hnode).
  destruct (patch_outcome node_name (PatchUnschedulable b') w1)
    as (w2 & Hrun2 & _ & Hf2 & _ & _ & Hok2).
  destruct (accepts_next_S _ _ _ Hacc1 Hf2) as [Hh2 _].
  assert (Hn1 : nodes (cluster w1) !! node_name
                = Some (apply_patch (PatchUnschedulable b) node)).
  { rewrite Hok1. simpl. apply lookup_insert_eq. }
  specialize (Hok2 _ Hh2 Hn1).
  exists w2. rewrite (bind_ok _ _ _ _ _ Hrun1). split; [exact Hrun2|].
  rewrite Hok2, Hok1. cbn [nodes pods].
  now rewrite insert_insert_eq.
Qed.

(** Cordoning and then uncordoning a node, both patches accepted, leaves it
    schedulable with everything else as before; when the node was
    schedulable to begin with, the cluster is back exactly where it was. *)
Theorem cordon_then_uncordon_restores (node_name : string) (w : World)
    (node : V1Node) :
  accepts_next 2 w ->
  nodes (cluster w) !! node_name = Some node ->
  exists w',
    bind (NodeUtils.cordon_node node_name)
      (fun _ => NodeUtils.uncordon_node node_name) w = (Ok tt, w')
    /\ nodes (cluster w') !! node_name
       = Some (apply_patch (PatchUnschedulable false) node)
    /\ (forall other, other <> node_name ->
          nodes (cluster w') !! other = nodes (cluster w) !! other)
    /\ pods (cluster w') = pods (cluster w)
    /\ (spec_unschedulable node = false -> cluster w' = cluster w).
Proof.
  intros Hacc Hnode.
  destruct (two_flag_patches node_name true false w node Hacc Hnode)
    as (w' & Hrun & Hcl).
  exists w'. split; [exact Hrun|]. rewrite Hcl. cbn [nodes pods].
  split; [apply lookup_insert_eq|].
  split; [intros other Hne; now apply lookup_insert_ne|].
  split; [reflexivity|].
  intros Hs. rewrite <- Hs, apply_patch_unschedulable_same.
  now apply cluster_insert_same.
Qed.

Lemma cordon_then_uncordon_restores_witness :
  exists w',
    bind (NodeUtils.cordon_node "n1") (fun _ => NodeUtils.uncordon_node "n1")
      (Examples.one_node_world []) = (Ok tt, w')
    /\ cluster w' = cluster (Examples.one_node_world []).
Proof.
  destruct (cordon_then_uncordon_restores "n1" (Examples.one_node_world [])
              (Examples.mk_node "n1" (Some Examples.gpu_labels) false
                 [Examples.ready_true]))
    as (w' & Hrun & _ & _ & _ & Hback).
  - repeat constructor.
  - reflexivity.
  - exists w'. split; [exact Hrun|]. apply Hback. reflexivity.
Defined.

(** Cordoning is idempotent: a second accepted [cordon_node] leaves the
    cluster as the first one left it, with the node unschedulable. *)
Theorem cordon_node_idempotent (node_name : string) (w : World)
    (node : V1Node) :
  accepts_next 2 w ->
  nodes (cluster w) !! node_name = Some node ->
  exists w1 w2,
    NodeUtils.cordon_node node_name w = (Ok tt, w1)
    /\ NodeUtils.cordon_node node_name w1 = (Ok tt, w2)
    /\ (exists node', nodes (cluster w1) !! node_name = Some node'
                      /\ spec_unschedulable node' = true
                      /\ metadata_labels node' = metadata_labels node)
    /\ cluster w2 = cluster w1.
Proof.
  intros Hacc Hnode. unfold NodeUtils.cordon_node.
  destruct (patch_outcome node_name (PatchUnschedulable true) w)
    as (w1 & Hrun1 & _ & Hf1 & _ & _ & Hok1).
  destruct (accepts_next_S _ _ _ Hacc Hf1) as [Hh1 Hacc1].
  specialize (Hok1 node Hh1 Hnode).
  destruct (patch_outcome node_name (PatchUnschedulable true) w1)
    as (w2 & Hrun2 & _ & Hf2 & _ & _ & Hok2).
  destruct (accepts_next_S _ _ _ Hacc1 Hf2) as [Hh2 _].
  assert (Hn1 : nodes (cluster w1) !! node_name
                = Some (apply_patch (PatchUnschedulable true) node)).
  { rewrite Hok1. simpl. apply lookup_insert_eq. }
  specialize (Hok2 _ Hh2 Hn1).
  exists w1, w2. split; [exact Hrun1|]. split; [exact Hrun2|].
  split; [eexists; split; [exact Hn1|]; split; reflexivity|].
  rewrite Hok2. rewrite apply_patch_unschedulable_twice.
  now apply cluster_insert_same.
Qed.

Lemma cordon_node_idempotent_witness :
  exists w1 w2,
    NodeUtils.cordon_node "n1" (Examples.one_node_world []) = (Ok tt, w1)
    /\ NodeUtils.cordon_node "n1" w1 = (Ok tt, w2)
    /\ (exists node', nodes (cluster w1) !! "n1" = Some node'
                      /\ spec_unschedulable node' = true
                      /\ metadata_labels node' = Some Examples.gpu_labels)
    /\ cluster w2 = cluster w1.
Proof.
  apply (cordon_node_idempotent "n1" (Examples.one_node_world [])
           (Examples.mk_node "n1" (Some Examples.gpu_labels) false
              [Examples.ready_true])).
  - repeat constructor.
  - reflexivity.
Defined.

(** ** Reading and writing labels *)

(** One label read, whatever the control plane does. *)
Lemma label_read_outcome (node_name key : string) (w : World) :
  exists v w1,
    NodeUtils.get_node_label_value node_name key w = (Ok v, w1)
    /\ CastApiUtils.get_node_label_value node_name key w = (Ok v, w1)
    /\ trace w1 = trace w ++ [(clock w, ReadNode node_name)]
    /\ cluster w1 = cluster w
    /\ (hd false (api_faults w) = false -> v = node_label w node_name key)
    /\ (hd false (api_faults w) = true -> v = None).
Proof.
  cbv [NodeUtils.get_node_label_value CastApiUtils.get_node_label_value
       try_except bind read_node emit control_plane_call ret node_label].
  cbn [api_faults with_trace with_api_faults cluster trace clock].
  destruct (api_faults w) as [|[|] fs] eqn:Hf;
    cbn [api_faults with_trace with_api_faults cluster trace clock hd tl];
    try (destruct (nodes (cluster w) !! node_name) as [node|];
         [destruct (metadata_labels node) as [labels|];
          [destruct (labels !! key)|]|]);
    eexists _, _; (split; [reflexivity|]); (split; [reflexivity|]);
    cbn [api_faults with_trace with_api_faults cluster trace clock];
    repeat split; auto; try (intros; discriminate).
Qed.

(** [get_node_label_value], in both modules, never raises and changes
    nothing in the cluster. It returns the value of the label when the read
    is accepted and the node carries the label; a refused read, an unknown
    node, a node without labels and a missing key all give [None], so a value
    it returns is always a label the node really has. *)
Theorem get_node_label_value_reads_the_label (node_name key : string)
    (w : World) :
  exists v w1,
    NodeUtils.get_node_label_value node_name key w = (Ok v, w1)
    /\ CastApiUtils.get_node_label_value node_name key w = (Ok v, w1)
    /\ trace w1 = trace w ++ [(clock w, ReadNode node_name)]
    /\ cluster w1 = cluster w
    /\ (hd false (api_faults w) = false -> v = node_label w node_name key)
    /\ (hd false (api_faults w) = true -> v = None)
    /\ (forall x, v = Some x ->
          exists node labels,
            nodes (cluster w) !! node_name = Some node
            /\ metadata_labels node = Some labels
            /\ labels !! key = Some x).
Proof.
  destruct (label_read_outcome node_name key w)
    as (v & w1 & Hrun & Hrun' & Htr & Hcl & Hok & Hbad).
  exists v, w1. repeat split; auto.
  intros x ->.
  destruct (hd false (api_faults w)) eqn:Hh; [now specialize (Hbad eq_refl)|].
  specialize (Hok eq_refl). unfold node_label in Hok.
  destruct (nodes (cluster w) !! node_name) as [node|]; [|discriminate].
  destruct (metadata_labels node) as [labels|] eqn:Hl; [|discriminate].
  exists node, labels. auto.
Qed.

(** An accepted [label_node] sets exactly one label of exactly one node:
    the key now has the value, the node's other labels, its unschedulable
    flag and its conditions are as before, and so are all other nodes and
    all pods. A node that had no label map gets one. *)
Theorem label_node_sets_one_label (node_name label_key label_value : string)
    (w : World) (node : V1Node) :
  hd false (api_faults w) = false ->
  nodes (cluster w) !! node_name = Some node ->
  exists w1 node1,
    NodeUtils.label_node node_name label_key label_value w = (Ok tt, w1)
    /\ nodes (cluster w1) !! node_name = Some node1
    /\ node_label w1 node_name label_key = Some label_value
    /\ (forall key, key <> label_key ->
          node_label w1 node_name key = node_label w node_name key)
    /\ spec_unschedulable node1 = spec_unschedulable node
    /\ status_conditions node1 = status_conditions node
    /\ metadata_name node1 = metadata_name node
    /\ (forall other, other <> node_name ->
          nodes (cluster w1) !! other = nodes (cluster w) !! other)
    /\ pods (cluster w1) = pods (cluster w).
Proof.
  intros Hh Hnode. unfold NodeUtils.label_node.
  destruct (patch_outcome node_name (PatchLabel label_key label_value) w)
    as (w1 & Hrun & _ & _ & _ & _ & Hok).
  specialize (Hok node Hh Hnode).
  exists w1, (apply_patch (PatchLabel label_key label_value) node).
  split; [exact Hrun|]. unfold node_label. rewrite Hok, Hnode.
  cbn [nodes pods]. rewrite lookup_insert_eq.
  cbn [apply_patch metadata_labels spec_unschedulable status_conditions
       metadata_name].
  split; [reflexivity|]. split; [apply lookup_insert_eq|].
  split.
  { intros key Hne. rewrite lookup_insert_ne by congruence.
    destruct (metadata_labels node); [reflexivity|apply lookup_empty]. }
  repeat split; auto.
  intros other Hne. now apply lookup_insert_ne.
Qed.

Lemma label_node_sets_one_label_witness :
  exists w1 node1,
    NodeUtils.label_node "n1" "drain-status" "failed"
      (Examples.one_node_world []) = (Ok tt, w1)
    /\ nodes (cluster w1) !! "n1" = Some node1
    /\ node_label w1 "n1" "drain-status" = Some "failed"
    /\ node_label w1 "n1" "node.kubernetes.io/instance-type"
       = Some "m5.large".
Proof.
  destruct (label_node_sets_one_label "n1" "drain-status" "failed"
              (Examples.one_node_world [])
              (Examples.mk_node "n1" (Some Examples.gpu_labels) false
                 [Examples.ready_true]) eq_refl eq_refl)
    as (w1 & node1 & Hrun & Hn & Hset & Hkeep & _).
  exists w1, node1. split; [exact Hrun|]. split; [exact Hn|].
  split; [exact Hset|].
  rewrite (Hkeep "node.kubernetes.io/instance-type"); [reflexivity|].
  discriminate.
Defined.

(** Writing a label and reading it back, both calls accepted: the read
    returns the value written, and the read of any other key returns what
    the node had before. *)
Theorem label_then_read_round_trip (node_name label_key label_value key : string)
    (w : World) (node : V1Node) :
  accepts_next 2 w ->
  nodes (cluster w) !! node_name = Some node ->
  exists w',
    bind (NodeUtils.label_node node_name label_key label_value)
      (fun _ => NodeUtils.get_node_label_value node_name key) w
    = (Ok (if String.eqb key label_key then Some label_value
           else node_label w node_name key), w').
Proof.
  intros Hacc Hnode. unfold NodeUtils.label_node.
  destruct (patch_outcome node_name (PatchLabel label_key label_value) w)
    as (w1 & Hrun & _ & Hf & _ & _ & Hok).
  destruct (accepts_next_S _ _ _ Hacc Hf) as [Hh Hacc1].
  specialize (Hok node Hh Hnode).
  destruct (label_read_outcome node_name key w1)
    as (v & w' & Hread & _ & _ & _ & Hv & _).
  assert (Hh1 : hd false (api_faults w1) = false).
  { unfold accepts_next in Hacc1.
    destruct (api_faults w1) as [|b fs]; [reflexivity|].
    simpl in *. now apply Forall_cons in Hacc1 as [-> _]. }
  specialize (Hv Hh1). exists w'.
  rewrite (bind_ok _ _ _ _ _ Hrun), Hread. f_equal. f_equal.
  rewrite Hv. unfold node_label. rewrite Hok, Hnode. cbn [nodes].
  rewrite lookup_insert_eq. cbn [apply_patch metadata_labels].
  destruct (String.eqb_spec key label_key) as [->|Hne].
  - apply lookup_insert_eq.
  - rewrite lookup_insert_ne by congruence.
    destruct (metadata_labels node); [reflexivity|apply lookup_empty].
Qed.

Lemma label_then_read_round_trip_witness :
  exists w',
    bind (NodeUtils.label_node "n1" "drain-status" "failed")
      (fun _ => NodeUtils.get_node_label_value "n1" "drain-status")
      (Examples.one_node_world [])
    = (Ok (if String.eqb "drain-status" "drain-status" then Some "failed"
           else node_label (Examples.one_node_world []) "n1" "drain-status"),
       w').
Proof.
  apply (label_then_read_round_trip "n1" "drain-status" "failed"
           "drain-status" (Examples.one_node_world [])
           (Examples.mk_node "n1" (Some Examples.gpu_labels) false
              [Examples.ready_true])).
  - repeat constructor.
  - reflexivity.
Defined.

(** ** The template catalog *)

Lemma item_has_name_template (template_name : string) (item : TemplateItem) :
  CastApiUtils.item_has_name template_name item = true <->
  exists td, template item = Some td /\ name td = Some template_name.
Proof.
  unfold CastApiUtils.item_has_name. destruct (template item) as [td|]; simpl.
  - destruct (name td) as [n|] eqn:Hn.
    + split.
      * intros H. apply String.eqb_eq in H. subst. eauto.
      * intros (td' & Ht & Hn'). injection Ht as <-. rewrite Hn in Hn'.
        injection Hn' as ->. apply String.eqb_refl.
    + split; [discriminate|]. intros (td' & Ht & Hn'). injection Ht as <-.
      congruence.
  - split; [discriminate|]. intros (td' & Ht & _). discriminate.
Qed.

(** [find_node_template_details] returns the first template of the catalog
    whose name is the one asked for, later ones of the same name being
    ignored; what it returns is either that template, which carries the
    name, or the empty dict, and it is the empty dict exactly when no
    template of the catalog has the name (in particular for a catalog
    without items). *)
Theorem find_node_template_details_first_match
    (node_templates : NodeTemplates) (template_name : string) :
  (forall before item after td,
     items node_templates = Some (before ++ item :: after) ->
     (forall i, In i before ->
                CastApiUtils.item_has_name template_name i = false) ->
     template item = Some td ->
     name td = Some template_name ->
     CastApiUtils.find_node_template_details node_templates template_name = td)
  /\ (CastApiUtils.find_node_template_details node_templates template_name
      = empty_template
      <-> forall item, In item (default [] (items node_templates)) ->
                       CastApiUtils.item_has_name template_name item = false)
  /\ (CastApiUtils.find_node_template_details node_templates template_name
      <> empty_template ->
      name (CastApiUtils.find_node_template_details node_templates
              template_name) = Some template_name)
  /\ (items node_templates = None ->
      CastApiUtils.find_node_template_details node_templates template_name
      = empty_template).
Proof.
  unfold CastApiUtils.find_node_template_details.
  assert (Hfound : forall l,
            CastApiUtils.find_in_items l template_name = empty_template
            /\ (forall item, In item l ->
                  CastApiUtils.item_has_name template_name item = false)
            \/ CastApiUtils.find_in_items l template_name <> empty_template
               /\ name (CastApiUtils.find_in_items l template_name)
                  = Some template_name
               /\ exists item, In item l
                    /\ CastApiUtils.item_has_name template_name item = true).
  { induction l as [|item l IH]; simpl.
    - left. split; [reflexivity|]. intros item [].
    - destruct (CastApiUtils.item_has_name template_name item) eqn:Hi.
      + right. pose proof Hi as Hi'.
        apply item_has_name_template in Hi' as (td & -> & Hn). simpl.
        split; [intros ->; discriminate|]. split; [exact Hn|].
        exists item. auto.
      + destruct IH as [[He Hall]|(Hne & Hn & item' & Hin & Hi')].
        * left. split; [exact He|]. intros i [<-|Hin]; auto.
        * right. split; [exact Hne|]. split; [exact Hn|].
          exists item'. auto. }
  split; [|split; [|split]].
  - intros before item after td -> Hbefore Ht Hn. simpl.
    induction before as [|b before IH]; simpl.
    + assert (Hi : CastApiUtils.item_has_name template_name item = true)
        by (apply item_has_name_template; eauto).
      now rewrite Hi, Ht.
    + rewrite (Hbefore b (or_introl eq_refl)). apply IH.
      intros i Hi. apply Hbefore. now right.
  - destruct (Hfound (default [] (items node_templates)))
      as [[He Hall]|(Hne & _ & item & Hin & Hi)].
    + split; auto.
    + split; [contradiction|]. intros Hall. rewrite (Hall item Hin) in Hi.
      discriminate.
  - intros Hne.
    destruct (Hfound (default [] (items node_templates)))
      as [[He _]|(_ & Hn & _)]; [contradiction|exact Hn].
  - intros ->. reflexivity.
Qed.

Lemma find_node_template_details_first_match_witness :
  CastApiUtils.find_node_template_details
    (Examples.catalog [Examples.default_template; Examples.gpu_template])
    "gpu"
  = Examples.gpu_template.
Proof.
  destruct (find_node_template_details_first_match
              (Examples.catalog
                 [Examples.default_template; Examples.gpu_template]) "gpu")
    as [Hfirst _].
  apply (Hfirst [{| template := Some Examples.default_template |}]
           {| template := Some Examples.gpu_template |} []).
  - reflexivity.
  - intros i [<-|[]]. reflexivity.
  - reflexivity.
  - reflexivity.
Defined.

(** Two templates of one name: the first one wins. *)
Example find_node_template_details_shadowing :
  CastApiUtils.find_node_template_details
    (Examples.catalog
       [Examples.default_template; Examples.gpu_template;
        {| name := Some "gpu"; configurationId := Some "c9";
           customTaints := None; customLabels := None |}]) "gpu"
  = Examples.gpu_template.
Proof. reflexivity. Qed.

Lemma fetch_node_templates_run (cluster_id api_key : string) (w : World) :
  CastApiUtils.fetch_node_templates cluster_id api_key w
  = (Ok (world_templates w),
     with_trace (trace w ++ [(clock w, GetNodeTemplates cluster_id)]) w).
Proof.
  unfold CastApiUtils.fetch_node_templates, try_except, bind,
    requests_get_node_templates, emit, world_templates. cbn.
  now destruct (node_templates_reply w).
Qed.

(** When the catalog request fails, [fetch_node_templates] does not raise:
    it returns a body in which [find_node_template_details] finds no
    template, whatever the name. *)
Theorem failed_catalog_request_resolves_nothing (cluster_id api_key : string)
    (w : World) :
  node_templates_reply w = None ->
  exists node_templates w1,
    CastApiUtils.fetch_node_templates cluster_id api_key w
    = (Ok node_templates, w1)
    /\ trace w1 = trace w ++ [(clock w, GetNodeTemplates cluster_id)]
    /\ cluster w1 = cluster w
    /\ forall template_name,
         CastApiUtils.find_node_template_details node_templates template_name
         = empty_template.
Proof.
  intros Hfail. rewrite fetch_node_templates_run.
  eexists _, _. split; [reflexivity|]. cbn.
  repeat split. intros template_name.
  unfold world_templates. now rewrite Hfail.
Qed.

Lemma failed_catalog_request_resolves_nothing_witness :
  exists node_templates w1,
    CastApiUtils.fetch_node_templates "c" "k" (Examples.stuck_drain_world [])
    = (Ok node_templates, w1)
    /\ trace w1
       = trace (Examples.stuck_drain_world [])
         ++ [(clock (Examples.stuck_drain_world []), GetNodeTemplates "c")]
    /\ cluster w1 = cluster (Examples.stuck_drain_world [])
    /\ forall template_name,
         CastApiUtils.find_node_template_details node_templates template_name
         = empty_template.
Proof.
  apply (failed_catalog_request_resolves_nothing "c" "k"
           (Examples.stuck_drain_world [])).
  reflexivity.
Defined.

(** ** Waiting until the node is ready: when it succeeds *)

Lemma polls_duration_nonneg (ri : Z) (replies : list (Z * reply)) :
  0 <= ri ->
  Forall (fun p => snd p <> ready_reply /\ 0 <= fst p) replies ->
  0 <= polls_duration ri replies.
Proof.
  intros Hri H. induction H as [|p l [_ Hp] _ IH]; simpl; lia.
Qed.


Section WaitSucceeds.

Variables (cluster_id node_id : string).
Variables (end_time retry_interval_seconds max_retries : Z).
Hypothesis interval_nonneg : 0 <= retry_interval_seconds.

(** One round that does not end the wait: the request, then the sleep. *)
Lemma wait_loop_failed_round (fuel : nat) (retries : Z) (w : World)
    (l0 : Z) (r0 : reply) (tail : list (Z * reply)) :
  clock w < end_time ->
  retries < max_retries ->
  get_node_replies w = (l0, r0) :: tail ->
  r0 <> ready_reply ->
  CastApiUtils.wait_loop (S fuel) cluster_id node_id end_time
    retry_interval_seconds max_retries retries w
  = CastApiUtils.wait_loop fuel cluster_id node_id end_time
      retry_interval_seconds max_retries (retries + 1)
      (with_clock (clock w + l0 + retry_interval_seconds)
         (with_trace
            ((trace w ++ [(clock w, GetNodeStatus cluster_id node_id r0)])
             ++ [(clock w + l0, Sleep retry_interval_seconds)])
            (with_clock (clock w + l0)
               (with_get_node_replies tail
                  (with_trace
                     (trace w
                      ++ [(clock w, GetNodeStatus cluster_id node_id r0)])
                     w))))).
Proof.
  intros Hnow Hmax Hreplies Hr0.
  cbn [CastApiUtils.wait_loop]. unfold bind at 1, time_time at 1.
  destruct (Z.ltb_spec (clock w) end_time) as [_|Hno]; [|lia].
  destruct (Z.geb_spec retries max_retries) as [Hno|_]; [lia|].
  unfold bind at 1, try_except at 1, bind at 1,
    requests_get_node_phase at 1.
  rewrite Hreplies.
  destruct r0 as [phase|].
  - cbn -[CastApiUtils.wait_loop Z.add CastApiUtils.phase_is_ready].
    destruct (CastApiUtils.phase_is_ready phase) eqn:Hready.
    { exfalso. apply Hr0. apply reply_ready_iff. exact Hready. }
    unfold bind at 1, time_sleep at 1.
    destruct (Z.ltb_spec retry_interval_seconds 0) as [Hneg|_]; [lia|].
    unfold bind at 1, emit at 1. reflexivity.
  - cbn -[CastApiUtils.wait_loop Z.add].
    unfold bind at 1, time_sleep at 1.
    destruct (Z.ltb_spec retry_interval_seconds 0) as [Hneg|_]; [lia|].
    unfold bind at 1, emit at 1. reflexivity.
Qed.

(** The loop passes over replies that are not ready and stops at the first
    one that is, provided deadline and budget are not reached before. *)
Lemma wait_loop_reaches_ready (failed : list (Z * reply)) :
  forall (fuel : nat) (retries : Z) (w : World) (latency : Z)
         (rest : list (Z * reply)),
    get_node_replies w = failed ++ (latency, ready_reply) :: rest ->
    Forall (fun p => snd p <> ready_reply /\ 0 <= fst p) failed ->
    retries + Z.of_nat (length failed) < max_retries ->
    clock w + polls_duration retry_interval_seconds failed < end_time ->
    (length failed < fuel)%nat ->
    exists w',
      CastApiUtils.wait_loop fuel cluster_id node_id end_time
        retry_interval_seconds max_retries retries w = (Ok true, w')
      /\ trace w' =
           trace w
           ++ failed_polls_trace cluster_id node_id retry_interval_seconds
                (clock w) failed
           ++ [(clock w + polls_duration retry_interval_seconds failed,
                GetNodeStatus cluster_id node_id ready_reply)]
      /\ clock w' =
           clock w + polls_duration retry_interval_seconds failed + latency
      /\ get_node_replies w' = rest
      /\ cluster w' = cluster w
      /\ post_node_replies w' = post_node_replies w.
Proof.
  induction failed as [|[l0 r0] failed IH];
    intros fuel retries w latency rest Hreplies Hall Hbudget Htime Hfuel;
    (destruct fuel as [|fuel]; [simpl in Hfuel; lia|]).
  - cbn [CastApiUtils.wait_loop]. unfold bind at 1, time_time at 1.
    simpl in Htime, Hbudget, Hreplies.
    destruct (Z.ltb_spec (clock w) end_time) as [_|Hno]; [|lia].
    destruct (Z.geb_spec retries max_retries) as [Hno|_]; [lia|].
    unfold bind at 1, try_except at 1, bind at 1,
      requests_get_node_phase at 1.
    rewrite Hreplies. cbn.
    eexists. split; [reflexivity|]. cbn.
    rewrite !Z.add_0_r. repeat split; reflexivity.
  - apply Forall_cons in Hall as [[Hr0 Hl0] Hall]. simpl in Hr0, Hl0.
    pose proof (polls_duration_nonneg retry_interval_seconds failed
                  interval_nonneg Hall) as Hdur.
    cbn [polls_duration fold_right fst] in Htime.
    fold (polls_duration retry_interval_seconds failed) in Htime.
    cbn [length] in Hbudget, Hfuel.
    rewrite (wait_loop_failed_round fuel retries w l0 r0
               (failed ++ (latency, ready_reply) :: rest));
      [|lia|lia|exact Hreplies|exact Hr0].
    match goal with
    | |- context [CastApiUtils.wait_loop fuel _ _ _ _ _ _ ?w2] =>
        destruct (IH fuel (retries + 1) w2 latency rest)
          as (w' & Hrun & Htr & Hclk & Hrep & Hcl & Hpost);
          [reflexivity|exact Hall|lia|cbn; lia|lia|]
    end.
    exists w'. split; [exact Hrun|].
    cbn in Htr, Hclk, Hrep, Hcl, Hpost.
    split.
    { rewrite Htr. cbn [failed_polls_trace polls_duration fold_right fst].
      fold (polls_duration retry_interval_seconds failed).
      rewrite <- !app_assoc. cbn [app].
      replace (clock w
               + (l0 + retry_interval_seconds
                  + polls_duration retry_interval_seconds failed))
        with (clock w + l0 + retry_interval_seconds
              + polls_duration retry_interval_seconds failed) by lia.
      reflexivity. }
    cbn [polls_duration fold_right fst].
    fold (polls_duration retry_interval_seconds failed).
    split; [lia|]. auto.
Qed.

End WaitSucceeds.



(** A window or a poll budget that is not positive: [wait_for_node_ready]
    returns false at once, without a request, a sleep or any other
    effect. *)
Theorem wait_for_node_ready_without_budget (cluster_id api_key node_id : string)
    (timeout_minutes retry_interval_seconds max_retries : Z) (w : World) :
  timeout_minutes <= 0 \/ max_retries <= 0 ->
  CastApiUtils.wait_for_node_ready cluster_id api_key node_id
    timeout_minutes retry_interval_seconds max_retries w = (Ok false, w).
Proof.
  intros H. unfold CastApiUtils.wait_for_node_ready.
  unfold bind at 1, time_time at 1. cbn [CastApiUtils.wait_loop].
  unfold bind at 1, time_time at 1.
  destruct (Z.ltb_spec (clock w) (clock w + timeout_minutes * 60))
    as [Hin|_]; [|reflexivity].
  destruct (Z.geb_spec 0 max_retries) as [_|Hno]; [reflexivity|lia].
Qed.

Lemma wait_for_node_ready_without_budget_witness :
  CastApiUtils.wait_for_node_ready "c" "k" "new-1" 0 30 20
    Examples.polling_world = (Ok false, Examples.polling_world).
Proof.
  apply (wait_for_node_ready_without_budget "c" "k" "new-1" 0 30 20
           Examples.polling_world).
  left. lia.
Defined.

(** ** The request a rotation sends *)

Lemma same_service_trans (w w1 w2 : World) :
  same_service w w1 -> same_service w1 w2 -> same_service w w2.
Proof.
  unfold same_service.
  intros (H1 & H2 & H3 & H4 & H5) (H1' & H2' & H3' & H4' & H5').
  repeat split; congruence.
Qed.

(** [rotate_node] is its retry loop run after the three label reads and the
    catalog request, on what these resolved. *)
Lemma rotate_node_unfold (node_name cluster_id api_key : string) (w : World) :
  exists sched it w4,
    CastApiUtils.rotate_node node_name cluster_id api_key w
    = match CastApiUtils.resolve_template sched (world_templates w) with
      | (cfg, tol, labels) =>
          CastApiUtils.rotate_loop (S (Z.to_nat 3)) cluster_id api_key it cfg
            labels tol 3 0 w4
      end
    /\ trace w4 = trace w ++ rotation_reads w node_name cluster_id
    /\ cluster w4 = cluster w
    /\ same_service w w4
    /\ (sched = None
        \/ sched = node_label w node_name "scheduling.cast.ai/node-template")
    /\ (it = None
        \/ it = node_label w node_name "node.kubernetes.io/instance-type")
    /\ (accepts_next 3 w ->
        sched = node_label w node_name "scheduling.cast.ai/node-template"
        /\ it = node_label w node_name "node.kubernetes.io/instance-type").
Proof.
  unfold CastApiUtils.rotate_node.
  destruct (get_node_label_value_spec node_name "provisioner.cast.ai/node-id" w)
    as (v1 & w1 & Hrun1 & Htr1 & Hcl1 & Hsame1 & Hf1 & _ & _).
  rewrite (bind_ok _ _ _ _ _ Hrun1).
  destruct (get_node_label_value_spec node_name
              "scheduling.cast.ai/node-template" w1)
    as (sched & w2 & Hrun2 & Htr2 & Hcl2 & Hsame2 & Hf2 & Hs & Hs').
  rewrite (bind_ok _ _ _ _ _ Hrun2).
  destruct (get_node_label_value_spec node_name
              "node.kubernetes.io/instance-type" w2)
    as (it & w3 & Hrun3 & Htr3 & Hcl3 & Hsame3 & Hf3 & Hi & Hi').
  rewrite (bind_ok _ _ _ _ _ Hrun3).
  rewrite (bind_ok _ _ _ _ _ (fetch_node_templates_run cluster_id api_key w3)).
  pose proof (same_service_trans _ _ _ Hsame1
                (same_service_trans _ _ _ Hsame2 Hsame3)) as Hsame.
  assert (Htpl : world_templates w3 = world_templates w)
    by now apply world_templates_same.
  rewrite Htpl.
  exists sched, it,
    (with_trace (trace w3 ++ [(clock w3, GetNodeTemplates cluster_id)]) w3).
  split.
  { now destruct (CastApiUtils.resolve_template sched (world_templates w))
      as [[cfg tol] labels]. }
  assert (Hc1 : clock w1 = clock w) by apply Hsame1.
  assert (Hc2 : clock w2 = clock w) by (destruct Hsame2 as [-> _]; exact Hc1).
  assert (Hc3 : clock w3 = clock w) by apply Hsame.
  split.
  { cbn [trace with_trace]. rewrite Htr3, Htr2, Htr1, Hc1, Hc2, Hc3.
    unfold rotation_reads. now rewrite <- !app_assoc. }
  split; [cbn [cluster with_trace]; congruence|].
  split; [exact Hsame|].
  split.
  { destruct Hs as [-> | ->]; [now left|right]. now apply node_label_same. }
  split.
  { destruct Hi as [-> | ->]; [now left|right].
    rewrite (node_label_same w1 w2), (node_label_same w w1); auto. }
  intros Hacc.
  destruct (accepts_next_S _ _ _ Hacc Hf1) as [_ Hacc1].
  destruct (accepts_next_S _ _ _ Hacc1 Hf2) as [Hh2 Hacc2].
  destruct (accepts_next_S _ _ _ Hacc2 Hf3) as [Hh3 _].
  rewrite (Hs' Hh2), (Hi' Hh3). split.
  - now apply node_label_same.
  - rewrite (node_label_same w1 w2), (node_label_same w w1); auto.
Qed.

Lemma posts_carry_app (cluster_id : string) (payload : AddNodePayload)
    (evs1 evs2 : list (Z * event)) :
  posts_carry cluster_id payload evs1 ->
  posts_carry cluster_id payload evs2 ->
  posts_carry cluster_id payload (evs1 ++ evs2).
Proof. unfold posts_carry. intros H1 H2. apply Forall_app. auto. Qed.

Lemma posts_carry_wait_trace (cluster_id : string) (payload : AddNodePayload)
    (c node_id : string) (ri : Z) (polls : list (Z * reply * Z)) (b : bool)
    (t : Z) :
  posts_carry cluster_id payload (wait_trace c node_id ri polls b t).
Proof.
  unfold posts_carry.
  induction polls as [|[[t0 r] t1] polls IH].
  - unfold wait_trace. simpl. destruct b; repeat constructor.
  - rewrite wait_trace_cons. apply Forall_app. split; [|exact IH].
    repeat constructor.
Qed.

Section RotatePayload.

Variables (cluster_id api_key instance_type configuration_id : string).
Variable node_template_labels : option (gmap string string).
Variable node_template_tolerations : option (list Taint).

Local Abbreviation rotation_payload :=
  (rotation_payload instance_type configuration_id node_template_labels
     node_template_tolerations).

Lemma rotate_attempt_payload (w w1 : World) (r : result (option string)) :
  CastApiUtils.rotate_attempt cluster_id api_key (Some instance_type)
    (Some configuration_id) node_template_labels node_template_tolerations w
  = (r, w1) ->
  exists evs,
    trace w1 = trace w ++ evs /\ posts_carry cluster_id rotation_payload evs.
Proof.
  unfold CastApiUtils.rotate_attempt.
  destruct (str_truthy (Some instance_type)).
  2:{ intros H. injection H as <- <-. exists []. rewrite app_nil_r.
      split; [reflexivity|constructor]. }
  destruct (add_node_spec cluster_id api_key instance_type configuration_id
              node_template_labels node_template_tolerations w)
    as (v & w0 & rep & payload & Hadd & Htr0 & _ & Hp1 & Hp2 & Hp3 & Hp4 & _).
  rewrite (bind_ok _ _ _ _ _ Hadd).
  assert (Hpayload : payload = rotation_payload).
  { destruct payload. simpl in *. unfold rotation_payload. congruence. }
  subst payload.
  assert (Hpost : posts_carry cluster_id rotation_payload
                    [(clock w, PostNode cluster_id rotation_payload rep)]).
  { repeat constructor. }
  assert (Hstop : forall o, (Ok o, w0) = (r, w1) ->
            exists evs, trace w1 = trace w ++ evs
                        /\ posts_carry cluster_id rotation_payload evs).
  { intros o H. injection H as <- <-. eauto. }
  destruct v as [id|]; [|apply Hstop].
  destruct (str_truthy (Some id)); [|apply Hstop].
  destruct (wait_for_node_ready_frame cluster_id api_key id 7 30 20 w0)
    as (b & w2 & polls & t & Hwait & Htr2 & _); [lia|].
  rewrite (bind_ok _ _ _ _ _ Hwait).
  intros H.
  assert (Hw : w1 = w2) by (destruct b; now injection H).
  subst w1.
  exists ([(clock w, PostNode cluster_id rotation_payload rep)]
          ++ wait_trace cluster_id id 30 polls b t).
  split; [rewrite Htr2, Htr0; now rewrite <- app_assoc|].
  apply posts_carry_app; [exact Hpost|apply posts_carry_wait_trace].
Qed.

Lemma rotate_loop_payload (max_retries : Z) (fuel : nat) :
  forall (retry_count : Z) (w w' : World) (r : result (option string)),
    CastApiUtils.rotate_loop fuel cluster_id api_key (Some instance_type)
      (Some configuration_id) node_template_labels node_template_tolerations
      max_retries retry_count w = (r, w') ->
    exists evs,
      trace w' = trace w ++ evs /\ posts_carry cluster_id rotation_payload evs.
Proof.
  assert (Hnil : forall w, exists evs,
            trace w = trace w ++ evs
            /\ posts_carry cluster_id rotation_payload evs).
  { intros w. exists []. rewrite app_nil_r. split; [reflexivity|constructor]. }
  induction fuel as [|fuel IH]; intros retry_count w w' r;
    cbn [CastApiUtils.rotate_loop].
  - intros H. injection H as <- <-. apply Hnil.
  - destruct (retry_count <? max_retries).
    2:{ intros H. injection H as <- <-. apply Hnil. }
    unfold bind at 1.
    destruct (CastApiUtils.rotate_attempt cluster_id api_key
                (Some instance_type) (Some configuration_id)
                node_template_labels node_template_tolerations w)
      as [[o|e] w1] eqn:Hattempt;
      destruct (rotate_attempt_payload _ _ _ Hattempt) as (evs1 & Htr1 & Hc1).
    + destruct o as [id|].
      * intros H. injection H as <- <-. eauto.
      * intros H. destruct (IH _ _ _ _ H) as (evs & Htr & Hc).
        exists (evs1 ++ evs). split.
        -- rewrite Htr, Htr1. now rewrite <- app_assoc.
        -- now apply posts_carry_app.
    + intros H. injection H as <- <-. eauto.
Qed.

End RotatePayload.

Lemma resolve_template_found (tname cfg : string) (td : Template)
    (node_templates : NodeTemplates) :
  tname <> "" ->
  CastApiUtils.find_node_template_details node_templates tname = td ->
  configurationId td = Some cfg ->
  CastApiUtils.resolve_template (Some tname) node_templates
  = (Some cfg, Some (template_taints td), Some (template_labels tname td)).
Proof.
  intros Hname Hfind Hcfg. unfold CastApiUtils.resolve_template, str_truthy.
  destruct (String.eqb_spec tname ""); [contradiction|]. simpl.
  rewrite Hfind.
  assert (Htruthy : template_truthy td = true).
  { unfold template_truthy. now rewrite Hcfg; destruct (name td). }
  now rewrite Htruthy, Hcfg.
Qed.

(** Every create-node call of a rotation carries the same request, resolved
    once before the retry loop: the node's instance type, the configuration
    id of the node's template, the template's custom taints, and the
    template's custom labels with the template name forced in under
    [scheduling.cast.ai/node-template], whatever the template itself says
    for that key. *)
Theorem rotation_requests_carry_the_template
    (node_name cluster_id api_key : string) (w : World)
    (it tname cfg : string) (td : Template) :
  accepts_next 3 w ->
  node_label w node_name "node.kubernetes.io/instance-type" = Some it ->
  node_label w node_name "scheduling.cast.ai/node-template" = Some tname ->
  tname <> "" ->
  CastApiUtils.find_node_template_details (world_templates w) tname = td ->
  configurationId td = Some cfg ->
  exists r w' evs,
    CastApiUtils.rotate_node node_name cluster_id api_key w = (r, w')
    /\ trace w' = trace w ++ evs
    /\ posts_carry cluster_id
         (rotation_payload it cfg (Some (template_labels tname td))
            (Some (template_taints td))) evs
    /\ template_labels tname td !! "scheduling.cast.ai/node-template"
       = Some tname
    /\ (forall key, key <> "scheduling.cast.ai/node-template" ->
          template_labels tname td !! key
          = default ∅ (customLabels td) !! key).
Proof.
  intros Hacc Hit Htname Hname Hfind Hcfg.
  destruct (rotate_node_unfold node_name cluster_id api_key w)
    as (sched & it' & w4 & Hrun & Htr4 & _ & _ & _ & _ & Hres).
  destruct (Hres Hacc) as [-> ->]. rewrite Htname, Hit in Hrun.
  rewrite (resolve_template_found tname cfg td _ Hname Hfind Hcfg) in Hrun.
  destruct (CastApiUtils.rotate_loop (S (Z.to_nat 3)) cluster_id api_key
              (Some it) (Some cfg) (Some (template_labels tname td))
              (Some (template_taints td)) 3 0 w4) as [r w'] eqn:Hloop.
  destruct (rotate_loop_payload _ _ _ _ _ _ _ _ _ _ _ _ Hloop)
    as (evs & Htr & Hcarry).
  exists r, w', (rotation_reads w node_name cluster_id ++ evs).
  split; [exact Hrun|].
  split; [rewrite Htr, Htr4; now rewrite <- app_assoc|].
  split.
  { apply posts_carry_app; [|exact Hcarry]. unfold rotation_reads.
    repeat constructor. }
  unfold template_labels.
  split; [apply lookup_insert_eq|].
  intros key Hkey. now apply lookup_insert_ne.
Qed.

Lemma rotation_requests_carry_the_template_witness :
  exists r w' evs,
    CastApiUtils.rotate_node "n1" "c" "k" Examples.failing_service_world
    = (r, w')
    /\ trace w' = trace Examples.failing_service_world ++ evs
    /\ posts_carry "c"
         (rotation_payload "m5.large" "c1"
            (Some (template_labels "gpu" Examples.gpu_template))
            (Some (template_taints Examples.gpu_template))) evs
    /\ create_node_calls
         (trace (snd (CastApiUtils.rotate_node "n1" "c" "k"
                        Examples.failing_service_world))) = 3%nat.
Proof.
  destruct (rotation_requests_carry_the_template "n1" "c" "k"
              Examples.failing_service_world "m5.large" "gpu" "c1"
              Examples.gpu_template)
    as (r & w' & evs & Hrun & Htr & Hcarry & _).
  - repeat constructor.
  - reflexivity.
  - reflexivity.
  - discriminate.
  - reflexivity.
  - reflexivity.
  - exists r, w', evs. repeat split; auto.
Defined.

(** A node whose instance-type label is missing or empty is never
    replaced: whatever the catalog and the provisioning service would
    answer, the rotation makes no create-node call and returns [None]. *)
Theorem rotation_without_instance_type (node_name cluster_id api_key : string)
    (w : World) :
  node_label w node_name "node.kubernetes.io/instance-type" = None
  \/ node_label w node_name "node.kubernetes.io/instance-type" = Some "" ->
  exists w',
    CastApiUtils.rotate_node node_name cluster_id api_key w = (Ok None, w')
    /\ trace w' = trace w ++ rotation_reads w node_name cluster_id
    /\ cluster w' = cluster w.
Proof.
  intros Hit.
  destruct (rotate_node_unfold node_name cluster_id api_key w)
    as (sched & it & w4 & Hrun & Htr4 & Hcl4 & _ & _ & Hi & _).
  assert (Hfalsy : str_truthy it = false).
  { destruct Hi as [-> | ->]; [reflexivity|].
    destruct Hit as [-> | ->]; reflexivity. }
  destruct (CastApiUtils.resolve_template sched (world_templates w))
    as [[cfg tol] labels].
  destruct (rotate_loop_spec cluster_id api_key it cfg labels tol 3
              (S (Z.to_nat 3)) 0 w4 ltac:(lia))
    as (o & w' & evs & Hloop & Htr & Hcl & _ & _ & _ & Hoff & _).
  destruct Hoff as [-> ->].
  { unfold provisioning_guard. now rewrite Hfalsy. }
  exists w'. rewrite Hrun. split; [exact Hloop|].
  rewrite app_nil_r in Htr. split; congruence.
Qed.

Lemma rotation_without_instance_type_witness :
  exists w',
    CastApiUtils.rotate_node "n1" "c" "k" Examples.no_instance_type_world
    = (Ok None, w')
    /\ trace w' =
         trace Examples.no_instance_type_world
         ++ rotation_reads Examples.no_instance_type_world "n1" "c"
    /\ cluster w' = cluster Examples.no_instance_type_world.
Proof.
  apply (rotation_without_instance_type "n1" "c" "k"
           Examples.no_instance_type_world).
  left. reflexivity.
Defined.

(** ** A rotation that succeeds *)

Lemma add_node_run (cluster_id api_key instance_type configuration_id : string)
    (labels : option (gmap string string)) (taints : option (list Taint))
    (w : World) (r : reply) (rest : list reply) :
  post_node_replies w = r :: rest ->
  CastApiUtils.add_node cluster_id api_key instance_type configuration_id
    labels taints w
  = (Ok (match r with Some node_id => node_id | None => None end),
     with_post_node_replies rest
       (with_trace
          (trace w
           ++ [(clock w,
                PostNode cluster_id
                  (rotation_payload instance_type configuration_id labels
                     taints) r)]) w)).
Proof.
  intros Hr. unfold CastApiUtils.add_node, try_except, requests_post_node.
  rewrite Hr. now destruct r.
Qed.

Lemma wait_for_node_ready_reaches_ready (cluster_id api_key node_id : string)
    (timeout_minutes retry_interval_seconds max_retries : Z) (w : World)
    (failed : list (Z * reply)) (latency : Z) (rest : list (Z * reply)) :
  0 <= retry_interval_seconds ->
  get_node_replies w = failed ++ (latency, ready_reply) :: rest ->
  Forall (fun p => snd p <> ready_reply /\ 0 <= fst p) failed ->
  Z.of_nat (length failed) < max_retries ->
  polls_duration retry_interval_seconds failed < timeout_minutes * 60 ->
  exists w',
    CastApiUtils.wait_for_node_ready cluster_id api_key node_id
      timeout_minutes retry_interval_seconds max_retries w = (Ok true, w')
    /\ trace w' =
         trace w
         ++ failed_polls_trace cluster_id node_id retry_interval_seconds
              (clock w) failed
         ++ [(clock w + polls_duration retry_interval_seconds failed,
              GetNodeStatus cluster_id node_id ready_reply)]
    /\ cluster w' = cluster w.
Proof.
  intros Hri Hreplies Hall Hbudget Htime.
  unfold CastApiUtils.wait_for_node_ready.
  unfold bind at 1, time_time at 1.
  destruct (wait_loop_reaches_ready cluster_id node_id
              (clock w + timeout_minutes * 60) retry_interval_seconds
              max_retries Hri failed (S (Z.to_nat max_retries)) 0 w latency
              rest Hreplies Hall)
    as (w' & Hrun & Htr & _ & _ & Hcl & _); [lia|lia|lia|].
  exists w'. auto.
Qed.

(** The rotation succeeds at its first attempt when the reads are accepted,
    the node has an instance type and a template with a configuration id,
    the service returns a node id for the first request and reports that
    node ready within the 7 minutes and 20 polls of the wait: [rotate_node]
    returns that id after a single create-node call, and the last thing it
    does is the status request that saw the node ready. *)
Theorem rotation_succeeds_at_first_attempt
    (node_name cluster_id api_key : string) (w : World)
    (it tname cfg id : string) (td : Template) (more : list reply)
    (failed : list (Z * reply)) (latency : Z) (rest : list (Z * reply)) :
  accepts_next 3 w ->
  node_label w node_name "node.kubernetes.io/instance-type" = Some it ->
  it <> "" ->
  node_label w node_name "scheduling.cast.ai/node-template" = Some tname ->
  tname <> "" ->
  CastApiUtils.find_node_template_details (world_templates w) tname = td ->
  configurationId td = Some cfg ->
  post_node_replies w = Some (Some id) :: more ->
  id <> "" ->
  get_node_replies w = failed ++ (latency, Some (Some "ready")) :: rest ->
  Forall (fun p => snd p <> Some (Some "ready") /\ 0 <= fst p) failed ->
  Z.of_nat (length failed) < 20 ->
  polls_duration 30 failed < 7 * 60 ->
  exists w',
    CastApiUtils.rotate_node node_name cluster_id api_key w = (Ok (Some id), w')
    /\ trace w' =
         trace w
         ++ rotation_reads w node_name cluster_id
         ++ [(clock w,
              PostNode cluster_id
                (rotation_payload it cfg (Some (template_labels tname td))
                   (Some (template_taints td))) (Some (Some id)))]
         ++ failed_polls_trace cluster_id id 30 (clock w) failed
         ++ [(clock w + polls_duration 30 failed,
              GetNodeStatus cluster_id id (Some (Some "ready")))]
    /\ cluster w' = cluster w.
Proof.
  intros Hacc Hit Hitne Htname Hname Hfind Hcfg Hpost Hid Hget Hall Hlen Hdur.
  destruct (rotate_node_unfold node_name cluster_id api_key w)
    as (sched & it' & w4 & Hrun & Htr4 & Hcl4 & Hsame & _ & _ & Hres).
  destruct (Hres Hacc) as [-> ->]. rewrite Htname, Hit in Hrun.
  rewrite (resolve_template_found tname cfg td _ Hname Hfind Hcfg) in Hrun.
  destruct Hsame as (Hclk4 & _ & _ & Hpost4 & Hget4).
  rewrite Hrun. cbn [CastApiUtils.rotate_loop Z.to_nat Pos.to_nat
                     Pos.iter_op Nat.add].
  change (0 <? 3) with true. cbv iota.
  unfold bind at 1, CastApiUtils.rotate_attempt.
  assert (Hit' : str_truthy (Some it) = true).
  { unfold str_truthy. destruct (String.eqb_spec it ""); [contradiction|].
    reflexivity. }
  assert (Hid' : str_truthy (Some id) = true).
  { unfold str_truthy. destruct (String.eqb_spec id ""); [contradiction|].
    reflexivity. }
  rewrite Hit'.
  rewrite Hpost in Hpost4.
  rewrite (bind_ok _ _ _ _ _
             (add_node_run cluster_id api_key it cfg
                (Some (template_labels tname td)) (Some (template_taints td))
                w4 (Some (Some id)) more Hpost4)).
  rewrite Hid'.
  set (w5 := with_post_node_replies more
               (with_trace
                  (trace w4
                   ++ [(clock w4,
                        PostNode cluster_id
                          (rotation_payload it cfg
                             (Some (template_labels tname td))
                             (Some (template_taints td)))
                          (Some (Some id)))]) w4)).
  destruct (wait_for_node_ready_reaches_ready cluster_id api_key id 7 30 20
              w5 failed latency rest)
    as (w' & Hwait & Htr & Hcl); [lia| |exact Hall|exact Hlen|exact Hdur|].
  { subst w5. cbn [get_node_replies with_post_node_replies with_trace].
    now rewrite Hget4. }
  rewrite (bind_ok _ _ _ _ _ Hwait). cbn [ret].
  exists w'. split; [reflexivity|].
  subst w5. cbn [trace clock cluster with_post_node_replies with_trace]
    in Htr, Hcl.
  split.
  - rewrite Htr, Htr4, Hclk4. now rewrite <- !app_assoc.
  - congruence.
Qed.

Lemma rotation_succeeds_at_first_attempt_witness :
  exists w',
    CastApiUtils.rotate_node "n1" "c" "k" (Examples.one_node_world [])
    = (Ok (Some "new-1"), w')
    /\ cluster w' = cluster (Examples.one_node_world []).
Proof.
  destruct (rotation_succeeds_at_first_attempt "n1" "c" "k"
              (Examples.one_node_world []) "m5.large" "gpu" "c1" "new-1"
              Examples.gpu_template [] [] 2 [])
    as (w' & Hrun & _ & Hcl).
  - repeat constructor.
  - reflexivity.
  - discriminate.
  - reflexivity.
  - discriminate.
  - reflexivity.
  - reflexivity.
  - reflexivity.
  - discriminate.
  - reflexivity.
  - constructor.
  - simpl. lia.
  - simpl. lia.
  - exists w'. auto.
Defined.

(** ** Waiting for new nodes: what is returned *)

Lemma wait_cycles_first (list_node : nat -> list V1Node)
    (original_nodes : list string) (MIN_READY_NODES : Z)
    (remaining cycle : nat) (names : list string) :
  NodeUtils.wait_cycles list_node original_nodes MIN_READY_NODES
    remaining cycle = Ok (Some names) ->
  exists k ready,
    (k < remaining)%nat
    /\ (forall j, (j < k)%nat ->
          exists earlier,
            NodeUtils.ready_new_nodes (list_node (cycle + j)%nat)
              original_nodes = Ok earlier
            /\ Z.of_nat (length earlier) < MIN_READY_NODES)
    /\ NodeUtils.ready_new_nodes (list_node (cycle + k)%nat) original_nodes
       = Ok ready
    /\ MIN_READY_NODES <= Z.of_nat (length ready)
    /\ names = map metadata_name ready.
Proof.
  revert cycle. induction remaining as [|r IH]; intros cycle; simpl;
    [discriminate|].
  destruct (NodeUtils.ready_new_nodes (list_node cycle) original_nodes)
    as [ready|e] eqn:Hready; [|discriminate].
  destruct (Z.leb_spec MIN_READY_NODES (Z.of_nat (length ready)))
    as [Hle|Hlt].
  - intros H. injection H as <-. exists O, ready. rewrite Nat.add_0_r.
    split; [lia|]. split; [intros j Hj; lia|]. auto.
  - intros H. apply IH in H as (k & ready' & Hk & Hbefore & Hr & Hle & ->).
    exists (S k), ready'.
    replace (cycle + S k)%nat with (S cycle + k)%nat by lia.
    split; [lia|]. split; [|auto].
    intros [|j] Hj.
    + rewrite Nat.add_0_r. eauto.
    + replace (cycle + S j)%nat with (S cycle + j)%nat by lia.
      apply Hbefore. lia.
Qed.

(** A list [wait_for_new_nodes] returns comes from one listing within the
    cycle budget, the first one that reached the minimum: it holds the names
    of that listing's ready new nodes, at least the minimum of them, and
    none of them is an original node. *)
Theorem wait_for_new_nodes_returns_new_ready_names
    (list_node : nat -> list V1Node) (MIN_READY_NODES total_wait_cycles : Z)
    (original_nodes names : list string) :
  NodeUtils.wait_for_new_nodes list_node MIN_READY_NODES total_wait_cycles
    original_nodes = Ok (Some names) ->
  exists k ready,
    Z.of_nat k < total_wait_cycles
    /\ (forall j, (j < k)%nat ->
          exists earlier,
            NodeUtils.ready_new_nodes (list_node j) original_nodes
            = Ok earlier
            /\ Z.of_nat (length earlier) < MIN_READY_NODES)
    /\ NodeUtils.ready_new_nodes (list_node k) original_nodes = Ok ready
    /\ names = map metadata_name ready
    /\ MIN_READY_NODES <= Z.of_nat (length names)
    /\ (forall n, In n names ->
          ~ In n original_nodes
          /\ exists node, In node (list_node k) /\ metadata_name node = n
               /\ NodeUtils.ready_conditions_all_true node = Ok true).
Proof.
  intros H. unfold NodeUtils.wait_for_new_nodes in H.
  apply wait_cycles_first in H as (k & ready & Hk & Hbefore & Hr & Hle & ->).
  simpl in *. exists k, ready.
  split; [lia|]. split; [exact Hbefore|]. split; [exact Hr|].
  split; [reflexivity|]. split; [now rewrite length_map|].
  intros n Hn. apply in_map_iff in Hn as (node & <- & Hin).
  apply (ready_new_nodes_In _ _ _ node Hr) in Hin as (Hin & Hnew & Hready).
  split; [exact Hnew|]. exists node. split; [exact Hin|].
  split; [reflexivity|]. now apply ready_conditions_all_true_iff.
Qed.

Lemma wait_for_new_nodes_returns_new_ready_names_witness :
  exists k ready,
    Z.of_nat k < 5
    /\ NodeUtils.ready_new_nodes
         [Examples.old_node; Examples.unready_node; Examples.fresh_node]
         ["old-1"] = Ok ready
    /\ ["new-1"] = map metadata_name ready
    /\ 1 <= Z.of_nat (length ["new-1"]).
Proof.
  destruct (wait_for_new_nodes_returns_new_ready_names
              (fun _ => [Examples.old_node; Examples.unready_node;
                         Examples.fresh_node]) 1 5 ["old-1"] ["new-1"])
    as (k & ready & Hk & _ & Hr & Hnames & Hle & _).
  - vm_compute. reflexivity.
  - exists k, ready. auto.
Defined.

(** The bounds of the wait. With a cycle budget that is not positive the
    nodes are never listed and the result is [None]. With a minimum that is
    not positive and a positive budget the first listing is returned at
    once, even when it has no ready new node: the empty list. *)
Theorem wait_for_new_nodes_at_the_bounds (list_node : nat -> list V1Node)
    (MIN_READY_NODES total_wait_cycles : Z) (original_nodes : list string) :
  (total_wait_cycles <= 0 ->
   NodeUtils.wait_for_new_nodes list_node MIN_READY_NODES total_wait_cycles
     original_nodes = Ok None)
  /\ (forall ready,
        0 < total_wait_cycles -> MIN_READY_NODES <= 0 ->
        NodeUtils.ready_new_nodes (list_node O) original_nodes = Ok ready ->
        NodeUtils.wait_for_new_nodes list_node MIN_READY_NODES
          total_wait_cycles original_nodes
        = Ok (Some (map metadata_name ready)))
  /\ (0 < total_wait_cycles -> MIN_READY_NODES <= 0 ->
      (forall node, In node (list_node O) ->
                    In (metadata_name node) original_nodes) ->
      NodeUtils.wait_for_new_nodes list_node MIN_READY_NODES total_wait_cycles
        original_nodes = Ok (Some [])).
Proof.
  unfold NodeUtils.wait_for_new_nodes.
  assert (Hfirst : forall ready,
            0 < total_wait_cycles -> MIN_READY_NODES <= 0 ->
            NodeUtils.ready_new_nodes (list_node O) original_nodes
            = Ok ready ->
            NodeUtils.wait_cycles list_node original_nodes MIN_READY_NODES
              (Z.to_nat total_wait_cycles) O
            = Ok (Some (map metadata_name ready))).
  { intros ready Hc Hm Hr.
    destruct (Z.to_nat total_wait_cycles) as [|r] eqn:Hcycles; [lia|]. simpl.
    rewrite Hr.
    destruct (Z.leb_spec MIN_READY_NODES (Z.of_nat (length ready)));
      [reflexivity|lia]. }
  split; [|split].
  - intros Hc. replace (Z.to_nat total_wait_cycles) with O by lia.
    reflexivity.
  - exact Hfirst.
  - intros Hc Hm Hall.
    apply (Hfirst [] Hc Hm). unfold NodeUtils.ready_new_nodes.
    apply select_ready_none. intros node Hin.
    apply not_true_is_false. rewrite name_in_In, new_nodes_In.
    intros [_ Hnew]. apply Hnew, Hall, Hin.
Qed.

Lemma wait_for_new_nodes_at_the_bounds_witness :
  NodeUtils.wait_for_new_nodes (fun _ => [Examples.old_node]) 0 5 ["old-1"]
  = Ok (Some []).
Proof.
  destruct (wait_for_new_nodes_at_the_bounds
              (fun _ => [Examples.old_node]) 0 5 ["old-1"]) as (_ & _ & H).
  apply H; [lia|lia|]. intros node [<-|[]]. now left.
Defined.

(** ** Staleness: how the threshold moves *)

(** For positive thresholds staleness only grows with time and shrinks
    with the threshold: a node stale for [days2] days at [now] is stale for
    every smaller positive threshold at every later instant. And because of
    the day of padding, a node aged two days or less is stale for no
    positive threshold. *)
Theorem is_node_older_than_monotone (now now' : Z) (node : V1Node)
    (days1 days2 : Z) :
  (0 < days1 <= days2 -> now <= now' ->
   NodeUtils.is_node_older_than now node days2 = true ->
   NodeUtils.is_node_older_than now' node days1 = true)
  /\ (0 < days1 ->
      now - metadata_creation_timestamp node
      <= 2 * NodeUtils.microseconds_per_day ->
      NodeUtils.is_node_older_than now node days1 = false).
Proof.
  unfold NodeUtils.is_node_older_than, NodeUtils.timedelta_days,
    NodeUtils.microseconds_per_day.
  split.
  - intros Hd Hnow.
    destruct (Z.eqb_spec days2 0) as [|_]; [lia|].
    destruct (Z.eqb_spec days1 0) as [|_]; [lia|].
    rewrite !Z.gtb_gt. nia.
  - intros Hd Hage. destruct (Z.eqb_spec days1 0) as [|_]; [lia|].
    apply not_true_is_false. rewrite Z.gtb_gt. nia.
Qed.

Lemma is_node_older_than_monotone_witness :
  NodeUtils.is_node_older_than (11 * NodeUtils.microseconds_per_day)
    Examples.old_node 1 = true.
Proof.
  destruct (is_node_older_than_monotone
              (10 * NodeUtils.microseconds_per_day)
              (11 * NodeUtils.microseconds_per_day) Examples.old_node 1 3)
    as [H _].
  apply H; [lia| |reflexivity].
  unfold NodeUtils.microseconds_per_day. lia.
Defined.

(** ** The critical-workload scan: nothing to scan *)

(** With an empty critical-workload list, or with no pod on the node, the
    call, its pod listing accepted, makes that one request and answers
    false, whatever the other input holds: malformed entries are not looked
    at when there is no pod, and pods without labels are not looked at when
    there is no entry. *)
Theorem critical_pods_nothing_to_scan (CRITICAL_WORKLOADS : list string)
    (node_name : string) (w : World) :
  hd false (api_faults w) = false ->
  CRITICAL_WORKLOADS = []
  \/ (forall pod, In pod (pods (cluster w)) ->
                  pod_spec_node_name pod <> Some node_name) ->
  exists w',
    NodeUtils.is_node_running_critical_pods_call CRITICAL_WORKLOADS node_name w
    = (Ok false, w')
    /\ trace w' = trace w ++ [(clock w, ListPods node_name)]
    /\ cluster w' = cluster w.
Proof.
  intros Haccepted Hnothing.
  destruct (critical_pods_call_run CRITICAL_WORKLOADS node_name w)
    as (w1 & Hrun & Htrace & Hcluster).
  exists w1. split; [|auto]. rewrite Hrun, Haccepted. f_equal.
  unfold NodeUtils.is_node_running_critical_pods.
  destruct Hnothing as [->|Hnone].
  - induction (NodeUtils.list_pod_on_node (pods (cluster w)) node_name)
      as [|pod l IH]; simpl; [reflexivity|exact IH].
  - assert (Hempty : NodeUtils.list_pod_on_node (pods (cluster w)) node_name
                     = []).
    { destruct (NodeUtils.list_pod_on_node (pods (cluster w)) node_name)
        as [|pod l] eqn:Hl; [reflexivity|].
      assert (Hin : In pod (NodeUtils.list_pod_on_node (pods (cluster w))
                              node_name))
        by (rewrite Hl; now left).
      apply list_pod_on_node_In in Hin as [Hin Hn].
      destruct (Hnone pod Hin Hn). }
    now rewrite Hempty.
Qed.

Lemma critical_pods_nothing_to_scan_witness :
  exists w',
    NodeUtils.is_node_running_critical_pods_call ["app"; "a=b=c"] "n1"
      (Examples.base_world [] [Examples.mk_pod "elsewhere" None "n2"])
    = (Ok false, w')
    /\ trace w' = [(1000, ListPods "n1")]
    /\ cluster w'
       = cluster (Examples.base_world []
                    [Examples.mk_pod "elsewhere" None "n2"]).
Proof.
  apply (critical_pods_nothing_to_scan ["app"; "a=b=c"] "n1"
           (Examples.base_world [] [Examples.mk_pod "elsewhere" None "n2"])).
  - reflexivity.
  - right. intros pod [<-|[]]. discriminate.
Defined.

(** ** Finding the node of a running pod *)

Lemma prefix_occurs (sub s : string) :
  String.prefix sub s = true <-> exists after, s = (sub ++ after)%string.
Proof.
  revert s. induction sub as [|c sub IH]; intros s; simpl.
  - split; [intros _; now exists s|intros _; now destruct s].
  - destruct s as [|d s].
    + split; [discriminate|intros [after H]; discriminate].
    + simpl. destruct (Ascii.ascii_dec c d) as [->|Hne].
      * rewrite IH. split.
        -- intros [after ->]. now exists after.
        -- intros [after H]. injection H as ->. now exists after.
      * split; [discriminate|].
        intros [after H]. injection H as <- _. now destruct Hne.
Qed.

Lemma str_contains_occurs (sub s : string) :
  NodeUtils.str_contains sub s = true <-> occurs_in sub s.
Proof.
  unfold occurs_in. induction s as [|d s IH]; cbn [NodeUtils.str_contains].
  - rewrite orb_false_r, prefix_occurs. split.
    + intros [after H]. now exists EmptyString, after.
    + intros ([|c before] & after & H); [now exists after|discriminate].
  - rewrite orb_true_iff, prefix_occurs, IH. split.
    + intros [[after H]|(before & after & ->)].
      * now exists EmptyString, after.
      * now exists (String d before), after.
    + intros ([|c before] & after & H).
      * left. now exists after.
      * right. injection H as _ ->. now exists before, after.
Qed.

Lemma running_match_spec (pod_name_substring : string)
    (pod : NodeUtils.ListedPod) :
  running_match pod_name_substring pod = true
  <-> occurs_in pod_name_substring
        (pod_metadata_name (NodeUtils.listed_pod pod))
      /\ NodeUtils.status_phase pod = Some "Running".
Proof.
  unfold running_match.
  rewrite andb_true_iff, str_contains_occurs.
  destruct (NodeUtils.status_phase pod) as [phase|].
  - rewrite String.eqb_eq. split.
    + intros [H ->]. auto.
    + intros [H E]. injection E as ->. auto.
  - split; [intros [_ H]; discriminate|intros [_ H]; discriminate].
Qed.

(** [get_node_for_running_pod] answers with the node of the first listed
    pod whose name holds the substring and whose phase is ["Running"]; pods
    listed before it that are not running, or whose name does not hold the
    substring, are passed over. It answers [None] when no listed pod
    qualifies, and also when the first qualifying pod has no node name. *)
Theorem get_node_for_running_pod_first_match
    (pods : list NodeUtils.ListedPod) (pod_name_substring : string) :
  (forall pod, In pod pods ->
     ~ (occurs_in pod_name_substring
          (pod_metadata_name (NodeUtils.listed_pod pod))
        /\ NodeUtils.status_phase pod = Some "Running"))
  /\ NodeUtils.get_node_for_running_pod pods pod_name_substring = None
  \/ exists before pod after,
       pods = before ++ pod :: after
       /\ (forall earlier, In earlier before ->
             ~ (occurs_in pod_name_substring
                  (pod_metadata_name (NodeUtils.listed_pod earlier))
                /\ NodeUtils.status_phase earlier = Some "Running"))
       /\ occurs_in pod_name_substring
            (pod_metadata_name (NodeUtils.listed_pod pod))
       /\ NodeUtils.status_phase pod = Some "Running"
       /\ NodeUtils.get_node_for_running_pod pods pod_name_substring
          = pod_spec_node_name (NodeUtils.listed_pod pod).
Proof.
  induction pods as [|pod rest IH].
  - left. split; [intros pod []|reflexivity].
  - cbn [NodeUtils.get_node_for_running_pod].
    fold (running_match pod_name_substring pod).
    destruct (running_match pod_name_substring pod) eqn:Hm.
    + right. exists [], pod, rest. apply running_match_spec in Hm as [Ho Hp].
      split; [reflexivity|]. split; [intros earlier []|]. auto.
    + assert (Hno : ~ (occurs_in pod_name_substring
                         (pod_metadata_name (NodeUtils.listed_pod pod))
                       /\ NodeUtils.status_phase pod = Some "Running")).
      { intros H. apply running_match_spec in H. congruence. }
      destruct IH as [[Hnone Hr]|(before & pod' & after & -> & Hb & Ho & Hp & Hr)].
      * left. split; [|exact Hr].
        intros pod0 [<-|Hin]; [exact Hno|now apply Hnone].
      * right. exists (pod :: before), pod', after.
        split; [reflexivity|]. split; [|auto].
        intros earlier [<-|Hin]; [exact Hno|now apply Hb].
Qed.

(** The empty substring occurs in every name: with it the answer is the
    node of the first pod whose phase is ["Running"], whatever it is
    called. *)
Theorem get_node_for_running_pod_empty_substring
    (before after : list NodeUtils.ListedPod) (pod : NodeUtils.ListedPod) :
  (forall earlier, In earlier before ->
     NodeUtils.status_phase earlier <> Some "Running") ->
  NodeUtils.status_phase pod = Some "Running" ->
  NodeUtils.get_node_for_running_pod (before ++ pod :: after) ""
  = pod_spec_node_name (NodeUtils.listed_pod pod).
Proof.
  intros Hb Hp.
  assert (Hany : forall s, NodeUtils.str_contains "" s = true)
    by (intros s; destruct s; reflexivity).
  induction before as [|earlier before IH]; cbn [app NodeUtils.get_node_for_running_pod].
  - rewrite Hany, Hp. reflexivity.
  - rewrite Hany. cbn [andb].
    destruct (NodeUtils.status_phase earlier) as [phase|] eqn:He.
    + destruct (String.eqb_spec phase "Running") as [->|_].
      * destruct (Hb earlier (or_introl eq_refl)). exact He.
      * apply IH. intros e He'. apply Hb. now right.
    + apply IH. intros e He'. apply Hb. now right.
Qed.

Lemma get_node_for_running_pod_empty_substring_witness :
  NodeUtils.get_node_for_running_pod
    ([Examples.running "job-1" "n1" "Succeeded"]
     ++ Examples.running "web-7" "n2" "Running"
     :: [Examples.running "db-0" "n3" "Running"]) ""
  = Some "n2".
Proof.
  apply (get_node_for_running_pod_empty_substring
           [Examples.running "job-1" "n1" "Succeeded"]
           [Examples.running "db-0" "n3" "Running"]
           (Examples.running "web-7" "n2" "Running")).
  - intros earlier [<-|[]]. discriminate.
  - reflexivity.
Defined.
